(** * VDG Investment Analyzer: the property financial metrics engine

    A shallow embedding of [client/src/lib/calculations.ts]
    ([calculateMetrics], [calculateValuation]), of the data model of
    [shared/schema.ts] and of the portfolio totals of
    [client/src/components/Dashboard.tsx], with the properties the
    specification states about them; and of the code around the engine:
    the handlers of the home page ([client/src/pages/home.tsx]), the
    manual expenses and the purchase price of the input form
    ([ManualExpenseOverride.tsx], [InputForm.tsx]), the figures of the
    dashboard report and the names of the SQL export
    ([client/src/lib/exports.ts]) and the labels of the charts, with
    properties the code itself shows.

    Numbers.  The engine is given twice.  The theorems are about the
    engine on exact numbers: a [number] is an exact rational or one of
    the three IEEE special values, arithmetic on finite values is exact
    (binary rounding error, overflow and the sign of zero are left
    out), and division by zero and arithmetic on the special values
    follow IEEE 754 as ECMAScript prescribes it; every operation
    returns its finite results in lowest terms, so that two results are
    equal as numbers exactly when they are equal terms.  [Double] is
    the same engine on the binary64 values the code computes with,
    operation by operation; it is run on concrete properties, to show
    where the returned record parts from what the exact numbers give:
    the last cent of a rounded field, the payment at rates so small
    that 1 + r is rounded, and the order of a sum. *)

From Stdlib Require Import QArith Qround Qpower Qreduction Qabs ZArith List Bool Ascii
  String Morphisms Lia Lqa SpecFloat.
Import ListNotations.

Local Open Scope Q_scope.

(** ** JavaScript numbers *)

Inductive number : Type :=
| Fin (q : Q)
| PosInf
| NegInf
| NaN.

Declare Scope num_scope.
Delimit Scope num_scope with num.
Bind Scope num_scope with number.

Definition Qlt_bool (x y : Q) : bool := negb (Qle_bool y x).

(** The infinity (or NaN) a product or quotient takes from the sign of
    its finite operand: [x * Infinity], [x / 0]. *)
Definition inf_of_sign (c : comparison) : number :=
  match c with
  | Gt => PosInf
  | Lt => NegInf
  | Eq => NaN
  end.

Definition num_neg (x : number) : number :=
  match x with
  | Fin a => Fin (Qred (- a))
  | PosInf => NegInf
  | NegInf => PosInf
  | NaN => NaN
  end.

Definition num_add (x y : number) : number :=
  match x, y with
  | NaN, _ | _, NaN => NaN
  | Fin a, Fin b => Fin (Qred (a + b))
  | PosInf, NegInf | NegInf, PosInf => NaN
  | PosInf, _ | _, PosInf => PosInf
  | NegInf, _ | _, NegInf => NegInf
  end.

Definition num_sub (x y : number) : number :=
  match x, y with
  | NaN, _ | _, NaN => NaN
  | Fin a, Fin b => Fin (Qred (a - b))
  | PosInf, PosInf | NegInf, NegInf => NaN
  | PosInf, _ | _, NegInf => PosInf
  | NegInf, _ | _, PosInf => NegInf
  end.

Definition num_mul (x y : number) : number :=
  match x, y with
  | NaN, _ | _, NaN => NaN
  | Fin a, Fin b => Fin (Qred (a * b))
  | Fin a, PosInf | PosInf, Fin a => inf_of_sign (a ?= 0)
  | Fin a, NegInf | NegInf, Fin a => inf_of_sign (CompOpp (a ?= 0))
  | PosInf, PosInf | NegInf, NegInf => PosInf
  | PosInf, NegInf | NegInf, PosInf => NegInf
  end.

Definition num_div (x y : number) : number :=
  match x, y with
  | NaN, _ | _, NaN => NaN
  | Fin a, Fin b =>
      if Qeq_bool b 0 then inf_of_sign (a ?= 0) else Fin (Qred (a / b))
  | Fin _, (PosInf | NegInf) => Fin 0
  | PosInf, Fin b => if Qle_bool 0 b then PosInf else NegInf
  | NegInf, Fin b => if Qle_bool 0 b then NegInf else PosInf
  | _, _ => NaN
  end.

(** [x > y], [x <= y] and [x === y]: every comparison with NaN is false. *)
Definition num_gt (x y : number) : bool :=
  match x, y with
  | NaN, _ | _, NaN => false
  | Fin a, Fin b => Qlt_bool b a
  | PosInf, PosInf => false
  | PosInf, _ => true
  | _, NegInf => match x with NegInf => false | _ => true end
  | _, _ => false
  end.

Definition num_le (x y : number) : bool :=
  match x, y with
  | NaN, _ | _, NaN => false
  | Fin a, Fin b => Qle_bool a b
  | NegInf, _ => true
  | _, PosInf => true
  | _, _ => false
  end.

Definition num_eqb (x y : number) : bool :=
  match x, y with
  | Fin a, Fin b => Qeq_bool a b
  | PosInf, PosInf | NegInf, NegInf => true
  | _, _ => false
  end.

Infix "+" := num_add : num_scope.
Infix "-" := num_sub : num_scope.
Infix "*" := num_mul : num_scope.
Infix "/" := num_div : num_scope.
Infix ">?" := num_gt (at level 70, no associativity) : num_scope.
Infix "<=?" := num_le (at level 70, no associativity) : num_scope.

(** Numeric literals of the source: [0], [12], [100]. *)
Definition num_of_num_int (i : Number.int) : option number :=
  match i with
  | Number.IntDecimal d => Some (Fin (inject_Z (Z.of_int d)))
  | _ => None
  end.

Definition num_to_num_int (x : number) : option Number.int :=
  match x with
  | Fin (z # 1) => Some (Number.IntDecimal (Z.to_int z))
  | _ => None
  end.

Number Notation number num_of_num_int num_to_num_int : num_scope.

(** [Math.round]: the nearest integer, a tie going to the one closer to
    plus infinity, that is the floor of [x + 1/2]. *)
Definition Math_round (x : number) : number :=
  match x with
  | Fin a => Fin (inject_Z (Qfloor (a + (1 # 2))))
  | _ => x
  end.

(** The integer a rational is, when it is one. *)
Definition integral (y : Q) : option Z :=
  if Z.eqb (Qnum y mod Zpos (Qden y)) 0
  then Some (Qnum y / Zpos (Qden y))%Z
  else None.

(** ** The data model ([shared/schema.ts]) *)

Inductive PropertyType : Type := LTR | STR.

Inductive BuildingType : Type :=
| SFH | DUPLEX | TRIPLEX | QUADPLEX | SIXPLEX | OCTOPLEX | DECAPLEX | DODECAPLEX.

Inductive ExpenseTiming : Type := IMMEDIATE | YEAR_1.

Definition ExpenseTiming_eqb (a b : ExpenseTiming) : bool :=
  match a, b with
  | IMMEDIATE, IMMEDIATE | YEAR_1, YEAR_1 => true
  | _, _ => false
  end.

Module SharedDetails.
Record t : Type := mk {
  id : string;
  name : string;
  marketValue : number;
  purchasePrice : number;
  downpayment : number;
  loanAmount : number;
  loanRemaining : number;
  interestRate : number;
  loanTermYears : number;
  closingCosts : number
}.
End SharedDetails.

Module LTRDetails.
Record t : Type := mk {
  grossRentPerMonth : number;
  buildingType : BuildingType;
  numberOfUnits : number;
  pmFeePercent : number;
  annualPropertyTax : number;
  annualInsurance : number;
  monthlyRepairReserve : number;
  targetVeteranOccupancyPercent : number;
  currentVeteranOccupancyPercent : option number
}.
End LTRDetails.

Module STRDetails.
Record t : Type := mk {
  dailyRate : number;
  daysInMonth : number;
  occupancyRate : number;
  coHostFeePercent : number;
  cleaningFeePerStay : number;
  avgStaysPerMonth : number;
  monthlyUtilities : number;
  annualPropertyTax : number;
  annualInsurance : number
}.
End STRDetails.

Module ManualExpense.
Record t : Type := mk {
  id : string;
  name : string;
  estimatedCost : number;
  timing : ExpenseTiming
}.
End ManualExpense.

(** [ltr], [str] and [manualExpenses] are optional members. *)
Module Property.
Record t : Type := mk {
  type : PropertyType;
  shared : SharedDetails.t;
  ltr : option LTRDetails.t;
  str : option STRDetails.t;
  manualExpenses : option (list ManualExpense.t)
}.
End Property.

Module FinancialMetrics.
Record t : Type := mk {
  monthlyMortgagePayment : number;
  grossMonthlyIncome : number;
  totalMonthlyExpenses : number;
  netMonthlyIncome : number;
  netMonthlyCashFlow : number;
  initialCashInvested : number;
  cashOnCashReturn : number;
  capRate : number;
  annualGrossIncome : number;
  annualNetCashFlow : number;
  totalManualCapEx : number;
  immediateCapEx : number;
  year1CapEx : number;
  adjustedInitialCashInvested : number;
  adjustedCashOnCashReturn : number;
  adjustedCapRate : number
}.
End FinancialMetrics.

(** [interface PropertyAnalysis extends Property { metrics }]. *)
Module PropertyAnalysis.
Record t : Type := mk {
  property : Property.t;
  metrics : FinancialMetrics.t
}.
End PropertyAnalysis.

(** The object the [totals] memo of the dashboard returns. *)
Module Totals.
Record t : Type := mk {
  totalValue : number;
  totalCashInvested : number;
  totalAnnualCashFlow : number;
  totalMonthlyCashFlow : number;
  totalAnnualNOI : number;
  avgCoC : number;
  avgCapRate : number;
  ltrCount : number;
  strCount : number;
  portfolioValuation : number;
  equityGain : number
}.
End Totals.

(** [interface SavedPortfolio]. *)
Module SavedPortfolio.
Record t : Type := mk {
  id : string;
  name : string;
  savedAt : string;
  properties : list PropertyAnalysis.t;
  marketCapRate : number
}.
End SavedPortfolio.

(** The state of the home page ([client/src/pages/home.tsx]) that its
    portfolio handlers read and write; [storage] is the list whose JSON
    the handlers last wrote under STORAGE_KEY in localStorage. *)
Module HomeState.
Record t : Type := mk {
  properties : list PropertyAnalysis.t;
  aiAnalysis : option string;
  marketCapRate : number;
  savedPortfolios : list SavedPortfolio.t;
  saveDialogOpen : bool;
  loadDialogOpen : bool;
  portfolioName : string;
  currentLoadedPortfolioId : option string;
  storage : option (list SavedPortfolio.t)
}.
End HomeState.

(** The portfolio figures [exportDashboardPDF] computes before it draws
    ([client/src/lib/exports.ts]). *)
Module ReportMetrics.
Record t : Type := mk {
  totalPurchasePrice : number;
  totalLoanAmount : number;
  totalEquity : number;
  totalCashInvested : number;
  grossMonthlyIncome : number;
  netMonthlyIncome : number;
  monthlyMortgage : number;
  monthlyExpenses : number;
  netMonthlyCashFlow : number;
  annualCashFlow : number;
  annualNOI : number;
  avgCoC : number;
  avgCapRate : number;
  estimatedValue : number;
  unrealizedGain : number;
  ltrCount : number;
  strCount : number
}.
End ReportMetrics.

(** ** Strings *)

(** A string is a sequence of code units; the characters of Rocq stand
    for them. *)

(** The white space and line terminators [String.prototype.trim]
    removes, among the first 256 code units. *)
Definition is_js_space (c : ascii) : bool :=
  let n := nat_of_ascii c in
  ((9 <=? n)%nat && (n <=? 13)%nat) || (n =? 32)%nat || (n =? 160)%nat.

Fixpoint trimStart (s : string) : string :=
  match s with
  | EmptyString => EmptyString
  | String c s' => if is_js_space c then trimStart s' else s
  end.

Fixpoint trimEnd (s : string) : string :=
  match s with
  | EmptyString => EmptyString
  | String c s' =>
      match trimEnd s' with
      | EmptyString => if is_js_space c then EmptyString else String c EmptyString
      | t => String c t
      end
  end.

(** [s.trim()]. *)
Definition trim (s : string) : string := trimEnd (trimStart s).

(** [!s] for a string: the empty string is the falsy one. *)
Definition string_falsy (s : string) : bool :=
  match s with
  | EmptyString => true
  | String _ _ => false
  end.

(** [!x] for [string | null]. *)
Definition nullable_falsy (x : option string) : bool :=
  match x with
  | Some s => string_falsy s
  | None => true
  end.

(** [name.replace(/'/g, "''")], the quoting of [exportSQL]. *)
Fixpoint sqlQuoteName (s : string) : string :=
  match s with
  | EmptyString => EmptyString
  | String c s' =>
      if Ascii.eqb c "'"%char
      then String "'"%char (String "'"%char (sqlQuoteName s'))
      else String c (sqlQuoteName s')
  end.

(** How SQL reads the body of a string literal, after its opening
    quote: two quotes are one quote of the text, a single quote ends
    the literal; the text and what follows the literal. *)
Fixpoint sqlReadLiteral (s : string) : option (string * string) :=
  match s with
  | EmptyString => None
  | String c s' =>
      if Ascii.eqb c "'"%char then
        match s' with
        | String c' s'' =>
            if Ascii.eqb c' "'"%char then
              match sqlReadLiteral s'' with
              | Some (text, rest) => Some (String "'"%char text, rest)
              | None => None
              end
            else Some (EmptyString, s')
        | EmptyString => Some (EmptyString, EmptyString)
        end
      else
        match sqlReadLiteral s' with
        | Some (text, rest) => Some (String c text, rest)
        | None => None
        end
  end.

(** The label of a property in the charts of the dashboard:
    [name.length > 12 ? name.substring(0, 12) + '...' : name]. *)
Definition chartName (name : string) : string :=
  if (12 <? String.length name)%nat
  then (substring 0 12 name ++ "...")%string
  else name.

(** A value of [Math.pow] at exponents that are not integers, for running
    the engine on concrete inputs; those below all have a whole number
    of payments, where [Math.pow] never comes to it. *)
Definition Math_pow_frac_NaN : Q -> Q -> number := fun _ _ => NaN.

Local Open Scope num_scope.

(** ** Concrete properties *)

(** The worked example of the specification: an LTR duplex, rent 1,500
    a unit, 10% PM fee, tax 2,400 and insurance 1,200 a year, reserve 50
    a month, bought for 250,000 with a loan of 200,000 at 6% over 30
    years, no manual expenses. *)
Definition example_ltr : LTRDetails.t :=
  LTRDetails.mk 1500 DUPLEX 2 10 2400 1200 50 50 None.

Definition example_shared : SharedDetails.t :=
  SharedDetails.mk "p1" "Duplex" 250000 250000 50000 200000 0 6 30 0.

Definition example_property : Property.t :=
  Property.mk LTR example_shared (Some example_ltr) None (Some []).

(** The same with the loan term field left at 0, as the input form
    leaves it when the field is cleared. *)
Definition zero_term_shared : SharedDetails.t :=
  SharedDetails.mk "p1" "Duplex" 250000 250000 50000 200000 0 6 0 0.

Definition zero_term_property : Property.t :=
  Property.mk LTR zero_term_shared (Some example_ltr) None (Some []).

(** A smaller purchase: 60,000 with a loan of 12,000 at 12% over one
    year, the other details as in the example. *)
Definition starter_shared : SharedDetails.t :=
  SharedDetails.mk "p3" "Starter" 60000 60000 0 12000 0 12 1 1500.

Definition starter_property : Property.t :=
  Property.mk LTR starter_shared (Some example_ltr) None (Some []).

(** The same with the LTR payload absent. *)
Definition starter_without_payload : Property.t :=
  Property.mk LTR starter_shared None None (Some []).

(** Year-1 expenses of 700 and 500, and the same purchase with them. *)
Definition year1_expenses : list ManualExpense.t :=
  [ ManualExpense.mk "e1" "Roof Repair" 700 YEAR_1;
    ManualExpense.mk "e2" "HVAC Replacement" 500 YEAR_1 ].

Definition starter_with_year1 : Property.t :=
  Property.mk LTR starter_shared (Some example_ltr) None (Some year1_expenses).

(** Two cash purchases that differ in the purchase price only, 10,000
    and 10,010, each with an immediate repair of 90,000 and a rent of
    1,000 a month. *)
Definition repair_expenses : list ManualExpense.t :=
  [ ManualExpense.mk "e1" "Foundation Work" 90000 IMMEDIATE ].

Definition cash_ltr : LTRDetails.t :=
  LTRDetails.mk 1000 SFH 1 0 0 0 0 50 None.

Definition cash_purchase (price : number) : Property.t :=
  Property.mk LTR
    (SharedDetails.mk "p2" "Fixer" 0 price 10000 0 0 0 30 0)
    (Some cash_ltr) None (Some repair_expenses).

Import SharedDetails Property.

(** ** Binary64 numbers

    The numbers of the running code are IEEE 754 binary64 values.
    [Double] is the engine on them: the operations are those of the
    Standard Library's specification of binary64 arithmetic
    ([SpecFloat], rounding to nearest, ties to even), a decimal enters
    as the binary64 value nearest to it, as [Number], [parseFloat] and
    [JSON.parse] read it, and a result is shown by the rational number
    it is.  The exact numbers above are what these computations
    approximate; the two are compared at the end of the file. *)

Module Double.

Definition prec : Z := 53.
Definition emax : Z := 1024.

Declare Scope double_scope.
Delimit Scope double_scope with double.

Definition add : spec_float -> spec_float -> spec_float := SFadd prec emax.
Definition sub : spec_float -> spec_float -> spec_float := SFsub prec emax.
Definition mul : spec_float -> spec_float -> spec_float := SFmul prec emax.
Definition div : spec_float -> spec_float -> spec_float := SFdiv prec emax.

(** [x > y] and [x <= y]; false when an operand is NaN. *)
Definition gt (x y : spec_float) : bool := SFltb y x.
Definition le (x y : spec_float) : bool := SFleb x y.

Infix "+" := add : double_scope.
Infix "-" := sub : double_scope.
Infix "*" := mul : double_scope.
Infix "/" := div : double_scope.
Infix ">?" := gt (at level 70, no associativity) : double_scope.
Infix "<=?" := le (at level 70, no associativity) : double_scope.

(** The binary64 value nearest to the quotient of two positive
    integers, with the sign [s]. *)
Definition nearest (s : bool) (p q : positive) : spec_float :=
  let '(m, e, l) := SFdiv_core_binary prec emax (Zpos p) 0 (Zpos q) 0 in
  binary_round_aux prec emax s m e l.

(** The binary64 value of a decimal. *)
Definition of_Q (x : Q) : spec_float :=
  match Qnum x with
  | Z0 => S754_zero false
  | Zpos p => nearest false p (Qden x)
  | Zneg p => nearest true p (Qden x)
  end.

Definition of_number (x : number) : spec_float :=
  match x with
  | Fin q => of_Q q
  | PosInf => S754_infinity false
  | NegInf => S754_infinity true
  | NaN => S754_nan
  end.

(** The number a binary64 value is; the two zeros are the number 0. *)
Definition to_number (x : spec_float) : number :=
  match x with
  | S754_zero _ => Fin 0
  | S754_infinity false => PosInf
  | S754_infinity true => NegInf
  | S754_nan => NaN
  | S754_finite s m e => Fin (Qred (inject_Z (cond_Zopp s (Zpos m)) * 2 ^ e))
  end.

(** Integer literals of the source: [0], [12], [100]. *)
Definition of_num_int (i : Number.int) : option spec_float :=
  match i with
  | Number.IntDecimal d => Some (of_Q (inject_Z (Z.of_int d)))
  | _ => None
  end.

Definition to_num_int (x : spec_float) : option Number.int := None.

Number Notation spec_float of_num_int to_num_int : double_scope.

Local Open Scope double_scope.

(** [Math.round]: the integer nearest to [x], a tie going to the one
    closer to plus infinity, computed on the exact value of [x]; a
    result of 0 keeps the sign of [x], and a value without fraction
    bits (every one from 2^52 on) is returned as it is. *)
Definition Math_round (x : spec_float) : spec_float :=
  match x with
  | S754_finite s m e =>
      if (0 <=? e)%Z then x
      else
        match ((2 * cond_Zopp s (Zpos m) + 2 ^ (- e)) / 2 ^ (1 - e))%Z with
        | Z0 => S754_zero s
        | k => binary_normalize prec emax k 0 false
        end
  | _ => x
  end.

(** The integer a finite binary64 value is, when it is one. *)
Definition integral (y : spec_float) : option Z :=
  match y with
  | S754_zero _ => Some 0%Z
  | S754_finite s m e =>
      if (0 <=? e)%Z then Some (cond_Zopp s (Zpos m) * 2 ^ e)%Z
      else if (Zpos m mod 2 ^ (- e) =? 0)%Z
           then Some (cond_Zopp s (Zpos m) / 2 ^ (- e))%Z
           else None
  | _ => None
  end.

(** The power of a finite value other than 0 at an integer other than
    0, rounded once: the nearest binary64 value to the exact power. *)
Definition power (s : bool) (m : positive) (e : Z) (n : Z) : spec_float :=
  match n with
  | Z0 => 1
  | Zpos k => binary_round prec emax (s && Z.odd (Zpos k)) (Pos.pow m k) (e * Zpos k)
  | Zneg k =>
      let '(q, e', l) :=
        SFdiv_core_binary prec emax 1 0 (Zpos (Pos.pow m k)) (e * Zpos k) in
      binary_round_aux prec emax (s && Z.odd (Zpos k)) q e' l
  end.

Section Builtins.

(** [Math.pow] at a positive base and an exponent that is not an
    integer, which ECMAScript leaves implementation-approximated. *)
Variable Math_pow_frac : spec_float -> spec_float -> spec_float.

(** [Math.pow], after Number::exponentiate of ECMAScript.  At an
    integer exponent the power is taken correctly rounded; an
    implementation returns that value when the power is itself a
    binary64 value (as 1 to the n-th is) and a neighbour of it at
    worst otherwise. *)
Definition Math_pow (base exponent : spec_float) : spec_float :=
  match exponent with
  | S754_nan => S754_nan
  | S754_zero _ => 1
  | S754_infinity se =>
      match base with
      | S754_nan => S754_nan
      | S754_finite _ _ _ | S754_zero _ =>
          match SFcompare (SFabs base) 1 with
          | Some Gt => if se then S754_zero false else S754_infinity false
          | Some Lt => if se then S754_infinity false else S754_zero false
          | _ => S754_nan
          end
      | S754_infinity _ => if se then S754_zero false else S754_infinity false
      end
  | S754_finite se _ _ =>
      let odd := match integral exponent with Some n => Z.odd n | None => false end in
      match base with
      | S754_nan => S754_nan
      | S754_infinity sb =>
          if se then S754_zero (sb && odd) else S754_infinity (sb && odd)
      | S754_zero sb =>
          if se then S754_infinity (sb && odd) else S754_zero (sb && odd)
      | S754_finite sb m e =>
          match integral exponent with
          | Some n => power sb m e n
          | None => if sb then S754_nan else Math_pow_frac base exponent
          end
      end
  end.

(** [Math.round(x * 100) / 100], the rounding of every returned field. *)
Definition round2 (x : spec_float) : spec_float := Math_round (x * 100) / 100.

(** *** [calculateMetrics] *)

(** The fields of the records are read as binary64 values. *)
Notation "# x" := (of_number x) (at level 9, x at level 9, format "# x") : double_scope.

Definition monthlyRate (shared : SharedDetails.t) : spec_float :=
  #(shared.(SharedDetails.interestRate)) / 100 / 12.

Definition numPayments (shared : SharedDetails.t) : spec_float :=
  #(shared.(SharedDetails.loanTermYears)) * 12.

Definition activeLoanBalance (shared : SharedDetails.t) : spec_float :=
  if #(shared.(SharedDetails.loanRemaining)) >? 0
  then #(shared.(SharedDetails.loanRemaining))
  else #(shared.(SharedDetails.loanAmount)).

Definition monthlyMortgagePayment (shared : SharedDetails.t) : spec_float :=
  if (activeLoanBalance shared >? 0) && (monthlyRate shared >? 0) then
    activeLoanBalance shared *
      (monthlyRate shared * Math_pow (1 + monthlyRate shared) (numPayments shared)) /
      (Math_pow (1 + monthlyRate shared) (numPayments shared) - 1)
  else 0.

Definition ltrGrossMonthlyIncome (ltr : LTRDetails.t) : spec_float :=
  #(ltr.(LTRDetails.grossRentPerMonth)) * #(ltr.(LTRDetails.numberOfUnits)).

Definition ltrTotalMonthlyExpenses (ltr : LTRDetails.t) : spec_float :=
  let pmFee := ltrGrossMonthlyIncome ltr * (#(ltr.(LTRDetails.pmFeePercent)) / 100) in
  let monthlyTax := #(ltr.(LTRDetails.annualPropertyTax)) / 12 in
  let monthlyInsurance := #(ltr.(LTRDetails.annualInsurance)) / 12 in
  pmFee + monthlyTax + monthlyInsurance + #(ltr.(LTRDetails.monthlyRepairReserve)).

Definition strGrossMonthlyIncome (str : STRDetails.t) : spec_float :=
  let bookedNights :=
    #(str.(STRDetails.daysInMonth)) * (#(str.(STRDetails.occupancyRate)) / 100) in
  bookedNights * #(str.(STRDetails.dailyRate)).

Definition strTotalMonthlyExpenses (str : STRDetails.t) : spec_float :=
  let coHostFee :=
    strGrossMonthlyIncome str * (#(str.(STRDetails.coHostFeePercent)) / 100) in
  let cleaningCosts :=
    #(str.(STRDetails.cleaningFeePerStay)) * #(str.(STRDetails.avgStaysPerMonth)) in
  let monthlyTax := #(str.(STRDetails.annualPropertyTax)) / 12 in
  let monthlyInsurance := #(str.(STRDetails.annualInsurance)) / 12 in
  coHostFee + cleaningCosts + monthlyTax + monthlyInsurance
    + #(str.(STRDetails.monthlyUtilities)).

Definition incomeAndExpenses (property : Property.t) : spec_float * spec_float :=
  match property.(Property.type), property.(Property.ltr), property.(Property.str) with
  | LTR, Some ltr, _ => (ltrGrossMonthlyIncome ltr, ltrTotalMonthlyExpenses ltr)
  | STR, _, Some str => (strGrossMonthlyIncome str, strTotalMonthlyExpenses str)
  | _, _, _ => (0, 0)
  end.

Definition grossMonthlyIncome (property : Property.t) : spec_float :=
  fst (incomeAndExpenses property).

Definition totalMonthlyExpenses (property : Property.t) : spec_float :=
  snd (incomeAndExpenses property).

Definition netMonthlyIncome (property : Property.t) : spec_float :=
  grossMonthlyIncome property - totalMonthlyExpenses property.

Definition netMonthlyCashFlow (property : Property.t) : spec_float :=
  netMonthlyIncome property - monthlyMortgagePayment property.(Property.shared).

Definition downPayment (shared : SharedDetails.t) : spec_float :=
  if #(shared.(SharedDetails.downpayment)) >? 0 then #(shared.(SharedDetails.downpayment))
  else #(shared.(SharedDetails.purchasePrice)) - #(shared.(SharedDetails.loanAmount)).

Definition initialCashInvested (property : Property.t) : spec_float :=
  downPayment property.(Property.shared)
  + #(property.(Property.shared).(SharedDetails.closingCosts)).

Definition annualNetCashFlow (property : Property.t) : spec_float :=
  netMonthlyCashFlow property * 12.

Definition cashOnCashReturn (property : Property.t) : spec_float :=
  if initialCashInvested property >? 0
  then (annualNetCashFlow property / initialCashInvested property) * 100
  else 0.

Definition annualNOI (property : Property.t) : spec_float :=
  netMonthlyIncome property * 12.

Definition capRate (property : Property.t) : spec_float :=
  if #(property.(Property.shared).(SharedDetails.purchasePrice)) >? 0
  then (annualNOI property / #(property.(Property.shared).(SharedDetails.purchasePrice))) * 100
  else 0.

Definition manualExpensesOf (property : Property.t) : list ManualExpense.t :=
  match property.(Property.manualExpenses) with
  | Some l => l
  | None => []
  end.

Definition capExOf (t : ExpenseTiming) (l : list ManualExpense.t) : spec_float :=
  fold_left (fun sum e => sum + #(e.(ManualExpense.estimatedCost)))
    (filter (fun e => ExpenseTiming_eqb e.(ManualExpense.timing) t) l) 0.

Definition immediateCapEx (property : Property.t) : spec_float :=
  capExOf IMMEDIATE (manualExpensesOf property).

Definition year1CapEx (property : Property.t) : spec_float :=
  capExOf YEAR_1 (manualExpensesOf property).

Definition totalManualCapEx (property : Property.t) : spec_float :=
  immediateCapEx property + year1CapEx property.

Definition adjustedInitialCashInvested (property : Property.t) : spec_float :=
  initialCashInvested property + immediateCapEx property.

Definition adjustedAnnualNetCashFlow (property : Property.t) : spec_float :=
  annualNetCashFlow property - year1CapEx property.

Definition adjustedCashOnCashReturn (property : Property.t) : spec_float :=
  if adjustedInitialCashInvested property >? 0
  then (adjustedAnnualNetCashFlow property / adjustedInitialCashInvested property) * 100
  else 0.

Definition totalPropertyCost (property : Property.t) : spec_float :=
  #(property.(Property.shared).(SharedDetails.purchasePrice)) + immediateCapEx property.

Definition adjustedCapRate (property : Property.t) : spec_float :=
  if totalPropertyCost property >? 0
  then (annualNOI property / totalPropertyCost property) * 100
  else 0.

Definition hasManualCapEx (property : Property.t) : bool :=
  totalManualCapEx property >? 0.

Definition finalInitialCashInvested (property : Property.t) : spec_float :=
  if hasManualCapEx property then adjustedInitialCashInvested property
  else initialCashInvested property.

Definition finalCashOnCashReturn (property : Property.t) : spec_float :=
  if hasManualCapEx property then adjustedCashOnCashReturn property
  else cashOnCashReturn property.

Definition finalCapRate (property : Property.t) : spec_float :=
  if hasManualCapEx property then adjustedCapRate property
  else capRate property.

Definition finalAnnualNetCashFlow (property : Property.t) : spec_float :=
  if hasManualCapEx property then adjustedAnnualNetCashFlow property
  else annualNetCashFlow property.

Definition adjustedNetMonthlyCashFlow (property : Property.t) : spec_float :=
  netMonthlyCashFlow property - (year1CapEx property / 12).

Definition finalNetMonthlyCashFlow (property : Property.t) : spec_float :=
  if hasManualCapEx property then adjustedNetMonthlyCashFlow property
  else netMonthlyCashFlow property.

(** The record [calculateMetrics] returns, each field shown by the
    number the returned binary64 value is. *)
Definition calculateMetrics (property : Property.t) : FinancialMetrics.t :=
  {| FinancialMetrics.monthlyMortgagePayment :=
       to_number (Math_round (monthlyMortgagePayment property.(Property.shared) * 100) / 100);
     FinancialMetrics.grossMonthlyIncome :=
       to_number (Math_round (grossMonthlyIncome property * 100) / 100);
     FinancialMetrics.totalMonthlyExpenses :=
       to_number (Math_round (totalMonthlyExpenses property * 100) / 100);
     FinancialMetrics.netMonthlyIncome :=
       to_number (Math_round (netMonthlyIncome property * 100) / 100);
     FinancialMetrics.netMonthlyCashFlow :=
       to_number (Math_round (finalNetMonthlyCashFlow property * 100) / 100);
     FinancialMetrics.initialCashInvested :=
       to_number (Math_round (finalInitialCashInvested property * 100) / 100);
     FinancialMetrics.cashOnCashReturn :=
       to_number (Math_round (finalCashOnCashReturn property * 100) / 100);
     FinancialMetrics.capRate :=
       to_number (Math_round (finalCapRate property * 100) / 100);
     FinancialMetrics.annualGrossIncome :=
       to_number (Math_round (grossMonthlyIncome property * 12 * 100) / 100);
     FinancialMetrics.annualNetCashFlow :=
       to_number (Math_round (finalAnnualNetCashFlow property * 100) / 100);
     FinancialMetrics.totalManualCapEx :=
       to_number (Math_round (totalManualCapEx property * 100) / 100);
     FinancialMetrics.immediateCapEx :=
       to_number (Math_round (immediateCapEx property * 100) / 100);
     FinancialMetrics.year1CapEx :=
       to_number (Math_round (year1CapEx property * 100) / 100);
     FinancialMetrics.adjustedInitialCashInvested :=
       to_number (Math_round (adjustedInitialCashInvested property * 100) / 100);
     FinancialMetrics.adjustedCashOnCashReturn :=
       to_number (Math_round (adjustedCashOnCashReturn property * 100) / 100);
     FinancialMetrics.adjustedCapRate :=
       to_number (Math_round (adjustedCapRate property * 100) / 100) |}.

End Builtins.

(** A value of [Math.pow] at exponents that are not integers, for
    running the engine on concrete inputs, none of which comes to it. *)
Definition Math_pow_frac_NaN : spec_float -> spec_float -> spec_float :=
  fun _ _ => S754_nan.

(** The number the binary64 value nearest to a decimal is: what a
    field holds that prints as that decimal. *)
Definition nearest_to (x : Q) : number := to_number (of_Q x).

End Double.

(** ** The engine ([client/src/lib/calculations.ts]) *)

Section Engine.

(** [Math.pow] at a positive base and an exponent that is not an
    integer is an irrational number in general and has no exact
    rational value; ECMAScript leaves it implementation-approximated.
    The development takes that value as it comes and holds for every
    such function. *)
Variable Math_pow_frac : Q -> Q -> number.

(** [Math.pow], after Number::exponentiate of ECMAScript. *)
Definition Math_pow (base exponent : number) : number :=
  match exponent with
  | NaN => NaN
  | Fin y =>
      if Qeq_bool y 0 then 1 else
      match base with
      | NaN => NaN
      | PosInf => if Qlt_bool 0 y then PosInf else 0
      | NegInf =>
          if Qlt_bool 0 y then
            match integral y with
            | Some n => if Z.odd n then NegInf else PosInf
            | None => PosInf
            end
          else 0
      | Fin x =>
          if Qeq_bool x 0 then (if Qlt_bool 0 y then 0 else PosInf) else
          match integral y with
          | Some n => Fin (Qred (x ^ n))
          | None => if Qlt_bool x 0 then NaN else Math_pow_frac x y
          end
      end
  | PosInf =>
      match base with
      | NaN => NaN
      | Fin x =>
          match Qabs x ?= 1 with Gt => PosInf | Eq => NaN | Lt => 0 end
      | _ => PosInf
      end
  | NegInf =>
      match base with
      | NaN => NaN
      | Fin x =>
          match Qabs x ?= 1 with Gt => 0 | Eq => NaN | Lt => PosInf end
      | _ => 0
      end
  end.

(** [Math.round(x * 100) / 100], the rounding of every returned field. *)
Definition round2 (x : number) : number := Math_round (x * 100) / 100.

(** *** [calculateMetrics]: the mortgage payment *)

Definition monthlyRate (shared : SharedDetails.t) : number :=
  shared.(interestRate) / 100 / 12.

Definition numPayments (shared : SharedDetails.t) : number :=
  shared.(loanTermYears) * 12.

Definition activeLoanBalance (shared : SharedDetails.t) : number :=
  if shared.(loanRemaining) >? 0 then shared.(loanRemaining)
  else shared.(loanAmount).

Definition monthlyMortgagePayment (shared : SharedDetails.t) : number :=
  if (activeLoanBalance shared >? 0) && (monthlyRate shared >? 0) then
    activeLoanBalance shared *
      (monthlyRate shared * Math_pow (1 + monthlyRate shared) (numPayments shared)) /
      (Math_pow (1 + monthlyRate shared) (numPayments shared) - 1)
  else 0.

(** *** Income and expenses of the two variants *)

Definition ltrGrossMonthlyIncome (ltr : LTRDetails.t) : number :=
  ltr.(LTRDetails.grossRentPerMonth) * ltr.(LTRDetails.numberOfUnits).

Definition ltrTotalMonthlyExpenses (ltr : LTRDetails.t) : number :=
  let pmFee := ltrGrossMonthlyIncome ltr * (ltr.(LTRDetails.pmFeePercent) / 100) in
  let monthlyTax := ltr.(LTRDetails.annualPropertyTax) / 12 in
  let monthlyInsurance := ltr.(LTRDetails.annualInsurance) / 12 in
  pmFee + monthlyTax + monthlyInsurance + ltr.(LTRDetails.monthlyRepairReserve).

Definition strGrossMonthlyIncome (str : STRDetails.t) : number :=
  let bookedNights :=
    str.(STRDetails.daysInMonth) * (str.(STRDetails.occupancyRate) / 100) in
  bookedNights * str.(STRDetails.dailyRate).

Definition strTotalMonthlyExpenses (str : STRDetails.t) : number :=
  let coHostFee := strGrossMonthlyIncome str * (str.(STRDetails.coHostFeePercent) / 100) in
  let cleaningCosts :=
    str.(STRDetails.cleaningFeePerStay) * str.(STRDetails.avgStaysPerMonth) in
  let monthlyTax := str.(STRDetails.annualPropertyTax) / 12 in
  let monthlyInsurance := str.(STRDetails.annualInsurance) / 12 in
  coHostFee + cleaningCosts + monthlyTax + monthlyInsurance
    + str.(STRDetails.monthlyUtilities).

(** The two [let]s the branches assign: [(grossMonthlyIncome,
    totalMonthlyExpenses)], both [0] when no branch is taken. *)
Definition incomeAndExpenses (property : Property.t) : number * number :=
  match property.(type), property.(ltr), property.(str) with
  | LTR, Some ltr, _ => (ltrGrossMonthlyIncome ltr, ltrTotalMonthlyExpenses ltr)
  | STR, _, Some str => (strGrossMonthlyIncome str, strTotalMonthlyExpenses str)
  | _, _, _ => (0, 0)
  end.

Definition grossMonthlyIncome (property : Property.t) : number :=
  fst (incomeAndExpenses property).

Definition totalMonthlyExpenses (property : Property.t) : number :=
  snd (incomeAndExpenses property).

(** *** Raw metrics *)

Definition netMonthlyIncome (property : Property.t) : number :=
  grossMonthlyIncome property - totalMonthlyExpenses property.

Definition netMonthlyCashFlow (property : Property.t) : number :=
  netMonthlyIncome property - monthlyMortgagePayment property.(shared).

Definition downPayment (shared : SharedDetails.t) : number :=
  if shared.(downpayment) >? 0 then shared.(downpayment)
  else shared.(purchasePrice) - shared.(loanAmount).

Definition initialCashInvested (property : Property.t) : number :=
  downPayment property.(shared) + property.(shared).(closingCosts).

Definition annualNetCashFlow (property : Property.t) : number :=
  netMonthlyCashFlow property * 12.

Definition cashOnCashReturn (property : Property.t) : number :=
  if initialCashInvested property >? 0
  then (annualNetCashFlow property / initialCashInvested property) * 100
  else 0.

Definition annualNOI (property : Property.t) : number :=
  netMonthlyIncome property * 12.

Definition capRate (property : Property.t) : number :=
  if property.(shared).(purchasePrice) >? 0
  then (annualNOI property / property.(shared).(purchasePrice)) * 100
  else 0.

(** *** Manual CapEx *)

(** [property.manualExpenses || []]. *)
Definition manualExpensesOf (property : Property.t) : list ManualExpense.t :=
  match property.(manualExpenses) with
  | Some l => l
  | None => []
  end.

(** [.filter(e => e.timing === t).reduce((sum, e) => sum + e.estimatedCost, 0)]. *)
Definition capExOf (t : ExpenseTiming) (l : list ManualExpense.t) : number :=
  fold_left (fun sum e => sum + e.(ManualExpense.estimatedCost))
    (filter (fun e => ExpenseTiming_eqb e.(ManualExpense.timing) t) l) 0.

Definition immediateCapEx (property : Property.t) : number :=
  capExOf IMMEDIATE (manualExpensesOf property).

Definition year1CapEx (property : Property.t) : number :=
  capExOf YEAR_1 (manualExpensesOf property).

Definition totalManualCapEx (property : Property.t) : number :=
  immediateCapEx property + year1CapEx property.

(** *** Metrics adjusted for manual CapEx *)

Definition adjustedInitialCashInvested (property : Property.t) : number :=
  initialCashInvested property + immediateCapEx property.

Definition adjustedAnnualNetCashFlow (property : Property.t) : number :=
  annualNetCashFlow property - year1CapEx property.

Definition adjustedCashOnCashReturn (property : Property.t) : number :=
  if adjustedInitialCashInvested property >? 0
  then (adjustedAnnualNetCashFlow property / adjustedInitialCashInvested property) * 100
  else 0.

Definition totalPropertyCost (property : Property.t) : number :=
  property.(shared).(purchasePrice) + immediateCapEx property.

Definition adjustedCapRate (property : Property.t) : number :=
  if totalPropertyCost property >? 0
  then (annualNOI property / totalPropertyCost property) * 100
  else 0.

(** *** The selection of the primary metrics *)

Definition hasManualCapEx (property : Property.t) : bool :=
  totalManualCapEx property >? 0.

Definition finalInitialCashInvested (property : Property.t) : number :=
  if hasManualCapEx property then adjustedInitialCashInvested property
  else initialCashInvested property.

Definition finalCashOnCashReturn (property : Property.t) : number :=
  if hasManualCapEx property then adjustedCashOnCashReturn property
  else cashOnCashReturn property.

Definition finalCapRate (property : Property.t) : number :=
  if hasManualCapEx property then adjustedCapRate property
  else capRate property.

Definition finalAnnualNetCashFlow (property : Property.t) : number :=
  if hasManualCapEx property then adjustedAnnualNetCashFlow property
  else annualNetCashFlow property.

Definition adjustedNetMonthlyCashFlow (property : Property.t) : number :=
  netMonthlyCashFlow property - (year1CapEx property / 12).

Definition finalNetMonthlyCashFlow (property : Property.t) : number :=
  if hasManualCapEx property then adjustedNetMonthlyCashFlow property
  else netMonthlyCashFlow property.

(** The values the returned record rounds, field by field. *)
Definition unroundedMetrics (property : Property.t) : FinancialMetrics.t :=
  {| FinancialMetrics.monthlyMortgagePayment := monthlyMortgagePayment property.(shared);
     FinancialMetrics.grossMonthlyIncome := grossMonthlyIncome property;
     FinancialMetrics.totalMonthlyExpenses := totalMonthlyExpenses property;
     FinancialMetrics.netMonthlyIncome := netMonthlyIncome property;
     FinancialMetrics.netMonthlyCashFlow := finalNetMonthlyCashFlow property;
     FinancialMetrics.initialCashInvested := finalInitialCashInvested property;
     FinancialMetrics.cashOnCashReturn := finalCashOnCashReturn property;
     FinancialMetrics.capRate := finalCapRate property;
     FinancialMetrics.annualGrossIncome := grossMonthlyIncome property * 12;
     FinancialMetrics.annualNetCashFlow := finalAnnualNetCashFlow property;
     FinancialMetrics.totalManualCapEx := totalManualCapEx property;
     FinancialMetrics.immediateCapEx := immediateCapEx property;
     FinancialMetrics.year1CapEx := year1CapEx property;
     FinancialMetrics.adjustedInitialCashInvested := adjustedInitialCashInvested property;
     FinancialMetrics.adjustedCashOnCashReturn := adjustedCashOnCashReturn property;
     FinancialMetrics.adjustedCapRate := adjustedCapRate property |}.

Definition calculateMetrics (property : Property.t) : FinancialMetrics.t :=
  {| FinancialMetrics.monthlyMortgagePayment :=
       Math_round (monthlyMortgagePayment property.(shared) * 100) / 100;
     FinancialMetrics.grossMonthlyIncome :=
       Math_round (grossMonthlyIncome property * 100) / 100;
     FinancialMetrics.totalMonthlyExpenses :=
       Math_round (totalMonthlyExpenses property * 100) / 100;
     FinancialMetrics.netMonthlyIncome :=
       Math_round (netMonthlyIncome property * 100) / 100;
     FinancialMetrics.netMonthlyCashFlow :=
       Math_round (finalNetMonthlyCashFlow property * 100) / 100;
     FinancialMetrics.initialCashInvested :=
       Math_round (finalInitialCashInvested property * 100) / 100;
     FinancialMetrics.cashOnCashReturn :=
       Math_round (finalCashOnCashReturn property * 100) / 100;
     FinancialMetrics.capRate :=
       Math_round (finalCapRate property * 100) / 100;
     FinancialMetrics.annualGrossIncome :=
       Math_round (grossMonthlyIncome property * 12 * 100) / 100;
     FinancialMetrics.annualNetCashFlow :=
       Math_round (finalAnnualNetCashFlow property * 100) / 100;
     FinancialMetrics.totalManualCapEx :=
       Math_round (totalManualCapEx property * 100) / 100;
     FinancialMetrics.immediateCapEx :=
       Math_round (immediateCapEx property * 100) / 100;
     FinancialMetrics.year1CapEx :=
       Math_round (year1CapEx property * 100) / 100;
     FinancialMetrics.adjustedInitialCashInvested :=
       Math_round (adjustedInitialCashInvested property * 100) / 100;
     FinancialMetrics.adjustedCashOnCashReturn :=
       Math_round (adjustedCashOnCashReturn property * 100) / 100;
     FinancialMetrics.adjustedCapRate :=
       Math_round (adjustedCapRate property * 100) / 100 |}.

(** *** [calculateValuation] *)

Definition calculateValuation (annualNOI marketCapRate : number) : number :=
  if marketCapRate <=? 0 then 0
  else annualNOI / (marketCapRate / 100).

(** *** The portfolio totals ([client/src/components/Dashboard.tsx]) *)

(** [a.length]. *)
Definition array_length {A : Type} (a : list A) : number :=
  Fin (inject_Z (Z.of_nat (List.length a))).

(** [a.reduce((sum, p) => sum + f(p), 0)]. *)
Definition reduce_sum {A : Type} (f : A -> number) (a : list A) : number :=
  fold_left (fun sum p => sum + f p) a 0.

Definition PropertyType_eqb (a b : PropertyType) : bool :=
  match a, b with
  | LTR, LTR | STR, STR => true
  | _, _ => false
  end.

Import PropertyAnalysis.

Definition totals (portfolio : list PropertyAnalysis.t) (marketCapRate : number)
  : Totals.t :=
  let totalValue :=
    reduce_sum (fun p => p.(property).(shared).(purchasePrice)) portfolio in
  let totalCashInvested :=
    reduce_sum (fun p => p.(metrics).(FinancialMetrics.initialCashInvested)) portfolio in
  let totalAnnualCashFlow :=
    reduce_sum (fun p => p.(metrics).(FinancialMetrics.annualNetCashFlow)) portfolio in
  let totalMonthlyCashFlow :=
    reduce_sum (fun p => p.(metrics).(FinancialMetrics.netMonthlyCashFlow)) portfolio in
  let totalAnnualNOI :=
    reduce_sum (fun p => p.(metrics).(FinancialMetrics.netMonthlyIncome) * 12) portfolio in
  let avgCoC :=
    if array_length portfolio >? 0
    then reduce_sum (fun p => p.(metrics).(FinancialMetrics.cashOnCashReturn)) portfolio
         / array_length portfolio
    else 0 in
  let avgCapRate :=
    if array_length portfolio >? 0
    then reduce_sum (fun p => p.(metrics).(FinancialMetrics.capRate)) portfolio
         / array_length portfolio
    else 0 in
  let ltrCount :=
    array_length (filter (fun p => PropertyType_eqb p.(property).(type) LTR) portfolio) in
  let strCount :=
    array_length (filter (fun p => PropertyType_eqb p.(property).(type) STR) portfolio) in
  let portfolioValuation := calculateValuation totalAnnualNOI marketCapRate in
  let equityGain := portfolioValuation - totalValue in
  {| Totals.totalValue := totalValue;
     Totals.totalCashInvested := totalCashInvested;
     Totals.totalAnnualCashFlow := totalAnnualCashFlow;
     Totals.totalMonthlyCashFlow := totalMonthlyCashFlow;
     Totals.totalAnnualNOI := totalAnnualNOI;
     Totals.avgCoC := avgCoC;
     Totals.avgCapRate := avgCapRate;
     Totals.ltrCount := ltrCount;
     Totals.strCount := strCount;
     Totals.portfolioValuation := portfolioValuation;
     Totals.equityGain := equityGain |}.

(** *** Notions of the specification *)

(** Rounding to the nearest cent, a tie going to the cent above:
    [b] is a whole number of cents, [a] is at most half a cent away
    from it, and a value halfway between two cents takes the upper. *)
Definition cent_half_up (a b : Q) : Prop :=
  (exists c : Z, b == inject_Z c / 100)%Q /\ (b - (1 # 200) <= a)%Q /\ (a < b + (1 # 200))%Q.

(** A value exactly halfway between two cents. *)
Definition cent_tie (a : Q) : Prop :=
  exists k : Z, (a * 100 + (1 # 2) == inject_Z k)%Q.

(** The same for a number: the special values have no cents and stay
    as they are. *)
Definition rounded_to_cents (x r : number) : Prop :=
  match x with
  | Fin a => exists b, r = Fin b /\ cent_half_up a b
  | _ => r = x
  end.

(** The fields of a metrics record, in the order of the interface. *)
Definition metric_fields : list (FinancialMetrics.t -> number) :=
  [ FinancialMetrics.monthlyMortgagePayment;
    FinancialMetrics.grossMonthlyIncome;
    FinancialMetrics.totalMonthlyExpenses;
    FinancialMetrics.netMonthlyIncome;
    FinancialMetrics.netMonthlyCashFlow;
    FinancialMetrics.initialCashInvested;
    FinancialMetrics.cashOnCashReturn;
    FinancialMetrics.capRate;
    FinancialMetrics.annualGrossIncome;
    FinancialMetrics.annualNetCashFlow;
    FinancialMetrics.totalManualCapEx;
    FinancialMetrics.immediateCapEx;
    FinancialMetrics.year1CapEx;
    FinancialMetrics.adjustedInitialCashInvested;
    FinancialMetrics.adjustedCashOnCashReturn;
    FinancialMetrics.adjustedCapRate ].

(** A finite number in lowest terms, or a special value: what every
    operation returns. *)
Definition canonical (x : number) : Prop :=
  match x with
  | Fin a => Qred a = a
  | _ => True
  end.

(** The plain sum of a list of numbers. *)
Fixpoint sum_numbers (l : list number) : number :=
  match l with
  | [] => 0
  | x :: l' => x + sum_numbers l'
  end.

(** The annuity formula as the specification writes it:
    [principal * r * (1+r)^n / ((1+r)^n - 1)]. *)
Definition annuity_payment (principal r n : number) : number :=
  principal * r * Math_pow (1 + r) n / (Math_pow (1 + r) n - 1).

(** [1 + q + ... + q^(n-1)], the sum the annuity formula is the
    closed form of. *)
Fixpoint geometric_sum (q : Q) (n : nat) : Q :=
  match n with
  | O => 0
  | S n' => geometric_sum q n' + q ^ Z.of_nat n'
  end.

(** The same property with other shared details. *)
Definition with_shared (property : Property.t) (s : SharedDetails.t)
  : Property.t :=
  {| type := property.(type);
     shared := s;
     ltr := property.(ltr);
     str := property.(str);
     manualExpenses := property.(manualExpenses) |}.

(** The variant tag names a detail payload that is absent. *)
Definition payload_missing (property : Property.t) : Prop :=
  match property.(type) with
  | LTR => property.(ltr) = None
  | STR => property.(str) = None
  end.

(** The record with every field [0]. *)
Definition zeroMetrics : FinancialMetrics.t :=
  FinancialMetrics.mk 0 0 0 0 0 0 0 0 0 0 0 0 0 0 0 0.

(** The same shared details at another interest rate. *)
Definition with_interestRate (shared : SharedDetails.t) (rate : number)
  : SharedDetails.t :=
  {| id := shared.(id);
     name := shared.(name);
     marketValue := shared.(marketValue);
     purchasePrice := shared.(purchasePrice);
     downpayment := shared.(downpayment);
     loanAmount := shared.(loanAmount);
     loanRemaining := shared.(loanRemaining);
     interestRate := rate;
     loanTermYears := shared.(loanTermYears);
     closingCosts := shared.(closingCosts) |}.

(** The same property with another list of manual expenses. *)
Definition with_manualExpenses (property : Property.t)
    (expenses : list ManualExpense.t) : Property.t :=
  {| type := property.(type);
     shared := property.(shared);
     ltr := property.(ltr);
     str := property.(str);
     manualExpenses := Some expenses |}.


(** *** The home page ([client/src/pages/home.tsx]) *)

Definition MAX_SAVED_PORTFOLIOS : nat := 5.

(** [if (aiAnalysis) setAiAnalysis(null)]: a non-empty analysis is
    dropped, [null] and the empty string stay. *)
Definition clearAiAnalysis (aiAnalysis : option string) : option string :=
  if nullable_falsy aiAnalysis then aiAnalysis else None.

Definition handleAddProperty (s : HomeState.t) (property : Property.t)
  : HomeState.t :=
  let analysis :=
    {| PropertyAnalysis.property := property;
       PropertyAnalysis.metrics := calculateMetrics property |} in
  {| HomeState.properties := s.(HomeState.properties) ++ [analysis];
     HomeState.aiAnalysis := clearAiAnalysis s.(HomeState.aiAnalysis);
     HomeState.marketCapRate := s.(HomeState.marketCapRate);
     HomeState.savedPortfolios := s.(HomeState.savedPortfolios);
     HomeState.saveDialogOpen := s.(HomeState.saveDialogOpen);
     HomeState.loadDialogOpen := s.(HomeState.loadDialogOpen);
     HomeState.portfolioName := s.(HomeState.portfolioName);
     HomeState.currentLoadedPortfolioId := s.(HomeState.currentLoadedPortfolioId);
     HomeState.storage := s.(HomeState.storage) |}.

(** The new state and the property returned, [null] on an empty list. *)
Definition handleUndoLastProperty (s : HomeState.t)
  : HomeState.t * option PropertyAnalysis.t :=
  match s.(HomeState.properties) with
  | [] => (s, None)
  | first :: others =>
      let lastProperty := last others first in
      ({| HomeState.properties := removelast s.(HomeState.properties);
          HomeState.aiAnalysis := clearAiAnalysis s.(HomeState.aiAnalysis);
          HomeState.marketCapRate := s.(HomeState.marketCapRate);
          HomeState.savedPortfolios := s.(HomeState.savedPortfolios);
          HomeState.saveDialogOpen := s.(HomeState.saveDialogOpen);
          HomeState.loadDialogOpen := s.(HomeState.loadDialogOpen);
          HomeState.portfolioName := s.(HomeState.portfolioName);
          HomeState.currentLoadedPortfolioId := s.(HomeState.currentLoadedPortfolioId);
          HomeState.storage := s.(HomeState.storage) |},
       Some lastProperty)
  end.

Definition handleRemoveProperty (s : HomeState.t) (id : string) : HomeState.t :=
  {| HomeState.properties :=
       filter (fun p => negb (p.(property).(shared).(SharedDetails.id) =? id)%string)
         s.(HomeState.properties);
     HomeState.aiAnalysis := clearAiAnalysis s.(HomeState.aiAnalysis);
     HomeState.marketCapRate := s.(HomeState.marketCapRate);
     HomeState.savedPortfolios := s.(HomeState.savedPortfolios);
     HomeState.saveDialogOpen := s.(HomeState.saveDialogOpen);
     HomeState.loadDialogOpen := s.(HomeState.loadDialogOpen);
     HomeState.portfolioName := s.(HomeState.portfolioName);
     HomeState.currentLoadedPortfolioId := s.(HomeState.currentLoadedPortfolioId);
     HomeState.storage := s.(HomeState.storage) |}.

(** [savePortfolio(saveAsNew)], with the identifier [crypto.randomUUID()]
    and the time stamp [new Date().toISOString()] would give; the new
    state and the title of the toast. *)
Definition savePortfolio (s : HomeState.t) (saveAsNew : bool) (uuid now : string)
  : HomeState.t * string :=
  if string_falsy (trim s.(HomeState.portfolioName)) then (s, "Name required"%string)
  else if (List.length s.(HomeState.properties) =? 0)%nat
  then (s, "No properties"%string)
  else
    let isUpdating :=
      negb (nullable_falsy s.(HomeState.currentLoadedPortfolioId)) && negb saveAsNew in
    if negb isUpdating
       && (MAX_SAVED_PORTFOLIOS <=? List.length s.(HomeState.savedPortfolios))%nat
    then (s, "Limit reached"%string)
    else if isUpdating then
      let updated :=
        map (fun p =>
               match s.(HomeState.currentLoadedPortfolioId) with
               | Some current =>
                   if (p.(SavedPortfolio.id) =? current)%string then
                     {| SavedPortfolio.id := p.(SavedPortfolio.id);
                        SavedPortfolio.name := trim s.(HomeState.portfolioName);
                        SavedPortfolio.savedAt := now;
                        SavedPortfolio.properties := s.(HomeState.properties);
                        SavedPortfolio.marketCapRate := s.(HomeState.marketCapRate) |}
                   else p
               | None => p
               end)
          s.(HomeState.savedPortfolios) in
      ({| HomeState.properties := s.(HomeState.properties);
          HomeState.aiAnalysis := s.(HomeState.aiAnalysis);
          HomeState.marketCapRate := s.(HomeState.marketCapRate);
          HomeState.savedPortfolios := updated;
          HomeState.saveDialogOpen := false;
          HomeState.loadDialogOpen := s.(HomeState.loadDialogOpen);
          HomeState.portfolioName := s.(HomeState.portfolioName);
          HomeState.currentLoadedPortfolioId := s.(HomeState.currentLoadedPortfolioId);
          HomeState.storage := Some updated |},
       "Portfolio updated"%string)
    else
      let newPortfolio :=
        {| SavedPortfolio.id := uuid;
           SavedPortfolio.name := trim s.(HomeState.portfolioName);
           SavedPortfolio.savedAt := now;
           SavedPortfolio.properties := s.(HomeState.properties);
           SavedPortfolio.marketCapRate := s.(HomeState.marketCapRate) |} in
      let updated := s.(HomeState.savedPortfolios) ++ [newPortfolio] in
      ({| HomeState.properties := s.(HomeState.properties);
          HomeState.aiAnalysis := s.(HomeState.aiAnalysis);
          HomeState.marketCapRate := s.(HomeState.marketCapRate);
          HomeState.savedPortfolios := updated;
          HomeState.saveDialogOpen := false;
          HomeState.loadDialogOpen := s.(HomeState.loadDialogOpen);
          HomeState.portfolioName := s.(HomeState.portfolioName);
          HomeState.currentLoadedPortfolioId := Some newPortfolio.(SavedPortfolio.id);
          HomeState.storage := Some updated |},
       "Portfolio saved"%string).

Definition loadPortfolio (s : HomeState.t) (portfolio : SavedPortfolio.t)
  : HomeState.t * string :=
  ({| HomeState.properties := portfolio.(SavedPortfolio.properties);
      HomeState.aiAnalysis := None;
      HomeState.marketCapRate := portfolio.(SavedPortfolio.marketCapRate);
      HomeState.savedPortfolios := s.(HomeState.savedPortfolios);
      HomeState.saveDialogOpen := s.(HomeState.saveDialogOpen);
      HomeState.loadDialogOpen := false;
      HomeState.portfolioName := portfolio.(SavedPortfolio.name);
      HomeState.currentLoadedPortfolioId := Some portfolio.(SavedPortfolio.id);
      HomeState.storage := s.(HomeState.storage) |},
   "Portfolio loaded"%string).

Definition deletePortfolio (s : HomeState.t) (id : string) : HomeState.t * string :=
  let updated :=
    filter (fun p => negb (p.(SavedPortfolio.id) =? id)%string)
      s.(HomeState.savedPortfolios) in
  ({| HomeState.properties := s.(HomeState.properties);
      HomeState.aiAnalysis := s.(HomeState.aiAnalysis);
      HomeState.marketCapRate := s.(HomeState.marketCapRate);
      HomeState.savedPortfolios := updated;
      HomeState.saveDialogOpen := s.(HomeState.saveDialogOpen);
      HomeState.loadDialogOpen := s.(HomeState.loadDialogOpen);
      HomeState.portfolioName := s.(HomeState.portfolioName);
      HomeState.currentLoadedPortfolioId := s.(HomeState.currentLoadedPortfolioId);
      HomeState.storage := Some updated |},
   "Portfolio deleted"%string).

(** The menu item New Portfolio. *)
Definition newPortfolio (s : HomeState.t) : HomeState.t * string :=
  ({| HomeState.properties := [];
      HomeState.aiAnalysis := None;
      HomeState.marketCapRate := s.(HomeState.marketCapRate);
      HomeState.savedPortfolios := s.(HomeState.savedPortfolios);
      HomeState.saveDialogOpen := s.(HomeState.saveDialogOpen);
      HomeState.loadDialogOpen := s.(HomeState.loadDialogOpen);
      HomeState.portfolioName := EmptyString;
      HomeState.currentLoadedPortfolioId := None;
      HomeState.storage := s.(HomeState.storage) |},
   "New portfolio"%string).

(** Every analysis carries the metrics [calculateMetrics] gives for its
    property. *)
Definition analyses_consistent (l : list PropertyAnalysis.t) : Prop :=
  Forall (fun a => a.(metrics) = calculateMetrics a.(property)) l.

(** What holds of a state of the home page: the metrics shown and the
    metrics stored are those of [calculateMetrics], and at most
    MAX_SAVED_PORTFOLIOS portfolios are saved. *)
Definition home_invariant (s : HomeState.t) : Prop :=
  analyses_consistent s.(HomeState.properties) /\
  Forall (fun sp => analyses_consistent sp.(SavedPortfolio.properties))
    s.(HomeState.savedPortfolios) /\
  (List.length s.(HomeState.savedPortfolios) <= MAX_SAVED_PORTFOLIOS)%nat.

(** The states the handlers lead to from a state [init]; a portfolio is
    loaded from the list of saved ones, as the load dialog offers it,
    and the name field, the cap rate slider, the dialogs and the AI
    analysis change the other members of the state ([reach_edit]). *)
Inductive home_reachable (init : HomeState.t) : HomeState.t -> Prop :=
| reach_init : home_reachable init init
| reach_add s p :
    home_reachable init s -> home_reachable init (handleAddProperty s p)
| reach_undo s :
    home_reachable init s -> home_reachable init (fst (handleUndoLastProperty s))
| reach_remove s id :
    home_reachable init s -> home_reachable init (handleRemoveProperty s id)
| reach_save s saveAsNew uuid now :
    home_reachable init s ->
    home_reachable init (fst (savePortfolio s saveAsNew uuid now))
| reach_load s portfolio :
    home_reachable init s -> In portfolio s.(HomeState.savedPortfolios) ->
    home_reachable init (fst (loadPortfolio s portfolio))
| reach_delete s id :
    home_reachable init s -> home_reachable init (fst (deletePortfolio s id))
| reach_new s :
    home_reachable init s -> home_reachable init (fst (newPortfolio s))
| reach_edit s s' :
    home_reachable init s ->
    s'.(HomeState.properties) = s.(HomeState.properties) ->
    s'.(HomeState.savedPortfolios) = s.(HomeState.savedPortfolios) ->
    s'.(HomeState.currentLoadedPortfolioId) = s.(HomeState.currentLoadedPortfolioId) ->
    s'.(HomeState.storage) = s.(HomeState.storage) ->
    home_reachable init s'.

(** *** Manual expenses ([client/src/components/ManualExpenseOverride.tsx]) *)

(** [isNaN(x)]. *)
Definition isNaN (x : number) : bool :=
  match x with
  | NaN => true
  | _ => false
  end.

(** [handleAddExpense]: [expenseName] and [estimatedCost] are the two
    text fields, [cost] the number
    [parseFloat(estimatedCost.replace(/[,$]/g, ''))] and [uuid] the
    identifier [crypto.randomUUID()] would give; the list handed to
    [onExpensesChange], or the list as it is when the handler returns
    early. *)
Definition handleAddExpense (expenses : list ManualExpense.t)
    (expenseName estimatedCost : string) (cost : number)
    (timing : ExpenseTiming) (uuid : string) : list ManualExpense.t :=
  if string_falsy (trim expenseName) || string_falsy estimatedCost then expenses
  else if isNaN cost || (cost <=? 0) then expenses
  else
    expenses ++
    [ {| ManualExpense.id := uuid;
         ManualExpense.name := trim expenseName;
         ManualExpense.estimatedCost := cost;
         ManualExpense.timing := timing |} ].

Definition handleRemoveExpense (expenses : list ManualExpense.t) (id : string)
  : list ManualExpense.t :=
  filter (fun e => negb (e.(ManualExpense.id) =? id)%string) expenses.

(** The total of the badge: [totalImmediate + totalYear1]. *)
Definition totalAll (expenses : list ManualExpense.t) : number :=
  capExOf IMMEDIATE expenses + capExOf YEAR_1 expenses.

(** The lists of expenses the two handlers lead to from the empty list
    of a new form. *)
Inductive entered_expenses : list ManualExpense.t -> Prop :=
| entered_none : entered_expenses []
| entered_add expenses expenseName estimatedCost cost timing uuid :
    entered_expenses expenses ->
    entered_expenses
      (handleAddExpense expenses expenseName estimatedCost cost timing uuid)
| entered_remove expenses id :
    entered_expenses expenses ->
    entered_expenses (handleRemoveExpense expenses id).

(** *** The input form ([client/src/components/InputForm.tsx]) *)

(** The update the first effect queues for a purchase price greater
    than 0: [price] is [formData.shared.purchasePrice], [prev] the state
    the update is applied to. *)
Definition autofillFromPurchasePrice (price : number) (prev : Property.t)
  : Property.t :=
  if price >? 0 then
    let newDownpayment := Math_round (price * Fin 0.20) in
    let newLoanAmount := price - newDownpayment in
    let newClosingCosts := Math_round (price * Fin 0.03) in
    let newAnnualInsurance := Math_round (price * Fin 0.0035) in
    {| type := prev.(type);
       shared :=
         {| id := prev.(shared).(id);
            name := prev.(shared).(name);
            marketValue := prev.(shared).(marketValue);
            purchasePrice := prev.(shared).(purchasePrice);
            downpayment := newDownpayment;
            loanAmount := newLoanAmount;
            loanRemaining := newLoanAmount;
            interestRate := prev.(shared).(interestRate);
            loanTermYears := prev.(shared).(loanTermYears);
            closingCosts := newClosingCosts |};
       ltr :=
         match prev.(type), prev.(ltr) with
         | LTR, Some l =>
             Some {| LTRDetails.grossRentPerMonth := l.(LTRDetails.grossRentPerMonth);
                     LTRDetails.buildingType := l.(LTRDetails.buildingType);
                     LTRDetails.numberOfUnits := l.(LTRDetails.numberOfUnits);
                     LTRDetails.pmFeePercent := l.(LTRDetails.pmFeePercent);
                     LTRDetails.annualPropertyTax := l.(LTRDetails.annualPropertyTax);
                     LTRDetails.annualInsurance := newAnnualInsurance;
                     LTRDetails.monthlyRepairReserve := l.(LTRDetails.monthlyRepairReserve);
                     LTRDetails.targetVeteranOccupancyPercent :=
                       l.(LTRDetails.targetVeteranOccupancyPercent);
                     LTRDetails.currentVeteranOccupancyPercent :=
                       l.(LTRDetails.currentVeteranOccupancyPercent) |}
         | _, _ => prev.(ltr)
         end;
       str :=
         match prev.(type), prev.(str) with
         | STR, Some t =>
             Some {| STRDetails.dailyRate := t.(STRDetails.dailyRate);
                     STRDetails.daysInMonth := t.(STRDetails.daysInMonth);
                     STRDetails.occupancyRate := t.(STRDetails.occupancyRate);
                     STRDetails.coHostFeePercent := t.(STRDetails.coHostFeePercent);
                     STRDetails.cleaningFeePerStay := t.(STRDetails.cleaningFeePerStay);
                     STRDetails.avgStaysPerMonth := t.(STRDetails.avgStaysPerMonth);
                     STRDetails.monthlyUtilities := t.(STRDetails.monthlyUtilities);
                     STRDetails.annualPropertyTax := t.(STRDetails.annualPropertyTax);
                     STRDetails.annualInsurance := newAnnualInsurance |}
         | _, _ => prev.(str)
         end;
       manualExpenses := prev.(manualExpenses) |}
  else prev.

(** *** The dashboard report ([exportDashboardPDF], [client/src/lib/exports.ts]) *)

Definition reportMetrics (properties : list PropertyAnalysis.t)
    (marketCapRate : number) : ReportMetrics.t :=
  let totalPurchasePrice :=
    reduce_sum (fun p => p.(property).(shared).(purchasePrice)) properties in
  let totalLoanAmount :=
    reduce_sum (fun p => p.(property).(shared).(loanAmount)) properties in
  let totalEquity := totalPurchasePrice - totalLoanAmount in
  let totalCashInvested :=
    reduce_sum (fun p => p.(metrics).(FinancialMetrics.initialCashInvested)) properties in
  let grossMonthlyIncome :=
    reduce_sum (fun p => p.(metrics).(FinancialMetrics.grossMonthlyIncome)) properties in
  let netMonthlyIncome :=
    reduce_sum (fun p => p.(metrics).(FinancialMetrics.netMonthlyIncome)) properties in
  let monthlyMortgage :=
    reduce_sum (fun p => p.(metrics).(FinancialMetrics.monthlyMortgagePayment)) properties in
  let monthlyExpenses :=
    reduce_sum (fun p => p.(metrics).(FinancialMetrics.totalMonthlyExpenses)) properties in
  let netMonthlyCashFlow :=
    reduce_sum (fun p => p.(metrics).(FinancialMetrics.netMonthlyCashFlow)) properties in
  let annualCashFlow :=
    reduce_sum (fun p => p.(metrics).(FinancialMetrics.annualNetCashFlow)) properties in
  let annualNOI := netMonthlyIncome * 12 in
  let avgCoC :=
    if array_length properties >? 0
    then reduce_sum (fun p => p.(metrics).(FinancialMetrics.cashOnCashReturn)) properties
         / array_length properties
    else 0 in
  let avgCapRate :=
    if array_length properties >? 0
    then reduce_sum (fun p => p.(metrics).(FinancialMetrics.capRate)) properties
         / array_length properties
    else 0 in
  let estimatedValue :=
    if marketCapRate >? 0 then annualNOI / (marketCapRate / 100) else 0 in
  let unrealizedGain := estimatedValue - totalPurchasePrice in
  let ltrCount :=
    array_length (filter (fun p => PropertyType_eqb p.(property).(type) LTR) properties) in
  let strCount :=
    array_length (filter (fun p => PropertyType_eqb p.(property).(type) STR) properties) in
  {| ReportMetrics.totalPurchasePrice := totalPurchasePrice;
     ReportMetrics.totalLoanAmount := totalLoanAmount;
     ReportMetrics.totalEquity := totalEquity;
     ReportMetrics.totalCashInvested := totalCashInvested;
     ReportMetrics.grossMonthlyIncome := grossMonthlyIncome;
     ReportMetrics.netMonthlyIncome := netMonthlyIncome;
     ReportMetrics.monthlyMortgage := monthlyMortgage;
     ReportMetrics.monthlyExpenses := monthlyExpenses;
     ReportMetrics.netMonthlyCashFlow := netMonthlyCashFlow;
     ReportMetrics.annualCashFlow := annualCashFlow;
     ReportMetrics.annualNOI := annualNOI;
     ReportMetrics.avgCoC := avgCoC;
     ReportMetrics.avgCapRate := avgCapRate;
     ReportMetrics.estimatedValue := estimatedValue;
     ReportMetrics.unrealizedGain := unrealizedGain;
     ReportMetrics.ltrCount := ltrCount;
     ReportMetrics.strCount := strCount |}.

(** The four investors and their stakes. *)
Definition investors : list (string * number) :=
  [ ("Investor A"%string, Fin 0.25);
    ("Investor B"%string, Fin 0.25);
    ("Investor C"%string, Fin 0.25);
    ("Investor D"%string, Fin 0.25) ].

(** The amounts of an investor's row of the distribution table, before
    they are formatted: the shares of equity, cash invested, monthly and
    annual cash flow and estimated value. *)
Definition investorRow (m : ReportMetrics.t) (inv : string * number) : list number :=
  [ m.(ReportMetrics.totalEquity) * snd inv;
    m.(ReportMetrics.totalCashInvested) * snd inv;
    m.(ReportMetrics.netMonthlyCashFlow) * snd inv;
    m.(ReportMetrics.annualCashFlow) * snd inv;
    m.(ReportMetrics.estimatedValue) * snd inv ].

(** *** Further notions *)

(** The balance of a loan of [P] at the monthly rate [r] after [k]
    payments of [m]: each month the balance bears interest and the
    payment is taken off. *)
Fixpoint balance_after (P r m : Q) (k : nat) : Q :=
  match k with
  | O => P
  | S k' => (balance_after P r m k' * (1 + r) - m)%Q
  end.

(** The running total of the cumulative cash flow chart of the report:
    [let cumulative = 0; properties.map(p => { cumulative +=
    p.metrics.netMonthlyCashFlow; return cumulative; })]. *)
Fixpoint cumulativeFrom (cumulative : number) (properties : list PropertyAnalysis.t)
  : list number :=
  match properties with
  | [] => []
  | p :: rest =>
      let cumulative' := cumulative + p.(metrics).(FinancialMetrics.netMonthlyCashFlow) in
      cumulative' :: cumulativeFrom cumulative' rest
  end.

Definition cumulativeData (properties : list PropertyAnalysis.t) : list number :=
  cumulativeFrom 0 properties.

(** *** Concrete states and inputs *)

(** The home page as it starts, with nothing stored. *)
Definition initial_home : HomeState.t :=
  {| HomeState.properties := [];
     HomeState.aiAnalysis := None;
     HomeState.marketCapRate := Fin 6.0;
     HomeState.savedPortfolios := [];
     HomeState.saveDialogOpen := false;
     HomeState.loadDialogOpen := false;
     HomeState.portfolioName := EmptyString;
     HomeState.currentLoadedPortfolioId := None;
     HomeState.storage := None |}.

(** The same with a name typed into the save dialog. *)
Definition named_home (s : HomeState.t) (name : string) : HomeState.t :=
  {| HomeState.properties := s.(HomeState.properties);
     HomeState.aiAnalysis := s.(HomeState.aiAnalysis);
     HomeState.marketCapRate := s.(HomeState.marketCapRate);
     HomeState.savedPortfolios := s.(HomeState.savedPortfolios);
     HomeState.saveDialogOpen := s.(HomeState.saveDialogOpen);
     HomeState.loadDialogOpen := s.(HomeState.loadDialogOpen);
     HomeState.portfolioName := name;
     HomeState.currentLoadedPortfolioId := s.(HomeState.currentLoadedPortfolioId);
     HomeState.storage := s.(HomeState.storage) |}.

(** A property is added, the portfolio is saved under a name, and the
    saved portfolio is deleted while it is still the loaded one. *)
Definition saved_home : HomeState.t :=
  fst (savePortfolio
         (named_home (handleAddProperty initial_home starter_property) " Rentals ")
         false "id-1" "2026-01-01T00:00:00.000Z").

Definition deleted_home : HomeState.t := fst (deletePortfolio saved_home "id-1").

(** Two expenses entered in the form, the second with costs the form
    refuses in between. *)
Definition form_expenses : list ManualExpense.t :=
  handleAddExpense
    (handleAddExpense
       (handleAddExpense [] "Roof Repair" "3,000" 3000 IMMEDIATE "e1")
       "Negative" "-5" (Fin (-5)) YEAR_1 "e2")
    " HVAC " "1200" 1200 YEAR_1 "e3".

(** The default LTR form with a purchase price of 250,000 typed in. *)
Definition typed_price_property : Property.t :=
  Property.mk LTR
    (SharedDetails.mk "" "" 0 250000 0 0 0 0 30 0)
    (Some (LTRDetails.mk 0 SFH 1 9 0 0 50 50 (Some 0)))
    None (Some []).

(** *** Further concrete properties *)

(** A cash purchase of 100,000 let for 1,351 a month, with a PM fee of
    2.5% and no other expense: the fee is 33.775, halfway between two
    cents, and the net income 1,317.225. *)
Definition tie_ltr : LTRDetails.t :=
  LTRDetails.mk 1351 SFH 1 (Fin 2.5) 0 0 0 50 None.

Definition tie_property : Property.t :=
  Property.mk LTR (SharedDetails.mk "p4" "Cottage" 100000 100000 100000 0 0 0 30 0)
    (Some tie_ltr) None (Some []).

(** The same with one year-1 expense of 1,200. *)
Definition hvac_expenses : list ManualExpense.t :=
  [ ManualExpense.mk "e1" "HVAC Replacement" 1200 YEAR_1 ].

Definition tie_with_year1 : Property.t :=
  with_manualExpenses tie_property hvac_expenses.

(** The same purchase let for 1,003 a month with a PM fee of 7.5%: the
    fee is 75.225. *)
Definition fee_property : Property.t :=
  Property.mk LTR (SharedDetails.mk "p5" "Bungalow" 100000 100000 100000 0 0 0 30 0)
    (Some (LTRDetails.mk 1003 SFH 1 (Fin 7.5) 0 0 0 50 None)) None (Some []).


(** A loan of 12,000 at 1200% over 86 years: the monthly rate is 1 and
    the power 2^1032, beyond the binary64 range. *)
Definition long_loan_shared : SharedDetails.t :=
  SharedDetails.mk "p6" "Long Loan" 60000 60000 0 12000 0 1200 86 1500.

(** Three immediate expenses, and the same with the last two swapped. *)
Definition small_repairs : list ManualExpense.t :=
  [ ManualExpense.mk "e1" "Paint" (Fin 1.387) IMMEDIATE;
    ManualExpense.mk "e2" "Locks" (Fin 0.449) IMMEDIATE;
    ManualExpense.mk "e3" "Bulbs" (Fin 1.559) IMMEDIATE ].

Definition small_repairs_swapped : list ManualExpense.t :=
  [ ManualExpense.mk "e1" "Paint" (Fin 1.387) IMMEDIATE;
    ManualExpense.mk "e3" "Bulbs" (Fin 1.559) IMMEDIATE;
    ManualExpense.mk "e2" "Locks" (Fin 0.449) IMMEDIATE ].

(** The shared details of DEFAULT_LTR_PROPERTY, and the default
    property without its LTR payload. *)
Definition default_shared : SharedDetails.t :=
  SharedDetails.mk EmptyString EmptyString 0 0 0 0 0 0 30 0.

Definition default_without_payload : Property.t :=
  Property.mk LTR default_shared None None (Some []).

(** The smaller purchase without its LTR payload, with an immediate
    expense of 3,000 and a year-1 expense of 1,200. *)
Definition degraded_expenses : list ManualExpense.t :=
  [ ManualExpense.mk "e1" "Roof Repair" 3000 IMMEDIATE;
    ManualExpense.mk "e2" "HVAC Replacement" 1200 YEAR_1 ].

Definition degraded_property : Property.t :=
  Property.mk LTR starter_shared None None (Some degraded_expenses).

(** ** Arithmetic of numbers *)

Lemma Qlt_bool_iff (x y : Q) : Qlt_bool x y = true <-> (x < y)%Q.
Proof.
  unfold Qlt_bool. rewrite negb_true_iff, <- not_true_iff_false, Qle_bool_iff.
  split; [apply Qnot_le_lt | apply Qlt_not_le].
Qed.

Lemma Qlt_bool_false_iff (x y : Q) : Qlt_bool x y = false <-> (y <= x)%Q.
Proof.
  unfold Qlt_bool. rewrite negb_false_iff. apply Qle_bool_iff.
Qed.

Lemma Fin_Qred_eq (a b : Q) : (a == b)%Q -> Fin (Qred a) = Fin (Qred b).
Proof. intros H. f_equal. now apply Qred_complete. Qed.

Lemma Qred_idem (a : Q) : Qred (Qred a) = Qred a.
Proof. apply Qred_complete, Qred_correct. Qed.

Lemma num_add_canonical (x y : number) : canonical (x + y).
Proof.
  destruct x, y; cbn [num_add canonical]; trivial; apply Qred_idem.
Qed.

Lemma num_add_0_r (x : number) : canonical x -> x + 0 = x.
Proof.
  destruct x as [a| | |]; cbn [num_add canonical]; auto.
  intros H. rewrite <- H at 2. apply Fin_Qred_eq. ring.
Qed.

Lemma num_add_0_l (x : number) : canonical x -> 0 + x = x.
Proof.
  destruct x as [a| | |]; cbn [num_add canonical]; auto.
  intros H. rewrite <- H at 2. apply Fin_Qred_eq. ring.
Qed.

Lemma num_add_assoc (x y z : number) : x + (y + z) = x + y + z.
Proof.
  destruct x as [a| | |], y as [b| | |], z as [c| | |];
    cbn [num_add]; try reflexivity.
  apply Fin_Qred_eq. rewrite !Qred_correct. ring.
Qed.

Lemma num_add_comm (x y : number) : x + y = y + x.
Proof.
  destruct x as [a| | |], y as [b| | |]; cbn [num_add]; try reflexivity.
  apply Fin_Qred_eq. ring.
Qed.

Lemma sum_numbers_canonical (l : list number) : canonical (sum_numbers l).
Proof. destruct l; cbn [sum_numbers]; [reflexivity | apply num_add_canonical]. Qed.

Lemma fold_left_sum {A : Type} (f : A -> number) (l : list A) (acc : number) :
  canonical acc ->
  fold_left (fun sum p => sum + f p) l acc = acc + sum_numbers (map f l).
Proof.
  revert acc. induction l as [|x l IH]; intros acc Hacc;
    cbn [fold_left map sum_numbers].
  - symmetry. now apply num_add_0_r.
  - rewrite IH by apply num_add_canonical. symmetry. apply num_add_assoc.
Qed.

(** [reduce] from [0] is the plain sum. *)
Lemma reduce_sum_plain {A : Type} (f : A -> number) (l : list A) :
  reduce_sum f l = sum_numbers (map f l).
Proof.
  unfold reduce_sum. rewrite fold_left_sum by reflexivity.
  apply num_add_0_l, sum_numbers_canonical.
Qed.


(** ** Rounding to cents *)

Lemma Qfloor_unique (q : Q) (z : Z) :
  (inject_Z z <= q)%Q -> (q < inject_Z (z + 1))%Q -> Qfloor q = z.
Proof.
  intros Hlo Hhi.
  pose proof (Qfloor_le q) as Hle. pose proof (Qlt_floor q) as Hlt.
  assert (Qfloor q < z + 1)%Z
    by (rewrite Zlt_Qlt; eapply Qle_lt_trans; eassumption).
  assert (z < Qfloor q + 1)%Z
    by (rewrite Zlt_Qlt; eapply Qle_lt_trans; eassumption).
  lia.
Qed.

Lemma Qfloor_plus_Z (q : Q) (k : Z) :
  Qfloor (q + inject_Z k) = (Qfloor q + k)%Z.
Proof.
  pose proof (Qfloor_le q) as Hle. pose proof (Qlt_floor q) as Hlt.
  apply Qfloor_unique.
  - rewrite inject_Z_plus. lra.
  - replace (Qfloor q + k + 1)%Z with ((Qfloor q + 1) + k)%Z by lia.
    rewrite inject_Z_plus. lra.
Qed.

(** The rounding on a rational: [floor (100 a + 1/2) / 100]. *)
Lemma round2_Fin (a : Q) :
  round2 (Fin a) = Fin (Qred (inject_Z (Qfloor (a * 100 + (1 # 2))) / 100)).
Proof.
  unfold round2. cbn [num_mul Math_round num_div].
  change (Qeq_bool 100 0) with false. cbv iota.
  apply Fin_Qred_eq. now rewrite Qred_correct.
Qed.

Lemma round2_rounded (x : number) : rounded_to_cents x (round2 x).
Proof.
  destruct x as [a| | |]; cbn [rounded_to_cents]; try reflexivity.
  rewrite round2_Fin. eexists; split; [reflexivity|].
  pose proof (Qfloor_le (a * 100 + (1 # 2))) as Hle.
  pose proof (Qlt_floor (a * 100 + (1 # 2))) as Hlt.
  rewrite inject_Z_plus in Hlt.
  set (c := Qfloor (a * 100 + (1 # 2))) in *.
  change (inject_Z 1) with 1%Q in Hlt.
  unfold cent_half_up. repeat split.
  - exists c. apply Qred_correct.
  - rewrite Qred_correct.
    change (inject_Z c / 100)%Q with (inject_Z c * (1 # 100))%Q. lra.
  - rewrite Qred_correct.
    change (inject_Z c / 100)%Q with (inject_Z c * (1 # 100))%Q. lra.
Qed.

(** Rounding to cents commutes with taking off a whole amount. *)
Lemma round2_sub_whole (x : number) (k : Z) :
  round2 (x - Fin (inject_Z k)) = round2 x - Fin (inject_Z k).
Proof.
  destruct x as [a| | |]; try reflexivity.
  cbn [num_sub]. rewrite !round2_Fin. cbn [num_sub].
  apply Fin_Qred_eq. rewrite !Qred_correct.
  assert (E : (a * 100 + (1 # 2) + inject_Z (- (100 * k)) ==
               (a - inject_Z k) * 100 + (1 # 2))%Q).
  { rewrite inject_Z_opp, inject_Z_mult. change (inject_Z 100) with 100%Q. ring. }
  rewrite <- E, Qfloor_plus_Z, inject_Z_plus, inject_Z_opp, inject_Z_mult.
  change (inject_Z 100) with 100%Q. field.
Qed.

(** Rounding to cents commutes with negation, except on a tie, which
    goes up on both sides. *)
Lemma round2_neg (a : Q) :
  ~ cent_tie a -> round2 (num_neg (Fin a)) = num_neg (round2 (Fin a)).
Proof.
  intros Htie. cbn [num_neg]. rewrite !round2_Fin. cbn [num_neg].
  apply Fin_Qred_eq. rewrite !Qred_correct.
  pose proof (Qfloor_le (a * 100 + (1 # 2))) as Hle.
  pose proof (Qlt_floor (a * 100 + (1 # 2))) as Hlt.
  rewrite inject_Z_plus in Hlt. change (inject_Z 1) with 1%Q in Hlt.
  set (z := Qfloor (a * 100 + (1 # 2))) in *.
  assert (Hne : ~ (a * 100 + (1 # 2) == inject_Z z)%Q)
    by (intros E; apply Htie; now exists z).
  assert (Hlo : (inject_Z z < a * 100 + (1 # 2))%Q).
  { apply Qle_lteq in Hle. destruct Hle as [?|E]; [assumption|].
    exfalso. apply Hne. now symmetry. }
  assert (E : Qfloor (- a * 100 + (1 # 2)) = (- z)%Z).
  { apply Qfloor_unique.
    - rewrite inject_Z_opp. lra.
    - rewrite inject_Z_plus, inject_Z_opp. change (inject_Z 1) with 1%Q. lra. }
  rewrite E, inject_Z_opp. field.
Qed.



(** ** The annuity formula on rationals *)

Lemma Qpower_succ (q : Q) (n : nat) :
  (q ^ Z.of_nat (S n) == q * q ^ Z.of_nat n)%Q.
Proof.
  rewrite Nat2Z.inj_succ, <- Z.add_1_l.
  rewrite Qpower_plus' by lia. now rewrite Qpower_1_r.
Qed.

#[local] Instance geometric_sum_comp :
  Proper (Qeq ==> eq ==> Qeq) geometric_sum.
Proof.
  intros q q' Hq n n' <-. induction n as [|n IH]; cbn [geometric_sum].
  - reflexivity.
  - now rewrite IH, Hq.
Qed.

Lemma geometric_sum_closed (q : Q) (n : nat) :
  (q ^ Z.of_nat n - 1 == (q - 1) * geometric_sum q n)%Q.
Proof.
  induction n as [|n IH].
  - cbn [geometric_sum Z.of_nat Qpower]. ring.
  - cbn [geometric_sum]. rewrite Qpower_succ.
    transitivity ((q ^ Z.of_nat n - 1) + (q - 1) * q ^ Z.of_nat n)%Q; [ring|].
    rewrite IH. ring.
Qed.

Lemma geometric_sum_pos (q : Q) (n : nat) :
  (0 < q)%Q -> (0 < n)%nat -> (0 < geometric_sum q n)%Q.
Proof.
  intros Hq Hn. induction n as [|n IH]; [lia|].
  cbn [geometric_sum].
  pose proof (Qpower_0_lt q (Z.of_nat n) Hq) as Hp.
  destruct n as [|n]; [cbn [geometric_sum] in *; lra|].
  assert (0 < geometric_sum q (S n))%Q by (apply IH; lia). lra.
Qed.



(** ** The mortgage payment *)

Lemma num_div_Fin (a b : Q) :
  ~ (b == 0)%Q -> Fin a / Fin b = Fin (Qred (a / b)).
Proof.
  intros Hb. cbn [num_div].
  destruct (Qeq_bool b 0) eqn:E; [|reflexivity].
  now apply Qeq_bool_eq in E.
Qed.

Lemma num_gt_Fin (a b : Q) : (Fin a >? Fin b) = true <-> (b < a)%Q.
Proof. cbn [num_gt]. apply Qlt_bool_iff. Qed.

Lemma num_gt_Fin_false (a b : Q) : (Fin a >? Fin b) = false <-> (a <= b)%Q.
Proof. cbn [num_gt]. apply Qlt_bool_false_iff. Qed.

Lemma integral_inject_Z (n : Z) : integral (inject_Z n) = Some n.
Proof.
  unfold integral, inject_Z. cbn [Qnum Qden].
  now rewrite Z.mod_1_r, Z.div_1_r.
Qed.

Lemma monthly_of_annual (R : Q) : (R / 100 / 12 == R * (1 # 1200))%Q.
Proof. field. Qed.

Lemma monthlyRate_Fin (s : SharedDetails.t) (R : Q) :
  s.(interestRate) = Fin R ->
  exists r, monthlyRate s = Fin r /\ (r == R / 100 / 12)%Q.
Proof.
  intros HR. unfold monthlyRate. rewrite HR.
  rewrite !num_div_Fin by discriminate.
  eexists; split; [reflexivity|]. now rewrite !Qred_correct.
Qed.

Lemma Math_pow_whole (x : Q) (n : Z) :
  ~ (x == 0)%Q -> n <> 0%Z ->
  Math_pow (Fin x) (Fin (inject_Z n)) = Fin (Qred (x ^ n)).
Proof.
  intros Hx Hn. unfold Math_pow.
  destruct (Qeq_bool (inject_Z n) 0) eqn:E.
  - apply Qeq_bool_eq in E. exfalso. apply Hn.
    unfold Qeq, inject_Z in E. cbn in E. lia.
  - destruct (Qeq_bool x 0) eqn:Ex; [now apply Qeq_bool_eq in Ex|].
    now rewrite integral_inject_Z.
Qed.

(** With no payment to make the power is [1] and the quotient is
    [Infinity]. *)
Lemma monthlyMortgagePayment_no_term (s : SharedDetails.t) (P R : Q) :
  activeLoanBalance s = Fin P -> (0 < P)%Q ->
  s.(interestRate) = Fin R -> (0 < R)%Q ->
  numPayments s = 0 ->
  monthlyMortgagePayment s = PosInf.
Proof.
  intros HP HP0 HR HR0 Hn.
  destruct (monthlyRate_Fin s R HR) as (r & Hr & Er).
  assert (Hr0 : (0 < r)%Q) by (rewrite Er, monthly_of_annual; lra).
  unfold monthlyMortgagePayment. rewrite HP, Hr, Hn.
  replace (Fin P >? 0) with true by (symmetry; now apply num_gt_Fin).
  replace (Fin r >? 0) with true by (symmetry; now apply num_gt_Fin).
  cbn [andb num_add Math_pow]. change (Qeq_bool 0 0) with true. cbv iota.
  cbn [num_mul num_sub num_div].
  change (Qeq_bool (Qred (1 - 1)) 0) with true. cbv iota.
  assert (H : (0 < Qred (P * Qred (r * 1)))%Q).
  { rewrite !Qred_correct. apply Qmult_lt_0_compat; lra. }
  apply Qgt_alt in H. now rewrite H.
Qed.

(** With a whole positive number of payments, a positive balance and a
    positive rate the payment is the balance times [q^n] over the
    geometric sum, [q] being one plus the monthly rate. *)
Lemma monthlyMortgagePayment_annuity (s : SharedDetails.t) (P R : Q) (n : nat) :
  activeLoanBalance s = Fin P -> (0 < P)%Q ->
  s.(interestRate) = Fin R -> (0 < R)%Q ->
  numPayments s = Fin (inject_Z (Z.of_nat n)) -> (0 < n)%nat ->
  exists m,
    monthlyMortgagePayment s = Fin m /\
    (m == P * (1 + R / 100 / 12) ^ Z.of_nat n
          / geometric_sum (1 + R / 100 / 12) n)%Q.
Proof.
  intros HP HP0 HR HR0 Hn Hn0.
  destruct (monthlyRate_Fin s R HR) as (r & Hr & Er).
  assert (Hr0 : (0 < r)%Q) by (rewrite Er, monthly_of_annual; lra).
  unfold monthlyMortgagePayment. rewrite HP, Hr, Hn.
  replace (Fin P >? 0) with true by (symmetry; now apply num_gt_Fin).
  replace (Fin r >? 0) with true by (symmetry; now apply num_gt_Fin).
  cbn [andb num_add].
  pose proof (Qred_correct (1 + r)) as Eq1.
  remember (Qred (1 + r)) as q eqn:Dq. clear Dq.
  assert (Eq : (q == 1 + R / 100 / 12)%Q) by (now rewrite Eq1, Er).
  assert (Hq : (0 < q)%Q) by (rewrite Eq1; lra).
  rewrite Math_pow_whole by (try lia; intros E; rewrite E in Hq; lra).
  cbn [num_mul num_sub].
  pose proof (geometric_sum_closed q n) as Hc.
  pose proof (geometric_sum_pos q n Hq Hn0) as Hg.
  assert (Hd : (q ^ Z.of_nat n - 1 == r * geometric_sum q n)%Q).
  { assert (E : (q - 1 == r)%Q) by (rewrite Eq1; ring).
    now rewrite Hc, E. }
  assert (Hd0 : (0 < r * geometric_sum q n)%Q) by (apply Qmult_lt_0_compat; lra).
  rewrite num_div_Fin
    by (rewrite !Qred_correct, Hd; intros E; rewrite E in Hd0; lra).
  eexists; split; [reflexivity|].
  rewrite !Qred_correct, Hd, <- Eq.
  field. split; intros E; [rewrite E in Hg | rewrite E in Hr0]; lra.
Qed.


(** ** The selection rule *)

Lemma capExOf_sum (t : ExpenseTiming) (l : list ManualExpense.t) :
  capExOf t l =
  sum_numbers (map ManualExpense.estimatedCost
                 (filter (fun e => ExpenseTiming_eqb e.(ManualExpense.timing) t) l)).
Proof. apply (reduce_sum_plain ManualExpense.estimatedCost). Qed.

(** Every item is IMMEDIATE or YEAR_1, so the two sums make up the sum
    of all costs. *)
Lemma totalManualCapEx_all (property : Property.t) :
  totalManualCapEx property =
  sum_numbers (map ManualExpense.estimatedCost (manualExpensesOf property)).
Proof.
  unfold totalManualCapEx, immediateCapEx, year1CapEx.
  rewrite !capExOf_sum.
  induction (manualExpensesOf property) as [|e l IH]; [reflexivity|].
  cbn [filter map sum_numbers]. rewrite <- IH.
  destruct (ManualExpense.timing e); cbn [ExpenseTiming_eqb map sum_numbers].
  - symmetry. apply num_add_assoc.
  - rewrite !num_add_assoc. f_equal. apply num_add_comm.
Qed.

Lemma hasManualCapEx_zero (property : Property.t) :
  num_eqb (totalManualCapEx property) 0 = true ->
  hasManualCapEx property = false.
Proof.
  unfold hasManualCapEx. destruct (totalManualCapEx property) as [a| | |];
    cbn [num_eqb num_gt]; try discriminate.
  intros H. apply Qeq_bool_eq in H. apply Qlt_bool_false_iff. lra.
Qed.

(** C1. For every property the primary fields netMonthlyCashFlow,
    initialCashInvested, cashOnCashReturn, capRate and
    annualNetCashFlow are chosen together: when totalManualCapEx (the
    sum of the costs of all manual expenses) is greater than 0, each
    is its CapEx-adjusted variant rounded to cents (the same value as
    the adjusted field of the record, where there is one), and when
    totalManualCapEx is 0, each is its raw variant rounded to cents. *)
Theorem C1_selection_rule (property : Property.t) :
  let m := calculateMetrics property in
  totalManualCapEx property =
    sum_numbers (map ManualExpense.estimatedCost (manualExpensesOf property)) /\
  ((totalManualCapEx property >? 0) = true ->
     m.(FinancialMetrics.netMonthlyCashFlow) = round2 (adjustedNetMonthlyCashFlow property) /\
     m.(FinancialMetrics.initialCashInvested) = round2 (adjustedInitialCashInvested property) /\
     m.(FinancialMetrics.cashOnCashReturn) = round2 (adjustedCashOnCashReturn property) /\
     m.(FinancialMetrics.capRate) = round2 (adjustedCapRate property) /\
     m.(FinancialMetrics.annualNetCashFlow) = round2 (adjustedAnnualNetCashFlow property) /\
     m.(FinancialMetrics.initialCashInvested)
       = m.(FinancialMetrics.adjustedInitialCashInvested) /\
     m.(FinancialMetrics.cashOnCashReturn)
       = m.(FinancialMetrics.adjustedCashOnCashReturn) /\
     m.(FinancialMetrics.capRate) = m.(FinancialMetrics.adjustedCapRate)) /\
  (num_eqb (totalManualCapEx property) 0 = true ->
     m.(FinancialMetrics.netMonthlyCashFlow) = round2 (netMonthlyCashFlow property) /\
     m.(FinancialMetrics.initialCashInvested) = round2 (initialCashInvested property) /\
     m.(FinancialMetrics.cashOnCashReturn) = round2 (cashOnCashReturn property) /\
     m.(FinancialMetrics.capRate) = round2 (capRate property) /\
     m.(FinancialMetrics.annualNetCashFlow) = round2 (annualNetCashFlow property)).
Proof.
  cbn zeta. split; [apply totalManualCapEx_all|].
  cbn [calculateMetrics FinancialMetrics.netMonthlyCashFlow
         FinancialMetrics.initialCashInvested FinancialMetrics.cashOnCashReturn
         FinancialMetrics.capRate FinancialMetrics.annualNetCashFlow
         FinancialMetrics.adjustedInitialCashInvested
         FinancialMetrics.adjustedCashOnCashReturn FinancialMetrics.adjustedCapRate].
  unfold finalNetMonthlyCashFlow, finalInitialCashInvested, finalCashOnCashReturn,
    finalCapRate, finalAnnualNetCashFlow.
  split.
  - intros H. change (hasManualCapEx property = true) in H. rewrite H.
    repeat split.
  - intros H. rewrite (hasManualCapEx_zero property H). repeat split.
Qed.


(** ** The annuity formula *)

Lemma round2_0 : round2 0 = 0.
Proof. reflexivity. Qed.

Lemma num_mul_assoc_pos (a b : Q) (x : number) :
  (0 < a)%Q -> (0 < b)%Q -> Fin a * (Fin b * x) = Fin a * Fin b * x.
Proof.
  intros Ha Hb.
  assert (Hab : (0 < Qred (a * b))%Q)
    by (rewrite Qred_correct; now apply Qmult_lt_0_compat).
  apply Qgt_alt in Ha, Hb, Hab.
  destruct x as [c| | |]; cbn [num_mul]; rewrite ?Ha, ?Hb, ?Hab;
    cbn [inf_of_sign CompOpp num_mul]; rewrite ?Ha; try reflexivity.
  apply Fin_Qred_eq. rewrite !Qred_correct. ring.
Qed.

(** Dividing by 100 and then by 12, as the source does, or by 12 and
    then by 100, as the specification says, is the same. *)
Lemma monthlyRate_either_order (x : number) : x / 100 / 12 = x / 12 / 100.
Proof.
  destruct x as [a| | |]; try reflexivity.
  rewrite !num_div_Fin by discriminate.
  apply Fin_Qred_eq. rewrite !Qred_correct. field.
Qed.

(** C2. For every property whose active loan balance and interest rate
    are finite and not negative, as the amortization contract expects,
    the active principal is the remaining balance when that is greater
    than 0 and the original loan amount otherwise; the returned monthly
    payment is 0 when the active balance is 0 or the monthly rate
    (annual rate / 12 / 100) is 0; and otherwise it is the annuity
    formula principal * r * (1+r)^n / ((1+r)^n - 1), with r the monthly
    rate and n = loanTermYears * 12, rounded to cents as every returned
    field is.  (Outside the contract the guards decide: the payment is 0
    whenever the balance or the rate is not greater than 0.) *)
Theorem C2_mortgage_payment (property : Property.t) (P R : Q) :
  activeLoanBalance property.(shared) = Fin P -> (0 <= P)%Q ->
  property.(shared).(interestRate) = Fin R -> (0 <= R)%Q ->
  let s := property.(shared) in
  let r := s.(interestRate) / 12 / 100 in
  let n := s.(loanTermYears) * 12 in
  let payment :=
    (calculateMetrics property).(FinancialMetrics.monthlyMortgagePayment) in
  activeLoanBalance s =
    (if s.(loanRemaining) >? 0 then s.(loanRemaining) else s.(loanAmount)) /\
  (forall other : Property.t,
      (activeLoanBalance other.(shared) >? 0) && (monthlyRate other.(shared) >? 0)
      = false ->
      (calculateMetrics other).(FinancialMetrics.monthlyMortgagePayment) = 0) /\
  ((P == 0)%Q \/ num_eqb r 0 = true -> payment = 0) /\
  (~ (P == 0)%Q -> num_eqb r 0 = false ->
     payment = round2 (annuity_payment (activeLoanBalance s) r n)).
Proof.
  intros HP HP0 HR HR0. cbn zeta.
  split; [reflexivity|].
  cbn [calculateMetrics FinancialMetrics.monthlyMortgagePayment].
  change (Math_round (?x * 100) / 100) with (round2 x).
  split; [intros other Hg; unfold monthlyMortgagePayment; rewrite Hg;
          apply round2_0|].
  rewrite <- monthlyRate_either_order.
  change (property.(shared).(interestRate) / 100 / 12)
    with (monthlyRate property.(shared)).
  destruct (monthlyRate_Fin _ R HR) as (r & Hr & Er).
  rewrite monthly_of_annual in Er.
  unfold monthlyMortgagePayment. rewrite Hr, HP. cbn [num_eqb].
  split.
  - intros [H|H].
    + replace (Fin P >? 0) with false
        by (symmetry; apply num_gt_Fin_false; lra).
      apply round2_0.
    + apply Qeq_bool_eq in H.
      replace (Fin r >? 0) with false
        by (symmetry; apply num_gt_Fin_false; lra).
      rewrite andb_false_r. apply round2_0.
  - intros HPn Hrn. apply Qeq_bool_neq in Hrn.
    assert (HP1 : (0 < P)%Q) by (apply Qle_lteq in HP0; destruct HP0 as [?|E];
                                  [assumption | now symmetry in E]).
    assert (Hr1 : (0 < r)%Q).
    { assert (H : (0 <= r)%Q) by (rewrite Er; lra).
      apply Qle_lteq in H. destruct H as [?|E]; [assumption | now symmetry in E]. }
    replace (Fin P >? 0) with true by (symmetry; now apply num_gt_Fin).
    replace (Fin r >? 0) with true by (symmetry; now apply num_gt_Fin).
    cbn [andb]. unfold annuity_payment, numPayments.
    now rewrite num_mul_assoc_pos.
Qed.


(** ** Monotonicity of the payment in the interest rate *)





Lemma annuity_value_pos (P R : Q) (n : nat) :
  (0 < P)%Q -> (0 < R)%Q -> (0 < n)%nat ->
  (0 < P * (1 + R / 100 / 12) ^ Z.of_nat n / geometric_sum (1 + R / 100 / 12) n)%Q.
Proof.
  intros HP HR Hn. rewrite !monthly_of_annual.
  assert (Hq : (0 < 1 + R * (1 # 1200))%Q) by lra.
  apply Qlt_shift_div_l; [now apply geometric_sum_pos|].
  rewrite Qmult_0_l. apply Qmult_lt_0_compat; [assumption|].
  now apply Qpower_0_lt.
Qed.




(** ** Rounding of the returned record *)

(** C7, as the code has it. For every property, every field of the
    returned record, the currency amounts and the percentages alike, is
    Math.round(v * 100) / 100 of its unrounded value v; on exact
    numbers, where the product v * 100 is taken exactly, that is v
    rounded to two decimal places: a whole number of hundredths at most half a
    hundredth away, a tie going to the hundredth above (towards plus
    infinity), for negative values as for positive ones; an unrounded
    value that is not finite is returned as it is.  (On binary64
    numbers the product is itself rounded before [Math.round] sees it,
    and a value within that error of a tie can go to the other cent;
    this is shown at the end of the file.) *)
Theorem C7_rounded_to_cents (property : Property.t) :
  Forall (fun field =>
            field (calculateMetrics property) = round2 (field (unroundedMetrics property))
            /\ rounded_to_cents (field (unroundedMetrics property))
                                (field (calculateMetrics property)))
         metric_fields.
Proof.
  unfold metric_fields.
  repeat (apply Forall_cons; [split; [reflexivity | apply round2_rounded]|]).
  apply Forall_nil.
Qed.

(** The tie of a negative value goes up: -0.125 is rounded to -0.12. *)
Example round2_negative_tie : round2 (Fin (- (1 # 8))) = Fin (- (3 # 25)).
Proof. reflexivity. Qed.

(** ** Year-1 CapEx *)

Lemma capExOf_other_timing (t : ExpenseTiming) (l : list ManualExpense.t) :
  Forall (fun e => e.(ManualExpense.timing) <> t) l -> capExOf t l = 0.
Proof.
  intros H. unfold capExOf.
  replace (filter (fun e => ExpenseTiming_eqb e.(ManualExpense.timing) t) l)
    with (@nil ManualExpense.t); [reflexivity|].
  induction H as [|e l He _ IH]; [reflexivity|].
  cbn [filter]. destruct (ManualExpense.timing e), t; cbn [ExpenseTiming_eqb];
    congruence.
Qed.

(** C8, as the code has it. On exact numbers, for every property whose
    manual expenses are all tagged YEAR_1 and total exactly 1200, the
    returned netMonthlyCashFlow is exactly 100 (= 1200/12) less than
    the one returned for the same property with the list of manual
    expenses emptied, and the returned annualNetCashFlow is exactly
    1200 less than the raw annual net cash flow rounded to cents, which
    is the one returned with the list emptied.  (On binary64 numbers
    the two cash flows are rounded from values that are 100 apart up to
    their last bits only, and the returned ones can be 100.01 apart;
    this is shown at the end of the file.) *)
Theorem C8_year1_capex (property : Property.t) (expenses : list ManualExpense.t) :
  property.(manualExpenses) = Some expenses ->
  Forall (fun e => e.(ManualExpense.timing) = YEAR_1) expenses ->
  year1CapEx property = 1200 ->
  let m := calculateMetrics property in
  let m0 := calculateMetrics (with_manualExpenses property []) in
  m.(FinancialMetrics.netMonthlyCashFlow)
    = m0.(FinancialMetrics.netMonthlyCashFlow) - 100 /\
  m.(FinancialMetrics.annualNetCashFlow)
    = round2 (annualNetCashFlow property) - 1200 /\
  m0.(FinancialMetrics.annualNetCashFlow) = round2 (annualNetCashFlow property).
Proof.
  intros He Hall Hy. cbn zeta.
  assert (Hi : immediateCapEx property = 0).
  { unfold immediateCapEx, manualExpensesOf. rewrite He.
    apply capExOf_other_timing.
    eapply Forall_impl; [|exact Hall]. cbn beta. intros e ->. discriminate. }
  assert (Hh : hasManualCapEx property = true)
    by (unfold hasManualCapEx, totalManualCapEx; now rewrite Hi, Hy).
  cbn [calculateMetrics FinancialMetrics.netMonthlyCashFlow
         FinancialMetrics.annualNetCashFlow].
  change (Math_round (?x * 100) / 100) with (round2 x).
  unfold finalNetMonthlyCashFlow, finalAnnualNetCashFlow. rewrite Hh.
  change (hasManualCapEx (with_manualExpenses property [])) with false.
  cbv iota.
  change (netMonthlyCashFlow (with_manualExpenses property []))
    with (netMonthlyCashFlow property).
  change (annualNetCashFlow (with_manualExpenses property []))
    with (annualNetCashFlow property).
  unfold adjustedNetMonthlyCashFlow, adjustedAnnualNetCashFlow. rewrite Hy.
  change (1200 / 12) with (Fin (inject_Z 100)).
  repeat split.
  - apply round2_sub_whole.
  - apply (round2_sub_whole _ 1200).
Qed.


(** ** A variant tag without its payload *)

Lemma incomeAndExpenses_missing (property : Property.t) :
  payload_missing property -> incomeAndExpenses property = (0, 0).
Proof.
  unfold payload_missing, incomeAndExpenses.
  destruct (type property); intros ->; [reflexivity|].
  now destruct (ltr property).
Qed.

Lemma num_sub_0_l (x : number) : 0 - 0 - x = num_neg x.
Proof.
  destruct x as [a| | |]; try reflexivity.
  cbn [num_sub num_neg]. apply Fin_Qred_eq. rewrite Qred_correct. ring.
Qed.

Lemma num_mul_assoc_gt (x y z : number) :
  (x >? 0) = true -> (y >? 0) = true -> x * (y * z) = x * y * z.
Proof.
  intros Hx Hy.
  destruct x as [a| | |], y as [b| | |]; try discriminate.
  - apply num_mul_assoc_pos; now apply num_gt_Fin.
  - apply num_gt_Fin, Qgt_alt in Hx.
    destruct z as [c| | |]; cbn [num_mul]; rewrite ?Hx; cbn [inf_of_sign num_mul];
      try reflexivity.
    destruct (c ?= 0); cbn [inf_of_sign CompOpp num_mul]; rewrite ?Hx; reflexivity.
  - apply num_gt_Fin in Hy.
    assert (Hb : (b ?= 0) = Gt) by now apply Qgt_alt.
    destruct z as [c| | |]; cbn [num_mul]; rewrite ?Hb; cbn [inf_of_sign num_mul];
      try reflexivity.
    f_equal. rewrite (Qred_correct (b * c)).
    destruct (c ?= 0) eqn:Ec.
    + apply Qeq_alt in Ec. apply (proj1 (Qeq_alt _ _)). rewrite Ec. ring.
    + apply Qlt_alt in Ec. apply (proj1 (Qlt_alt _ _)). nra.
    + apply Qgt_alt in Ec. apply (proj1 (Qgt_alt _ _)). nra.
  - destruct z as [c| | |]; cbn [num_mul]; try reflexivity.
    now destruct (c ?= 0).
Qed.

Lemma capExOf_costs (t : ExpenseTiming) (l : list ManualExpense.t) :
  capExOf t l
  = fold_left num_add
      (map ManualExpense.estimatedCost
         (filter (fun e => ExpenseTiming_eqb e.(ManualExpense.timing) t) l)) 0.
Proof.
  unfold capExOf. generalize (0 : number).
  induction (filter (fun e => ExpenseTiming_eqb e.(ManualExpense.timing) t) l)
    as [|e l' IH]; intros acc; [reflexivity|].
  cbn [fold_left map]. apply IH.
Qed.

(** C10, as the code has it. For every property whose variant tag
    names a detail payload that is absent, the returned
    grossMonthlyIncome and totalMonthlyExpenses are 0, while the other
    fields are computed from the shared details and the manual expenses
    as for any property: monthlyMortgagePayment is the annuity formula
    on the active balance (0 when the balance or the monthly rate is not
    greater than 0), initialCashInvested is the down payment (or price
    less loan) plus closing costs, plus the immediate expenses when
    manual CapEx is present, and the CapEx fields are the sums of the
    costs by timing, each rounded to cents; the returned
    netMonthlyCashFlow is the negation of the mortgage payment, less
    year-1 CapEx / 12 when manual CapEx is present, rounded to cents
    (without manual CapEx it is the negation of the returned payment,
    unless the payment lies exactly halfway between two cents).  So the
    record is not all zeros as soon as the returned payment, cash
    invested or total CapEx is not 0; with all of them 0 it can be. *)
Theorem C10_missing_payload (property : Property.t) :
  payload_missing property ->
  let s := property.(shared) in
  let principal :=
    if s.(loanRemaining) >? 0 then s.(loanRemaining) else s.(loanAmount) in
  let r := s.(interestRate) / 100 / 12 in
  let payment :=
    if (principal >? 0) && (r >? 0)
    then annuity_payment principal r (s.(loanTermYears) * 12)
    else 0 in
  let cash :=
    (if s.(downpayment) >? 0 then s.(downpayment)
     else s.(purchasePrice) - s.(loanAmount)) + s.(closingCosts) in
  let expenses :=
    match property.(manualExpenses) with Some l => l | None => [] end in
  let costs_of (t : ExpenseTiming) :=
    fold_left num_add
      (map ManualExpense.estimatedCost
         (filter (fun e => ExpenseTiming_eqb e.(ManualExpense.timing) t) expenses)) 0 in
  let immediate := costs_of IMMEDIATE in
  let year1 := costs_of YEAR_1 in
  let m := calculateMetrics property in
  m.(FinancialMetrics.grossMonthlyIncome) = 0 /\
  m.(FinancialMetrics.totalMonthlyExpenses) = 0 /\
  m.(FinancialMetrics.monthlyMortgagePayment) = round2 payment /\
  m.(FinancialMetrics.initialCashInvested)
    = round2 (if immediate + year1 >? 0 then cash + immediate else cash) /\
  m.(FinancialMetrics.totalManualCapEx) = round2 (immediate + year1) /\
  m.(FinancialMetrics.immediateCapEx) = round2 immediate /\
  m.(FinancialMetrics.year1CapEx) = round2 year1 /\
  m.(FinancialMetrics.adjustedInitialCashInvested) = round2 (cash + immediate) /\
  m.(FinancialMetrics.netMonthlyCashFlow)
    = round2 (if immediate + year1 >? 0
              then num_neg payment - year1 / 12
              else num_neg payment) /\
  (forall a : Q,
      (immediate + year1 >? 0) = false -> payment = Fin a -> ~ cent_tie a ->
      m.(FinancialMetrics.netMonthlyCashFlow)
      = num_neg m.(FinancialMetrics.monthlyMortgagePayment)) /\
  (m.(FinancialMetrics.monthlyMortgagePayment) <> 0 \/
   m.(FinancialMetrics.initialCashInvested) <> 0 \/
   m.(FinancialMetrics.totalManualCapEx) <> 0 ->
   m <> zeroMetrics).
Proof.
  intros Hm. cbn zeta.
  pose proof (incomeAndExpenses_missing property Hm) as Hie.
  assert (Hg : grossMonthlyIncome property = 0)
    by (unfold grossMonthlyIncome; now rewrite Hie).
  assert (Ht : totalMonthlyExpenses property = 0)
    by (unfold totalMonthlyExpenses; now rewrite Hie).
  assert (Hpay : monthlyMortgagePayment property.(shared)
                 = if ((if property.(shared).(loanRemaining) >? 0
                        then property.(shared).(loanRemaining)
                        else property.(shared).(loanAmount)) >? 0)
                      && (property.(shared).(interestRate) / 100 / 12 >? 0)
                   then annuity_payment
                          (if property.(shared).(loanRemaining) >? 0
                           then property.(shared).(loanRemaining)
                           else property.(shared).(loanAmount))
                          (property.(shared).(interestRate) / 100 / 12)
                          (property.(shared).(loanTermYears) * 12)
                   else 0).
  { unfold monthlyMortgagePayment, annuity_payment.
    change (if property.(shared).(loanRemaining) >? 0
            then property.(shared).(loanRemaining)
            else property.(shared).(loanAmount))
      with (activeLoanBalance property.(shared)).
    change (property.(shared).(interestRate) / 100 / 12)
      with (monthlyRate property.(shared)).
    change (property.(shared).(loanTermYears) * 12)
      with (numPayments property.(shared)).
    destruct (activeLoanBalance (shared property) >? 0) eqn:Eb; [|reflexivity].
    destruct (monthlyRate (shared property) >? 0) eqn:Er; [|reflexivity].
    cbn [andb]. now rewrite num_mul_assoc_gt. }
  assert (Hcash : initialCashInvested property
                  = (if property.(shared).(downpayment) >? 0
                     then property.(shared).(downpayment)
                     else property.(shared).(purchasePrice)
                          - property.(shared).(loanAmount))
                    + property.(shared).(closingCosts)) by reflexivity.
  assert (Hi : immediateCapEx property
               = fold_left num_add
                   (map ManualExpense.estimatedCost
                      (filter (fun e => ExpenseTiming_eqb e.(ManualExpense.timing) IMMEDIATE)
                         match property.(manualExpenses) with
                         | Some l => l
                         | None => []
                         end)) 0)
    by apply capExOf_costs.
  assert (Hy : year1CapEx property
               = fold_left num_add
                   (map ManualExpense.estimatedCost
                      (filter (fun e => ExpenseTiming_eqb e.(ManualExpense.timing) YEAR_1)
                         match property.(manualExpenses) with
                         | Some l => l
                         | None => []
                         end)) 0)
    by apply capExOf_costs.
  assert (Hflow : finalNetMonthlyCashFlow property =
                  if immediateCapEx property + year1CapEx property >? 0
                  then num_neg (monthlyMortgagePayment property.(shared))
                       - year1CapEx property / 12
                  else num_neg (monthlyMortgagePayment property.(shared))).
  { unfold finalNetMonthlyCashFlow, adjustedNetMonthlyCashFlow,
      netMonthlyCashFlow, netMonthlyIncome, hasManualCapEx, totalManualCapEx.
    rewrite Hg, Ht, num_sub_0_l. reflexivity. }
  cbn [calculateMetrics FinancialMetrics.grossMonthlyIncome
         FinancialMetrics.totalMonthlyExpenses FinancialMetrics.netMonthlyCashFlow
         FinancialMetrics.monthlyMortgagePayment FinancialMetrics.initialCashInvested
         FinancialMetrics.totalManualCapEx FinancialMetrics.immediateCapEx
         FinancialMetrics.year1CapEx FinancialMetrics.adjustedInitialCashInvested].
  change (Math_round (?x * 100) / 100) with (round2 x).
  rewrite Hflow.
  unfold finalInitialCashInvested, hasManualCapEx, adjustedInitialCashInvested,
    totalManualCapEx.
  rewrite Hg, Ht, Hcash. rewrite <- Hpay, <- Hi, <- Hy.
  split; [apply round2_0|]. split; [apply round2_0|].
  do 7 (split; [reflexivity|]).
  split.
  - intros a Hno Ha Htie. rewrite Hno, Ha. now apply round2_neg.
  - intros H E.
    assert (E1 : round2 (monthlyMortgagePayment property.(shared)) = 0)
      by (apply (f_equal FinancialMetrics.monthlyMortgagePayment) in E; exact E).
    assert (E2 : round2 (if immediateCapEx property + year1CapEx property >? 0
                         then initialCashInvested property + immediateCapEx property
                         else initialCashInvested property) = 0)
      by (apply (f_equal FinancialMetrics.initialCashInvested) in E;
          rewrite Hcash; exact E).
    assert (E3 : round2 (immediateCapEx property + year1CapEx property) = 0)
      by (apply (f_equal FinancialMetrics.totalManualCapEx) in E; exact E).
    rewrite <- Hcash in H. tauto.
Qed.


(** ** Income and expenses *)

Lemma incomeAndExpenses_LTR (property : Property.t) (l : LTRDetails.t) :
  property.(type) = LTR -> property.(ltr) = Some l ->
  incomeAndExpenses property = (ltrGrossMonthlyIncome l, ltrTotalMonthlyExpenses l).
Proof. unfold incomeAndExpenses. now intros -> ->. Qed.

Lemma incomeAndExpenses_STR (property : Property.t) (s : STRDetails.t) :
  property.(type) = STR -> property.(str) = Some s ->
  incomeAndExpenses property = (strGrossMonthlyIncome s, strTotalMonthlyExpenses s).
Proof. unfold incomeAndExpenses. intros -> ->. now destruct (ltr property). Qed.

(** The loan of the worked example: 200,000 at 6% over 30 years. *)
Lemma worked_example_payment (s : SharedDetails.t) :
  activeLoanBalance s = 200000 -> s.(interestRate) = 6 -> s.(loanTermYears) = 30 ->
  round2 (monthlyMortgagePayment s) = Fin 1199.1 /\
  round2 (3000 - 650 - monthlyMortgagePayment s) = Fin 1150.9.
Proof.
  intros Hb Hr Ht. unfold monthlyMortgagePayment, monthlyRate, numPayments.
  rewrite Hb, Hr, Ht. vm_compute. split; reflexivity.
Qed.

(** C3. For every LTR property with its payload present, the returned
    gross monthly income is rent per unit * unit count and the total
    monthly expenses are the PM-fee percent of the gross income +
    annual tax / 12 + annual insurance / 12 + the monthly repair
    reserve; for every STR property with its payload present, the
    gross monthly income is (daysInMonth * occupancyRate / 100) *
    nightly rate and the expenses are the co-host-fee percent of the
    gross income + cleaning fee per stay * average stays per month +
    annual tax / 12 + annual insurance / 12 + monthly utilities; each
    rounded to cents.  For the worked LTR example (rent 1,500, 2 units,
    10% PM fee, tax 2,400 a year, insurance 1,200 a year, reserve 50 a
    month, a loan of 200,000 at 6% for 30 years, no manual expenses)
    the record has gross monthly income 3,000, expenses 650, mortgage
    payment 1,199.10 and net monthly cash flow 1,150.90. *)
Theorem C3_income_and_expenses (property : Property.t) :
  let m := calculateMetrics property in
  (forall l : LTRDetails.t,
      property.(type) = LTR -> property.(ltr) = Some l ->
      let gross := l.(LTRDetails.grossRentPerMonth) * l.(LTRDetails.numberOfUnits) in
      m.(FinancialMetrics.grossMonthlyIncome) = round2 gross /\
      m.(FinancialMetrics.totalMonthlyExpenses) =
        round2 (gross * (l.(LTRDetails.pmFeePercent) / 100)
                + l.(LTRDetails.annualPropertyTax) / 12
                + l.(LTRDetails.annualInsurance) / 12
                + l.(LTRDetails.monthlyRepairReserve))) /\
  (forall s : STRDetails.t,
      property.(type) = STR -> property.(str) = Some s ->
      let gross :=
        (s.(STRDetails.daysInMonth) * (s.(STRDetails.occupancyRate) / 100))
        * s.(STRDetails.dailyRate) in
      m.(FinancialMetrics.grossMonthlyIncome) = round2 gross /\
      m.(FinancialMetrics.totalMonthlyExpenses) =
        round2 (gross * (s.(STRDetails.coHostFeePercent) / 100)
                + s.(STRDetails.cleaningFeePerStay) * s.(STRDetails.avgStaysPerMonth)
                + s.(STRDetails.annualPropertyTax) / 12
                + s.(STRDetails.annualInsurance) / 12
                + s.(STRDetails.monthlyUtilities))) /\
  (forall l : LTRDetails.t,
      property.(type) = LTR -> property.(ltr) = Some l ->
      l.(LTRDetails.grossRentPerMonth) = 1500 ->
      l.(LTRDetails.numberOfUnits) = 2 ->
      l.(LTRDetails.pmFeePercent) = 10 ->
      l.(LTRDetails.annualPropertyTax) = 2400 ->
      l.(LTRDetails.annualInsurance) = 1200 ->
      l.(LTRDetails.monthlyRepairReserve) = 50 ->
      activeLoanBalance property.(shared) = 200000 ->
      property.(shared).(interestRate) = 6 ->
      property.(shared).(loanTermYears) = 30 ->
      manualExpensesOf property = [] ->
      m.(FinancialMetrics.grossMonthlyIncome) = 3000 /\
      m.(FinancialMetrics.totalMonthlyExpenses) = 650 /\
      m.(FinancialMetrics.monthlyMortgagePayment) = Fin 1199.1 /\
      m.(FinancialMetrics.netMonthlyCashFlow) = Fin 1150.9).
Proof.
  cbn zeta.
  cbn [calculateMetrics FinancialMetrics.grossMonthlyIncome
         FinancialMetrics.totalMonthlyExpenses FinancialMetrics.netMonthlyCashFlow
         FinancialMetrics.monthlyMortgagePayment].
  change (Math_round (?x * 100) / 100) with (round2 x).
  unfold grossMonthlyIncome, totalMonthlyExpenses.
  split; [|split].
  - intros l Ht Hl. rewrite (incomeAndExpenses_LTR property l Ht Hl).
    split; reflexivity.
  - intros s Ht Hs. rewrite (incomeAndExpenses_STR property s Ht Hs).
    split; reflexivity.
  - intros l Ht Hl Hrent Hunits Hpm Htax Hins Hres Hb Hr Hy He.
    assert (Hie : incomeAndExpenses property = (3000, 650)).
    { rewrite (incomeAndExpenses_LTR property l Ht Hl).
      unfold ltrGrossMonthlyIncome, ltrTotalMonthlyExpenses, ltrGrossMonthlyIncome.
      rewrite Hrent, Hunits, Hpm, Htax, Hins, Hres. reflexivity. }
    destruct (worked_example_payment _ Hb Hr Hy) as [Hpay Hflow].
    assert (Hh : hasManualCapEx property = false)
      by (unfold hasManualCapEx, totalManualCapEx, immediateCapEx, year1CapEx;
          now rewrite He).
    unfold finalNetMonthlyCashFlow, netMonthlyCashFlow, netMonthlyIncome,
      grossMonthlyIncome, totalMonthlyExpenses.
    rewrite Hh, Hie. cbn [fst snd].
    repeat split; try reflexivity; assumption.
Qed.


(** ** The portfolio *)

Lemma array_length_nonempty {A : Type} (a : list A) :
  a <> [] -> (array_length a >? 0) = true.
Proof.
  intros Ha. destruct a as [|x a]; [contradiction|].
  unfold array_length. apply num_gt_Fin.
  change 0%Q with (inject_Z 0). rewrite <- Zlt_Qlt. cbn [List.length]. lia.
Qed.

(** C4. For every list of property analyses and every market cap rate,
    the totals of purchase price, cash invested, monthly and annual
    cash flow, and annual NOI (net monthly income * 12) are the plain
    sums over the list; the average cap rate and cash-on-cash return
    are the sums divided by the number of properties (0 for the empty
    list); the estimated market value is calculateValuation of the
    total annual NOI and the market cap rate, that is annual NOI /
    (marketCapRate / 100), and 0 whenever marketCapRate <= 0; the
    unrealized gain is the estimated value minus the total purchase
    price; and calculateValuation(60000, 6) = 1,000,000 while
    calculateValuation(60000, 0) = 0. *)
Theorem C4_portfolio_totals (portfolio : list PropertyAnalysis.t)
    (marketCapRate : number) :
  let t := totals portfolio marketCapRate in
  let over (f : PropertyAnalysis.t -> number) := sum_numbers (map f portfolio) in
  let count := Fin (inject_Z (Z.of_nat (List.length portfolio))) in
  t.(Totals.totalValue) = over (fun p => p.(property).(shared).(purchasePrice)) /\
  t.(Totals.totalCashInvested) =
    over (fun p => p.(metrics).(FinancialMetrics.initialCashInvested)) /\
  t.(Totals.totalMonthlyCashFlow) =
    over (fun p => p.(metrics).(FinancialMetrics.netMonthlyCashFlow)) /\
  t.(Totals.totalAnnualCashFlow) =
    over (fun p => p.(metrics).(FinancialMetrics.annualNetCashFlow)) /\
  t.(Totals.totalAnnualNOI) =
    over (fun p => p.(metrics).(FinancialMetrics.netMonthlyIncome) * 12) /\
  (portfolio <> [] ->
     t.(Totals.avgCapRate) =
       over (fun p => p.(metrics).(FinancialMetrics.capRate)) / count /\
     t.(Totals.avgCoC) =
       over (fun p => p.(metrics).(FinancialMetrics.cashOnCashReturn)) / count) /\
  (portfolio = [] -> t.(Totals.avgCapRate) = 0 /\ t.(Totals.avgCoC) = 0) /\
  t.(Totals.portfolioValuation) =
    calculateValuation t.(Totals.totalAnnualNOI) marketCapRate /\
  ((marketCapRate <=? 0) = true -> t.(Totals.portfolioValuation) = 0) /\
  ((marketCapRate <=? 0) = false ->
     t.(Totals.portfolioValuation) =
       t.(Totals.totalAnnualNOI) / (marketCapRate / 100)) /\
  t.(Totals.equityGain) = t.(Totals.portfolioValuation) - t.(Totals.totalValue) /\
  calculateValuation 60000 6 = 1000000 /\
  calculateValuation 60000 0 = 0.
Proof.
  cbn zeta. unfold totals.
  cbn [Totals.totalValue Totals.totalCashInvested Totals.totalMonthlyCashFlow
         Totals.totalAnnualCashFlow Totals.totalAnnualNOI Totals.avgCapRate
         Totals.avgCoC Totals.portfolioValuation Totals.equityGain].
  rewrite !reduce_sum_plain.
  repeat match goal with |- _ /\ _ => split end; try reflexivity.
  - intros Hne. rewrite (array_length_nonempty portfolio Hne). split; reflexivity.
  - intros ->. split; reflexivity.
  - unfold calculateValuation. now intros ->.
  - unfold calculateValuation. now intros ->.
Qed.

(** ** What the record keeps of the raw values *)

(** C6, as the code has it. For every property the adjusted fields
    hold the CapEx-adjusted initial cash invested, cash-on-cash return
    and cap rate, rounded to cents, whichever variant the selection
    picks; when totalManualCapEx is not greater than 0 the five primary
    fields hold the raw values; when it is greater than 0 the primary
    fields of initial cash invested, cash-on-cash return and cap rate
    repeat the adjusted fields and the primary cash flows are the
    adjusted ones.  The record has no field of its own for a raw
    value, so that with manual CapEx a raw value is in the record only
    where the adjustment happens to leave it as it is. *)
Theorem C6_adjusted_always_raw_when_unselected (property : Property.t) :
  let m := calculateMetrics property in
  (m.(FinancialMetrics.adjustedInitialCashInvested)
     = round2 (adjustedInitialCashInvested property) /\
   m.(FinancialMetrics.adjustedCashOnCashReturn)
     = round2 (adjustedCashOnCashReturn property) /\
   m.(FinancialMetrics.adjustedCapRate) = round2 (adjustedCapRate property)) /\
  ((totalManualCapEx property >? 0) = false ->
     m.(FinancialMetrics.initialCashInvested) = round2 (initialCashInvested property) /\
     m.(FinancialMetrics.cashOnCashReturn) = round2 (cashOnCashReturn property) /\
     m.(FinancialMetrics.capRate) = round2 (capRate property) /\
     m.(FinancialMetrics.netMonthlyCashFlow) = round2 (netMonthlyCashFlow property) /\
     m.(FinancialMetrics.annualNetCashFlow) = round2 (annualNetCashFlow property)) /\
  ((totalManualCapEx property >? 0) = true ->
     m.(FinancialMetrics.initialCashInvested)
       = m.(FinancialMetrics.adjustedInitialCashInvested) /\
     m.(FinancialMetrics.cashOnCashReturn)
       = m.(FinancialMetrics.adjustedCashOnCashReturn) /\
     m.(FinancialMetrics.capRate) = m.(FinancialMetrics.adjustedCapRate) /\
     m.(FinancialMetrics.netMonthlyCashFlow)
       = round2 (adjustedNetMonthlyCashFlow property) /\
     m.(FinancialMetrics.annualNetCashFlow)
       = round2 (adjustedAnnualNetCashFlow property)).
Proof.
  cbn zeta.
  cbn [calculateMetrics FinancialMetrics.netMonthlyCashFlow
         FinancialMetrics.initialCashInvested FinancialMetrics.cashOnCashReturn
         FinancialMetrics.capRate FinancialMetrics.annualNetCashFlow
         FinancialMetrics.adjustedInitialCashInvested
         FinancialMetrics.adjustedCashOnCashReturn FinancialMetrics.adjustedCapRate].
  unfold finalNetMonthlyCashFlow, finalInitialCashInvested, finalCashOnCashReturn,
    finalCapRate, finalAnnualNetCashFlow.
  split; [repeat split|].
  split; intros H; unfold hasManualCapEx; rewrite H; repeat split.
Qed.


(** ** The guards of the divisions *)

(** The four ratios and the valuation are 0 where their divisor is not
    positive. *)
Lemma ratio_guards (property : Property.t) :
  ((property.(shared).(purchasePrice) >? 0) = false -> capRate property = 0) /\
  ((initialCashInvested property >? 0) = false -> cashOnCashReturn property = 0) /\
  ((adjustedInitialCashInvested property >? 0) = false ->
     adjustedCashOnCashReturn property = 0) /\
  ((totalPropertyCost property >? 0) = false -> adjustedCapRate property = 0) /\
  (num_eqb property.(shared).(purchasePrice) 0 = true ->
   num_eqb (immediateCapEx property) 0 = true ->
   (calculateMetrics property).(FinancialMetrics.capRate) = 0 /\
   (calculateMetrics property).(FinancialMetrics.adjustedCapRate) = 0) /\
  (forall noi rate, (rate <=? 0) = true -> calculateValuation noi rate = 0).
Proof.
  unfold capRate, cashOnCashReturn, adjustedCashOnCashReturn, adjustedCapRate,
    calculateValuation.
  do 4 (split; [now intros ->|]).
  split; [|now intros noi rate ->].
  intros Hp Hi.
  cbn [calculateMetrics FinancialMetrics.capRate FinancialMetrics.adjustedCapRate].
  change (Math_round (?x * 100) / 100) with (round2 x).
  unfold finalCapRate, adjustedCapRate, totalPropertyCost, capRate.
  destruct (purchasePrice (shared property)) as [a| | |];
    destruct (immediateCapEx property) as [b| | |];
    cbn [num_eqb] in Hp, Hi; try discriminate.
  apply Qeq_bool_eq in Hp, Hi.
  replace (Fin a >? 0) with false by (symmetry; apply num_gt_Fin_false; lra).
  replace (Fin a + Fin b >? 0) with false
    by (symmetry; apply num_gt_Fin_false; rewrite Qred_correct; lra).
  now destruct (hasManualCapEx property).
Qed.

(** The division of the annuity formula has no guard for its own
    divisor: with a positive balance and rate and a loan term of 0 the
    power is 1, the divisor 0 and the returned payment [Infinity]. *)
Lemma zero_term_payment_infinite (property : Property.t) (P R : Q) :
  activeLoanBalance property.(shared) = Fin P -> (0 < P)%Q ->
  property.(shared).(interestRate) = Fin R -> (0 < R)%Q ->
  num_eqb property.(shared).(loanTermYears) 0 = true ->
  Math_pow (1 + monthlyRate property.(shared)) (numPayments property.(shared)) - 1 = 0 /\
  (calculateMetrics property).(FinancialMetrics.monthlyMortgagePayment) = PosInf.
Proof.
  intros HP HP0 HR HR0 Ht.
  assert (Hn : numPayments property.(shared) = 0).
  { unfold numPayments.
    destruct (loanTermYears (shared property)) as [t| | |];
      cbn [num_eqb] in Ht; try discriminate.
    apply Qeq_bool_eq in Ht. cbn [num_mul].
    change 0 with (Fin (Qred 0)). apply Fin_Qred_eq. rewrite Ht. reflexivity. }
  split.
  - rewrite Hn. destruct (monthlyRate_Fin _ R HR) as (r & -> & _). reflexivity.
  - cbn [calculateMetrics FinancialMetrics.monthlyMortgagePayment].
    now rewrite (monthlyMortgagePayment_no_term _ P R).
Qed.


(** ** Further properties of the engine *)

(** *** The payment pays the loan off *)

Lemma balance_after_closed (P r m : Q) (k : nat) :
  (balance_after P r m k ==
   P * (1 + r) ^ Z.of_nat k - m * geometric_sum (1 + r) k)%Q.
Proof.
  induction k as [|k IH].
  - cbn [balance_after geometric_sum Z.of_nat Qpower]. ring.
  - cbn [balance_after geometric_sum]. rewrite IH, Qpower_succ.
    pose proof (geometric_sum_closed (1 + r) k) as Hc.
    set (q := (1 + r)%Q) in *. set (a := (q ^ Z.of_nat k)%Q) in *.
    set (g := geometric_sum q k) in *.
    assert (E : (q * g == a - 1 + g)%Q) by (rewrite Hc; ring).
    setoid_replace ((P * a - m * g) * q - m)%Q
      with (P * (q * a) - m * (q * g) - m)%Q by ring.
    rewrite E. ring.
Qed.

Lemma geometric_sum_lt (q : Q) (n : nat) :
  (1 < q)%Q -> (0 < n)%nat ->
  (geometric_sum q n < inject_Z (Z.of_nat n) * q ^ Z.of_nat n)%Q.
Proof.
  intros Hq Hn. induction n as [|n IH]; [lia|].
  cbn [geometric_sum]. rewrite Qpower_succ, Nat2Z.inj_succ, <- Z.add_1_r, inject_Z_plus.
  change (inject_Z 1) with 1%Q.
  assert (Hp : (0 < q ^ Z.of_nat n)%Q) by (apply Qpower_0_lt; lra).
  set (a := (q ^ Z.of_nat n)%Q) in *. set (g := geometric_sum q n) in *.
  set (z := inject_Z (Z.of_nat n)) in *.
  assert (Hz : (0 <= z)%Q)
    by (subst z; change 0%Q with (inject_Z 0); rewrite <- Zle_Qle; lia).
  assert (Hqa : (a < q * a)%Q) by nra.
  assert (Hza : (z * a <= z * (q * a))%Q) by nra.
  destruct n as [|n].
  - subst g z. cbn [geometric_sum Z.of_nat] in *. change (inject_Z 0) with 0%Q. lra.
  - assert (Hg : (g < z * a)%Q) by (apply IH; lia). lra.
Qed.


(** The payment before rounding pays the loan off exactly: with a
    positive balance and rate and a whole positive number [n] of
    payments, the balance that bears the monthly interest and is
    reduced by the payment each month is 0 after the [n]-th payment. *)
Theorem payment_amortizes_loan (s : SharedDetails.t) (P R : Q) (n : nat) :
  activeLoanBalance s = Fin P -> (0 < P)%Q ->
  s.(interestRate) = Fin R -> (0 < R)%Q ->
  numPayments s = Fin (inject_Z (Z.of_nat n)) -> (0 < n)%nat ->
  exists m : Q,
    monthlyMortgagePayment s = Fin m /\
    (balance_after P (R / 100 / 12) m n == 0)%Q.
Proof.
  intros HP HP0 HR HR0 Hn Hn0.
  destruct (monthlyMortgagePayment_annuity s P R n HP HP0 HR HR0 Hn Hn0)
    as (m & Hm & Em).
  exists m. split; [exact Hm|].
  rewrite balance_after_closed, Em.
  assert (Hq : (0 < 1 + R / 100 / 12)%Q) by (rewrite monthly_of_annual; lra).
  pose proof (geometric_sum_pos _ n Hq Hn0) as Hg.
  field. intros E. rewrite E in Hg. lra.
Qed.

(** Under the same conditions the payment before rounding is positive
    and the [n] payments together exceed the balance: the lender is
    paid interest. *)
Theorem payments_exceed_principal (s : SharedDetails.t) (P R : Q) (n : nat) :
  activeLoanBalance s = Fin P -> (0 < P)%Q ->
  s.(interestRate) = Fin R -> (0 < R)%Q ->
  numPayments s = Fin (inject_Z (Z.of_nat n)) -> (0 < n)%nat ->
  exists m : Q,
    monthlyMortgagePayment s = Fin m /\
    (0 < m)%Q /\ (P < inject_Z (Z.of_nat n) * m)%Q.
Proof.
  intros HP HP0 HR HR0 Hn Hn0.
  destruct (monthlyMortgagePayment_annuity s P R n HP HP0 HR HR0 Hn Hn0)
    as (m & Hm & Em).
  exists m. split; [exact Hm|].
  pose proof (annuity_value_pos P R n HP0 HR0 Hn0) as Hpos.
  rewrite <- Em in Hpos. split; [exact Hpos|].
  rewrite Em, monthly_of_annual.
  set (q := (1 + R * (1 # 1200))%Q).
  assert (Hq1 : (1 < q)%Q) by (subst q; lra).
  assert (Hq : (0 < q)%Q) by lra.
  pose proof (geometric_sum_pos q n Hq Hn0) as Hg.
  pose proof (geometric_sum_lt q n Hq1 Hn0) as Hlt.
  set (z := inject_Z (Z.of_nat n)) in *.
  setoid_replace (z * (P * q ^ Z.of_nat n / geometric_sum q n))%Q
    with (P * (z * q ^ Z.of_nat n) / geometric_sum q n)%Q
    by (field; intros E; rewrite E in Hg; lra).
  apply Qlt_shift_div_l; [exact Hg|].
  apply Qmult_lt_l; assumption.
Qed.


(** *** Immediate expenses and the cash flows *)

Lemma round2_Qeq (a b : Q) : (a == b)%Q -> round2 (Fin a) = round2 (Fin b).
Proof.
  intros H. rewrite !round2_Fin. apply Fin_Qred_eq. now rewrite H.
Qed.

Lemma round2_sub_0 (x : number) : round2 (x - 0) = round2 x.
Proof.
  destruct x as [a| | |]; try reflexivity.
  cbn [num_sub]. apply round2_Qeq. rewrite Qred_correct. ring.
Qed.

(** Expenses that are all tagged IMMEDIATE leave the returned net
    monthly cash flow and annual net cash flow as they are without any
    manual expense. *)
Theorem immediate_expenses_keep_cash_flows (property : Property.t)
    (expenses : list ManualExpense.t) :
  property.(manualExpenses) = Some expenses ->
  Forall (fun e => e.(ManualExpense.timing) = IMMEDIATE) expenses ->
  let m := calculateMetrics property in
  let m0 := calculateMetrics (with_manualExpenses property []) in
  m.(FinancialMetrics.netMonthlyCashFlow) = m0.(FinancialMetrics.netMonthlyCashFlow) /\
  m.(FinancialMetrics.annualNetCashFlow) = m0.(FinancialMetrics.annualNetCashFlow) /\
  m.(FinancialMetrics.year1CapEx) = 0.
Proof.
  intros He Hall. cbn zeta.
  assert (Hy : year1CapEx property = 0).
  { unfold year1CapEx, manualExpensesOf. rewrite He.
    apply capExOf_other_timing.
    eapply Forall_impl; [|exact Hall]. cbn beta. intros e ->. discriminate. }
  cbn [calculateMetrics FinancialMetrics.netMonthlyCashFlow
         FinancialMetrics.annualNetCashFlow FinancialMetrics.year1CapEx].
  change (Math_round (?x * 100) / 100) with (round2 x).
  unfold finalNetMonthlyCashFlow, finalAnnualNetCashFlow.
  change (hasManualCapEx (with_manualExpenses property [])) with false.
  cbv iota.
  change (netMonthlyCashFlow (with_manualExpenses property []))
    with (netMonthlyCashFlow property).
  change (annualNetCashFlow (with_manualExpenses property []))
    with (annualNetCashFlow property).
  unfold adjustedNetMonthlyCashFlow, adjustedAnnualNetCashFlow. rewrite Hy.
  change (0 / 12) with 0.
  destruct (hasManualCapEx property); repeat split;
    try reflexivity; apply round2_sub_0.
Qed.

(** *** Valuation and cap rate *)

(** A property bought at the valuation of its own annual NOI, taken at
    a positive market cap rate, has that market cap rate as its raw cap
    rate. *)
Theorem capRate_at_valuation (property : Property.t) (noi rate : Q) :
  annualNOI property = Fin noi -> (0 < noi)%Q -> (0 < rate)%Q ->
  property.(shared).(purchasePrice) = calculateValuation (Fin noi) (Fin rate) ->
  capRate property = Fin (Qred rate).
Proof.
  intros Hn Hn0 Hr Hp. unfold capRate. rewrite Hp, Hn.
  unfold calculateValuation. cbn [num_le].
  replace (Qle_bool rate 0) with false
    by (symmetry; apply not_true_iff_false; rewrite Qle_bool_iff; lra).
  rewrite (num_div_Fin rate) by discriminate.
  assert (Hd : ~ (Qred (rate / 100) == 0)%Q).
  { rewrite Qred_correct. intros E.
    assert (rate == 0)%Q by (setoid_replace rate with (rate / 100 * 100)%Q by field;
                             rewrite E; ring).
    lra. }
  rewrite (num_div_Fin noi) by exact Hd.
  assert (Hv : (0 < Qred (noi / Qred (rate / 100)))%Q).
  { rewrite !Qred_correct. apply Qlt_shift_div_l.
    - apply Qlt_shift_div_l; lra.
    - lra. }
  replace (Fin (Qred (noi / Qred (rate / 100))) >? 0) with true
    by (symmetry; now apply num_gt_Fin).
  rewrite num_div_Fin by (intros E; rewrite E in Hv; lra).
  cbn [num_mul]. apply Fin_Qred_eq. rewrite !Qred_correct.
  field. split; lra.
Qed.


(** ** Further properties of the portfolio figures *)

Lemma Qred_inject_Z (z : Z) : Qred (inject_Z z) = inject_Z z.
Proof.
  unfold Qred, inject_Z.
  pose proof (Z.ggcd_gcd z 1) as Hg.
  pose proof (Z.ggcd_correct_divisors z 1) as Hd.
  destruct (Z.ggcd z 1) as (g, (a, b)). cbn [fst snd] in *.
  rewrite Z.gcd_1_r in Hg. subst g. destruct Hd as [Ha Hb].
  rewrite Z.mul_1_l in Ha, Hb. now subst a b.
Qed.

Lemma array_length_add {A : Type} (a b : list A) :
  array_length a + array_length b
  = Fin (inject_Z (Z.of_nat (List.length a + List.length b))).
Proof.
  unfold array_length. cbn [num_add].
  rewrite <- (Qred_inject_Z (Z.of_nat (List.length a + List.length b))).
  apply Fin_Qred_eq. now rewrite Nat2Z.inj_add, inject_Z_plus.
Qed.

Lemma count_by_type (l : list PropertyAnalysis.t) :
  (List.length (filter (fun p => PropertyType_eqb p.(property).(type) LTR) l)
   + List.length (filter (fun p => PropertyType_eqb p.(property).(type) STR) l)
   = List.length l)%nat.
Proof.
  induction l as [|a l IH]; [reflexivity|].
  cbn [filter]. destruct (type (property a)); cbn [PropertyType_eqb List.length]; lia.
Qed.

(** The LTR and STR counts of the dashboard add up to the number of
    properties: every property is counted once. *)
Theorem totals_counts_add_up (portfolio : list PropertyAnalysis.t)
    (marketCapRate : number) :
  let t := totals portfolio marketCapRate in
  t.(Totals.ltrCount) + t.(Totals.strCount) = array_length portfolio.
Proof.
  cbn zeta. unfold totals. cbn [Totals.ltrCount Totals.strCount].
  rewrite array_length_add, count_by_type. reflexivity.
Qed.

Lemma reduce_sum_app {A : Type} (f : A -> number) (l : list A) (x : A) :
  reduce_sum f (l ++ [x]) = reduce_sum f l + f x.
Proof. unfold reduce_sum. now rewrite fold_left_app. Qed.

(** Adding a property to the portfolio ([handleAddProperty]) adds its
    purchase price and the figures [calculateMetrics] returns for it to
    the dollar totals of the dashboard, and one to its type's count. *)
Theorem totals_after_handleAddProperty (s : HomeState.t) (p : Property.t)
    (marketCapRate : number) :
  let before := totals s.(HomeState.properties) marketCapRate in
  let after := totals (handleAddProperty s p).(HomeState.properties) marketCapRate in
  let m := calculateMetrics p in
  after.(Totals.totalValue) = before.(Totals.totalValue) + p.(shared).(purchasePrice) /\
  after.(Totals.totalCashInvested)
    = before.(Totals.totalCashInvested) + m.(FinancialMetrics.initialCashInvested) /\
  after.(Totals.totalMonthlyCashFlow)
    = before.(Totals.totalMonthlyCashFlow) + m.(FinancialMetrics.netMonthlyCashFlow) /\
  after.(Totals.totalAnnualCashFlow)
    = before.(Totals.totalAnnualCashFlow) + m.(FinancialMetrics.annualNetCashFlow) /\
  after.(Totals.totalAnnualNOI)
    = before.(Totals.totalAnnualNOI) + m.(FinancialMetrics.netMonthlyIncome) * 12 /\
  after.(Totals.ltrCount) + after.(Totals.strCount)
    = before.(Totals.ltrCount) + before.(Totals.strCount) + 1.
Proof.
  cbn zeta. unfold totals, handleAddProperty.
  cbn [HomeState.properties Totals.totalValue Totals.totalCashInvested
         Totals.totalMonthlyCashFlow Totals.totalAnnualCashFlow Totals.totalAnnualNOI
         Totals.ltrCount Totals.strCount].
  rewrite !reduce_sum_app. cbn [property metrics].
  do 5 (split; [reflexivity|]).
  rewrite !array_length_add, !count_by_type, length_app. cbn [List.length num_add].
  rewrite <- (Qred_inject_Z (Z.of_nat (List.length (HomeState.properties s) + 1))).
  apply Fin_Qred_eq. rewrite Nat2Z.inj_add, inject_Z_plus. reflexivity.
Qed.



(** *** The report and the dashboard *)

Lemma num_mul_12_add (x y : number) : (x + y) * 12 = x * 12 + y * 12.
Proof.
  destruct x as [a| | |], y as [b| | |]; try reflexivity.
  cbn [num_add num_mul]. apply Fin_Qred_eq. rewrite !Qred_correct. ring.
Qed.

Lemma sum_numbers_mul_12 (l : list number) :
  sum_numbers (map (fun x => x * 12) l) = sum_numbers l * 12.
Proof.
  induction l as [|x l IH]; [reflexivity|].
  cbn [map sum_numbers]. now rewrite IH, num_mul_12_add.
Qed.

Lemma num_le_0_gt (x : number) : isNaN x = false -> (x <=? 0) = negb (x >? 0).
Proof.
  destruct x as [a| | |]; try discriminate; try reflexivity.
  intros _. cbn [num_le num_gt]. unfold Qlt_bool. now rewrite negb_involutive.
Qed.

(** The figures of the dashboard report are those of the dashboard: for
    every list of properties and every market cap rate that is a number,
    [exportDashboardPDF] computes the same totals, averages, counts,
    annual NOI, estimated value and unrealized gain as the [totals] of
    the dashboard, although it multiplies the summed net income by 12
    where the dashboard sums the products and tests the cap rate with
    [> 0] where [calculateValuation] tests [<= 0]. *)
Theorem report_agrees_with_dashboard (portfolio : list PropertyAnalysis.t)
    (marketCapRate : number) :
  isNaN marketCapRate = false ->
  let r := reportMetrics portfolio marketCapRate in
  let t := totals portfolio marketCapRate in
  r.(ReportMetrics.totalPurchasePrice) = t.(Totals.totalValue) /\
  r.(ReportMetrics.totalCashInvested) = t.(Totals.totalCashInvested) /\
  r.(ReportMetrics.netMonthlyCashFlow) = t.(Totals.totalMonthlyCashFlow) /\
  r.(ReportMetrics.annualCashFlow) = t.(Totals.totalAnnualCashFlow) /\
  r.(ReportMetrics.annualNOI) = t.(Totals.totalAnnualNOI) /\
  r.(ReportMetrics.avgCoC) = t.(Totals.avgCoC) /\
  r.(ReportMetrics.avgCapRate) = t.(Totals.avgCapRate) /\
  r.(ReportMetrics.estimatedValue) = t.(Totals.portfolioValuation) /\
  r.(ReportMetrics.unrealizedGain) = t.(Totals.equityGain) /\
  r.(ReportMetrics.ltrCount) = t.(Totals.ltrCount) /\
  r.(ReportMetrics.strCount) = t.(Totals.strCount).
Proof.
  intros Hr. cbn zeta.
  assert (Hnoi : reduce_sum (fun p => p.(metrics).(FinancialMetrics.netMonthlyIncome))
                   portfolio * 12
                 = reduce_sum
                     (fun p => p.(metrics).(FinancialMetrics.netMonthlyIncome) * 12)
                     portfolio).
  { rewrite !reduce_sum_plain, <- sum_numbers_mul_12, map_map. reflexivity. }
  unfold reportMetrics, totals, calculateValuation.
  cbn [ReportMetrics.totalPurchasePrice ReportMetrics.totalCashInvested
         ReportMetrics.netMonthlyCashFlow ReportMetrics.annualCashFlow
         ReportMetrics.annualNOI ReportMetrics.avgCoC ReportMetrics.avgCapRate
         ReportMetrics.estimatedValue ReportMetrics.unrealizedGain
         ReportMetrics.ltrCount ReportMetrics.strCount
         Totals.totalValue Totals.totalCashInvested Totals.totalMonthlyCashFlow
         Totals.totalAnnualCashFlow Totals.totalAnnualNOI Totals.avgCoC
         Totals.avgCapRate Totals.portfolioValuation Totals.equityGain
         Totals.ltrCount Totals.strCount].
  rewrite Hnoi, (num_le_0_gt marketCapRate Hr).
  destruct (marketCapRate >? 0); cbn [negb]; repeat split.
Qed.

(** *** The investors' shares *)

(** In every column of the distribution table the amounts of the four
    investors add up to the whole, the amount of a single investor with
    a stake of 1. *)
Theorem investor_shares_add_up (m : ReportMetrics.t) (column : nat) :
  sum_numbers (map (fun inv => nth column (investorRow m inv) 0) investors)
  = nth column (investorRow m ("All"%string, 1)) 0.
Proof.
  assert (G : forall x : number,
             x * Fin 0.25 + (x * Fin 0.25 + (x * Fin 0.25 + (x * Fin 0.25 + 0)))
             = x * 1).
  { intros [a| | |]; try reflexivity.
    cbn [num_mul num_add]. apply Fin_Qred_eq. rewrite !Qred_correct. ring. }
  unfold investors, investorRow. cbn [map sum_numbers snd].
  do 5 (destruct column as [|column]; [cbn [nth]; apply G|]).
  destruct column; reflexivity.
Qed.


(** ** The home page *)

Lemma removelast_app_one {A : Type} (l : list A) (x : A) :
  removelast (l ++ [x]) = l.
Proof. now rewrite removelast_app, app_nil_r. Qed.

Lemma last_app_one {A : Type} (l : list A) (x d : A) : last (l ++ [x]) d = x.
Proof. now rewrite last_last. Qed.

(** Undoing right after adding a property gives back the property with
    the metrics [calculateMetrics] computed for it and leaves the list
    of properties as it was before the addition. *)
Theorem undo_after_add (s : HomeState.t) (p : Property.t) :
  let result := handleUndoLastProperty (handleAddProperty s p) in
  snd result
  = Some {| PropertyAnalysis.property := p;
            PropertyAnalysis.metrics := calculateMetrics p |} /\
  (fst result).(HomeState.properties) = s.(HomeState.properties) /\
  (fst result).(HomeState.savedPortfolios) = s.(HomeState.savedPortfolios).
Proof.
  cbn zeta. unfold handleUndoLastProperty, handleAddProperty.
  cbn [HomeState.properties].
  set (a := {| property := p; metrics := calculateMetrics p |}).
  destruct (HomeState.properties s ++ [a]) as [|first others] eqn:E.
  - now destruct (HomeState.properties s).
  - cbn [fst snd HomeState.properties HomeState.savedPortfolios].
    split; [|split; [|reflexivity]].
    + f_equal.
      destruct (HomeState.properties s) as [|x l]; cbn [app] in E.
      * now injection E as <- <-.
      * injection E as <- <-. apply last_app_one.
    + rewrite <- E. apply removelast_app_one.
Qed.

Lemma analyses_consistent_removelast (l : list PropertyAnalysis.t) :
  analyses_consistent l -> analyses_consistent (removelast l).
Proof.
  unfold analyses_consistent. intros H.
  induction H as [|a l Ha Hl IH]; [constructor|].
  cbn [removelast]. destruct l; [constructor|]. now constructor.
Qed.

Lemma analyses_consistent_filter (f : PropertyAnalysis.t -> bool)
    (l : list PropertyAnalysis.t) :
  analyses_consistent l -> analyses_consistent (filter f l).
Proof.
  unfold analyses_consistent. rewrite !Forall_forall.
  intros H a Ha. apply filter_In in Ha. now apply H.
Qed.

Lemma savePortfolio_invariant (s : HomeState.t) (saveAsNew : bool)
    (uuid now : string) :
  home_invariant s -> home_invariant (fst (savePortfolio s saveAsNew uuid now)).
Proof.
  intros (Hp & Hs & Hl). unfold savePortfolio.
  destruct (string_falsy (trim (HomeState.portfolioName s))); [now repeat split|].
  destruct (List.length (HomeState.properties s) =? 0)%nat; [now repeat split|].
  destruct (negb (nullable_falsy (HomeState.currentLoadedPortfolioId s))
            && negb saveAsNew) eqn:Eu; cbn [negb andb].
  - cbn [fst]. unfold home_invariant.
    cbn [HomeState.properties HomeState.savedPortfolios].
    split; [exact Hp|]. split.
    + apply Forall_map. eapply Forall_impl; [|exact Hs]. cbn beta. intros sp Hsp.
      destruct (HomeState.currentLoadedPortfolioId s) as [current|]; [|exact Hsp].
      now destruct (SavedPortfolio.id sp =? current)%string.
    + now rewrite length_map.
  - destruct (MAX_SAVED_PORTFOLIOS <=? List.length (HomeState.savedPortfolios s))%nat
      eqn:El; [now repeat split|].
    apply Nat.leb_gt in El.
    cbn [fst]. unfold home_invariant.
    cbn [HomeState.properties HomeState.savedPortfolios].
    split; [exact Hp|]. split.
    + apply Forall_app. split; [exact Hs|]. now repeat constructor.
    + rewrite length_app. cbn [List.length]. lia.
Qed.

(** Whatever the user does with the handlers of the home page, starting
    from a state where it holds (such as the first one, with no property
    and nothing saved), every analysis in the list and in the saved
    portfolios carries the metrics of [calculateMetrics] for its
    property, and never more than five portfolios are saved. *)
Theorem home_invariant_kept (init s : HomeState.t) :
  home_invariant init -> home_reachable init s -> home_invariant s.
Proof.
  intros Hinit Hreach.
  induction Hreach as [|s p _ IH|s _ IH|s id _ IH|s saveAsNew uuid now _ IH
                       |s portfolio _ IH Hin|s id _ IH|s _ IH|s s' _ IH E1 E2 E3 E4].
  - exact Hinit.
  - destruct IH as (Hp & Hs & Hl). repeat split; try assumption.
    unfold handleAddProperty. cbn [HomeState.properties].
    apply Forall_app. split; [exact Hp|]. now repeat constructor.
  - destruct IH as (Hp & Hs & Hl). unfold handleUndoLastProperty.
    pose proof (analyses_consistent_removelast _ Hp) as Hp'.
    destruct (HomeState.properties s) as [|first others] eqn:E;
      cbn [fst]; unfold home_invariant;
      cbn [HomeState.properties HomeState.savedPortfolios]; rewrite ?E;
      split; try assumption; now split.
  - destruct IH as (Hp & Hs & Hl). repeat split; try assumption.
    unfold handleRemoveProperty. cbn [HomeState.properties].
    now apply analyses_consistent_filter.
  - now apply savePortfolio_invariant.
  - destruct IH as (Hp & Hs & Hl). repeat split; try assumption.
    cbn [fst loadPortfolio HomeState.properties].
    rewrite Forall_forall in Hs. now apply Hs.
  - destruct IH as (Hp & Hs & Hl). unfold deletePortfolio, home_invariant.
    cbn [fst HomeState.properties HomeState.savedPortfolios].
    split; [exact Hp|]. split.
    + rewrite Forall_forall in *. intros sp Hsp. apply filter_In in Hsp. now apply Hs.
    + etransitivity; [apply filter_length_le | exact Hl].
  - destruct IH as (Hp & Hs & Hl). repeat split; try assumption.
    cbn [fst newPortfolio HomeState.properties]. constructor.
  - destruct IH as (Hp & Hs & Hl). unfold home_invariant. now rewrite E1, E2.
Qed.

(** Saving without "save as new" after the loaded portfolio has been
    deleted stores nothing: when the identifier of the loaded portfolio
    is not among the saved ones, [savePortfolio(false)] leaves the list
    of saved portfolios as it is, though it reports "Portfolio
    updated". *)
Theorem savePortfolio_stale_update (s : HomeState.t) (current uuid now : string) :
  string_falsy (trim s.(HomeState.portfolioName)) = false ->
  s.(HomeState.properties) <> [] ->
  s.(HomeState.currentLoadedPortfolioId) = Some current ->
  string_falsy current = false ->
  Forall (fun sp => sp.(SavedPortfolio.id) <> current) s.(HomeState.savedPortfolios) ->
  let result := savePortfolio s false uuid now in
  (fst result).(HomeState.savedPortfolios) = s.(HomeState.savedPortfolios) /\
  snd result = "Portfolio updated"%string.
Proof.
  intros Hname Hprops Hcur Hne Hall. cbn zeta. unfold savePortfolio.
  rewrite Hname, Hcur. cbn [nullable_falsy]. rewrite Hne.
  destruct (HomeState.properties s) as [|a l]; [contradiction|].
  cbn [List.length Nat.eqb negb andb fst snd HomeState.savedPortfolios].
  split; [|reflexivity].
  induction Hall as [|sp l' Hsp _ IH]; [reflexivity|].
  cbn [map]. rewrite IH. f_equal.
  apply String.eqb_neq in Hsp. now rewrite Hsp.
Qed.


(** ** Manual expenses entered in the form *)

Lemma positive_add (x y : number) :
  (x >? 0) = true -> (y >? 0) = true -> (x + y >? 0) = true.
Proof.
  destruct x as [a| | |], y as [b| | |]; try discriminate; try reflexivity.
  rewrite !num_gt_Fin. intros Ha Hb. cbn [num_add]. apply num_gt_Fin.
  rewrite Qred_correct. lra.
Qed.

Lemma positive_add_0 (x : number) : (x >? 0) = true -> (x + 0 >? 0) = true.
Proof.
  destruct x as [a| | |]; try discriminate; try reflexivity.
  rewrite num_gt_Fin. intros Ha. cbn [num_add]. apply num_gt_Fin.
  rewrite Qred_correct. lra.
Qed.

Lemma positive_sum (l : list number) :
  Forall (fun x => (x >? 0) = true) l -> l <> [] -> (sum_numbers l >? 0) = true.
Proof.
  intros H. induction H as [|x l Hx Hl IH]; [contradiction|].
  intros _. cbn [sum_numbers]. destruct l as [|y l].
  - now apply positive_add_0.
  - apply positive_add; [exact Hx|]. now apply IH.
Qed.

Lemma entered_expenses_positive (expenses : list ManualExpense.t) :
  entered_expenses expenses ->
  Forall (fun e => (e.(ManualExpense.estimatedCost) >? 0) = true) expenses.
Proof.
  intros H.
  induction H as [|expenses expenseName estimatedCost cost timing uuid _ IH
                  |expenses id _ IH].
  - constructor.
  - unfold handleAddExpense.
    destruct (string_falsy (trim expenseName) || string_falsy estimatedCost);
      [exact IH|].
    destruct (isNaN cost || (cost <=? 0)) eqn:E; [exact IH|].
    apply orb_false_iff in E. destruct E as [En El].
    apply Forall_app. split; [exact IH|]. constructor; [|constructor].
    cbn [ManualExpense.estimatedCost].
    destruct cost as [a| | |]; try discriminate; try reflexivity.
    cbn [num_le] in El. apply num_gt_Fin.
    apply not_true_iff_false in El. rewrite Qle_bool_iff in El. lra.
  - unfold handleRemoveExpense. rewrite Forall_forall in *.
    intros e He. apply filter_In in He. now apply IH.
Qed.

(** Every expense entered through the form has a cost greater than 0,
    so for a property that carries such a list the adjusted metrics are
    selected exactly when the list is not empty: one row is enough.  The
    total the form shows is the total the engine adds up. *)
Theorem entered_expenses_select_adjusted (property : Property.t)
    (expenses : list ManualExpense.t) :
  entered_expenses expenses ->
  property.(manualExpenses) = Some expenses ->
  Forall (fun e => (e.(ManualExpense.estimatedCost) >? 0) = true) expenses /\
  (hasManualCapEx property = true <-> expenses <> []) /\
  totalAll expenses = totalManualCapEx property.
Proof.
  intros He Hm. pose proof (entered_expenses_positive _ He) as Hpos.
  split; [exact Hpos|]. split.
  - unfold hasManualCapEx. rewrite totalManualCapEx_all.
    unfold manualExpensesOf. rewrite Hm. split.
    + intros H ->. discriminate H.
    + intros Hne. apply positive_sum.
      * apply Forall_map. exact Hpos.
      * destruct expenses; [contradiction | discriminate].
  - unfold totalAll, totalManualCapEx, immediateCapEx, year1CapEx, manualExpensesOf.
    now rewrite Hm.
Qed.

(** ** The input form *)

Lemma Math_round_Fin_bounds (a : Q) :
  exists z : Z, Math_round (Fin a) = Fin (inject_Z z) /\
                (inject_Z z <= a + (1 # 2))%Q /\ (a + (1 # 2) < inject_Z z + 1)%Q.
Proof.
  exists (Qfloor (a + (1 # 2))). split; [reflexivity|]. split.
  - apply Qfloor_le.
  - pose proof (Qlt_floor (a + (1 # 2))) as H.
    rewrite inject_Z_plus in H. exact H.
Qed.

(** After the form has filled in the fields that depend on a finite
    purchase price greater than 0, down payment and loan add up to the
    purchase price, the down payment is not negative, the loan is
    greater than 0 and is the balance the engine amortizes, and the
    down payment the engine uses is the one of the form, whichever of
    its two branches it takes. *)
Theorem autofill_consistent (prev : Property.t) (price : Q) :
  prev.(shared).(purchasePrice) = Fin price -> (0 < price)%Q ->
  let filled := autofillFromPurchasePrice (Fin price) prev in
  let s := filled.(shared) in
  s.(downpayment) + s.(loanAmount) = Fin (Qred price) /\
  (0 <=? s.(downpayment)) = true /\
  (s.(loanAmount) >? 0) = true /\
  activeLoanBalance s = s.(loanAmount) /\
  downPayment s = s.(downpayment) /\
  initialCashInvested filled = s.(downpayment) + s.(closingCosts).
Proof.
  intros Hp Hpos. cbn zeta. unfold autofillFromPurchasePrice.
  replace (Fin price >? 0) with true by (symmetry; now apply num_gt_Fin).
  cbn [shared downpayment loanAmount loanRemaining closingCosts purchasePrice].
  cbn [num_mul].
  destruct (Math_round_Fin_bounds (Qred (price * 0.20))) as (z & -> & Hlo & Hhi).
  rewrite Qred_correct in Hlo, Hhi.
  assert (Hz0 : (0 <= z)%Z).
  { assert (H : (-1 < z)%Z); [|lia].
    rewrite Zlt_Qlt. change (inject_Z (-1)) with (-1)%Q. lra. }
  assert (Hq0 : (0 <= inject_Z z)%Q)
    by (change 0%Q with (inject_Z 0); now rewrite <- Zle_Qle).
  assert (Hloan : (0 < price - inject_Z z)%Q).
  { destruct (Z.eq_dec z 0) as [->|Hnz].
    - change (inject_Z 0) with 0%Q. lra.
    - assert (H1 : (1 <= z)%Z) by lia. rewrite Zle_Qle in H1.
      change (inject_Z 1) with 1%Q in H1. lra. }
  cbn [num_sub].
  assert (Hgt : (Fin (Qred (price - inject_Z z)) >? 0) = true)
    by (apply num_gt_Fin; now rewrite Qred_correct).
  split; [cbn [num_add]; apply Fin_Qred_eq; rewrite Qred_correct; ring|].
  split; [cbn [num_le]; now apply Qle_bool_iff|].
  split; [exact Hgt|].
  split; [unfold activeLoanBalance; cbn [loanRemaining loanAmount]; now rewrite Hgt|].
  assert (Hdp : downPayment
                  {| id := id (shared prev); name := name (shared prev);
                     marketValue := marketValue (shared prev);
                     purchasePrice := purchasePrice (shared prev);
                     downpayment := Fin (inject_Z z);
                     loanAmount := Fin (Qred (price - inject_Z z));
                     loanRemaining := Fin (Qred (price - inject_Z z));
                     interestRate := interestRate (shared prev);
                     loanTermYears := loanTermYears (shared prev);
                     closingCosts := Math_round (Fin (Qred (price * 0.03))) |}
                = Fin (inject_Z z)).
  { unfold downPayment. cbn [downpayment purchasePrice loanAmount].
    destruct (Fin (inject_Z z) >? 0) eqn:E; [reflexivity|].
    apply num_gt_Fin_false in E.
    assert (Hz : z = 0%Z).
    { assert (H : (z <= 0)%Z) by (rewrite Zle_Qle; exact E). lia. }
    subst z. rewrite Hp. cbn [num_sub].
    change (Fin (inject_Z 0)) with (Fin (Qred 0)). apply Fin_Qred_eq.
    rewrite Qred_correct. change (inject_Z 0) with 0%Q. ring. }
  split; [exact Hdp|].
  unfold initialCashInvested. cbn [shared closingCosts]. now rewrite Hdp.
Qed.


(** ** Strings of the exports and the charts *)

(** The name that [exportSQL] writes between quotes reads back as the
    name: whatever quotes the name holds, SQL reads the literal up to the
    closing quote the export writes, and its text is the name. *)
Theorem sql_name_reads_back (name rest : string) :
  match rest with
  | String c _ => Ascii.eqb c "'"%char = false
  | EmptyString => True
  end ->
  sqlReadLiteral (sqlQuoteName name ++ String "'"%char rest) = Some (name, rest).
Proof.
  intros Hrest. induction name as [|c name IH].
  - cbn [sqlQuoteName append sqlReadLiteral]. rewrite Ascii.eqb_refl.
    destruct rest as [|c' rest']; [reflexivity|]. now rewrite Hrest.
  - cbn [sqlQuoteName]. destruct (Ascii.eqb c "'"%char) eqn:E.
    + apply Ascii.eqb_eq in E. subst c.
      cbn [append sqlReadLiteral]. rewrite !Ascii.eqb_refl.
      cbn [append] in IH. now rewrite IH.
    + cbn [append sqlReadLiteral]. rewrite E.
      cbn [append] in IH. now rewrite IH.
Qed.

Lemma string_length_append (s t : string) :
  String.length (s ++ t) = (String.length s + String.length t)%nat.
Proof. induction s as [|c s IH]; cbn [append String.length]; [reflexivity|]. now rewrite IH. Qed.

Lemma substring_0_length (n : nat) (s : string) :
  String.length (substring 0 n s) = Nat.min n (String.length s).
Proof.
  revert s. induction n as [|n IH]; intros s.
  - now destruct s.
  - destruct s as [|c s]; [reflexivity|].
    cbn [substring String.length Nat.min]. now rewrite IH.
Qed.

Lemma substring_0_append (n : nat) (s t : string) :
  (n <= String.length s)%nat -> substring 0 n (s ++ t) = substring 0 n s.
Proof.
  revert s. induction n as [|n IH]; intros s Hn.
  - now destruct s, t.
  - destruct s as [|c s]; cbn [String.length] in Hn; [lia|].
    cbn [append substring]. rewrite IH by lia. reflexivity.
Qed.

Lemma substring_0_idem (n : nat) (s : string) :
  substring 0 n (substring 0 n s) = substring 0 n s.
Proof.
  revert s. induction n as [|n IH]; intros s.
  - now destruct s.
  - destruct s as [|c s]; [reflexivity|].
    cbn [substring]. now rewrite IH.
Qed.

(** A chart label has at most 15 code units: a name of at most 12 is
    shown as it is, a longer one as its first 12 followed by three
    dots. *)
Theorem chartName_bounded (name : string) :
  (String.length (chartName name) <= 15)%nat /\
  substring 0 12 (chartName name) = substring 0 12 name /\
  ((String.length name <= 12)%nat -> chartName name = name) /\
  ((12 < String.length name)%nat -> String.length (chartName name) = 15%nat).
Proof.
  unfold chartName. destruct (12 <? String.length name)%nat eqn:E.
  - apply Nat.ltb_lt in E.
    assert (Hl : String.length (substring 0 12 name) = 12%nat)
      by (rewrite substring_0_length; lia).
    repeat split.
    + rewrite string_length_append, Hl. cbn [String.length]. lia.
    + rewrite substring_0_append by lia. apply substring_0_idem.
    + lia.
    + intros _. rewrite string_length_append, Hl. reflexivity.
  - apply Nat.ltb_ge in E. repeat split; try reflexivity; lia.
Qed.


(** ** The cumulative cash flow of the report *)

Lemma cumulativeFrom_nth (acc : number) (l : list PropertyAnalysis.t) (k : nat) :
  (k < List.length l)%nat ->
  nth k (cumulativeFrom acc l) 0
  = fold_left (fun sum p => sum + p.(metrics).(FinancialMetrics.netMonthlyCashFlow))
      (firstn (S k) l) acc.
Proof.
  revert acc k. induction l as [|p l IH]; intros acc k Hk; cbn [List.length] in Hk.
  - lia.
  - destruct k as [|k].
    + cbn [cumulativeFrom nth firstn fold_left]. now destruct l.
    + cbn [cumulativeFrom nth]. rewrite IH by lia. reflexivity.
Qed.

Lemma cumulativeFrom_last (acc d : number) (l : list PropertyAnalysis.t) :
  l <> [] ->
  last (cumulativeFrom acc l) d
  = fold_left (fun sum p => sum + p.(metrics).(FinancialMetrics.netMonthlyCashFlow))
      l acc.
Proof.
  revert acc. induction l as [|p l IH]; [contradiction|]. intros acc _.
  cbn [cumulativeFrom fold_left].
  destruct l as [|p' l]; [reflexivity|].
  rewrite <- IH by discriminate. reflexivity.
Qed.

(** The chart of the cumulative cash flow has one point for each
    property, the point of a property being the net monthly cash flow
    of the properties up to it summed in order; the last point is the
    net monthly cash flow of the whole portfolio as the report totals
    it. *)
Theorem cumulativeData_points (properties : list PropertyAnalysis.t)
    (marketCapRate : number) :
  List.length (cumulativeData properties) = List.length properties /\
  (forall k, (k < List.length properties)%nat ->
     nth k (cumulativeData properties) 0
     = reduce_sum (fun p => p.(metrics).(FinancialMetrics.netMonthlyCashFlow))
         (firstn (S k) properties)) /\
  (properties <> [] ->
   last (cumulativeData properties) 0
   = (reportMetrics properties marketCapRate).(ReportMetrics.netMonthlyCashFlow)).
Proof.
  assert (Hlen : forall acc l, List.length (cumulativeFrom acc l) = List.length l).
  { intros acc l. revert acc. induction l as [|p l IH]; intros acc; [reflexivity|].
    cbn [cumulativeFrom List.length]. now rewrite IH. }
  split; [apply Hlen|]. split.
  - intros k Hk. apply cumulativeFrom_nth, Hk.
  - intros Hne. unfold reportMetrics. cbn [ReportMetrics.netMonthlyCashFlow].
    now apply cumulativeFrom_last.
Qed.

End Engine.

(** ** Whole numbers of payments *)

(** With a whole number of payments [Math.pow] is exact and the record
    is the same whatever [Math.pow] does at other exponents. *)
Lemma Math_pow_whole_exponent (f g : Q -> Q -> number) (base : number) (n : Z) :
  Math_pow f base (Fin (inject_Z n)) = Math_pow g base (Fin (inject_Z n)).
Proof. unfold Math_pow. now rewrite integral_inject_Z. Qed.

Lemma monthlyMortgagePayment_whole_payments (f g : Q -> Q -> number)
    (s : SharedDetails.t) (n : Z) :
  numPayments s = Fin (inject_Z n) ->
  monthlyMortgagePayment f s = monthlyMortgagePayment g s.
Proof.
  intros Hn. unfold monthlyMortgagePayment.
  now rewrite Hn, (Math_pow_whole_exponent f g).
Qed.

Lemma calculateMetrics_whole_payments (f g : Q -> Q -> number)
    (property : Property.t) (n : Z) :
  numPayments property.(shared) = Fin (inject_Z n) ->
  calculateMetrics f property = calculateMetrics g property.
Proof.
  intros Hn.
  pose proof (monthlyMortgagePayment_whole_payments f g _ n Hn) as E.
  unfold calculateMetrics, finalNetMonthlyCashFlow, finalInitialCashInvested,
    finalCashOnCashReturn, finalCapRate, finalAnnualNetCashFlow,
    adjustedNetMonthlyCashFlow, adjustedCashOnCashReturn,
    adjustedAnnualNetCashFlow, cashOnCashReturn, annualNetCashFlow,
    netMonthlyCashFlow.
  now rewrite E.
Qed.

(** ** The engine on concrete properties *)

(** C5. Not every division of calculateMetrics is guarded: the division
    of the annuity formula has no guard for a loan term of 0.  On the
    worked example with loanTermYears = 0 the number of payments is 0,
    the divisor
    (1 + r)^0 - 1 is 0, and the returned record holds Infinity as
    monthly payment and -Infinity as net monthly cash flow,
    cash-on-cash return and annual net cash flow. *)
Theorem C5_zero_term_division_by_zero :
  let m := calculateMetrics Math_pow_frac_NaN zero_term_property in
  numPayments zero_term_shared = 0 /\
  Math_pow Math_pow_frac_NaN (1 + monthlyRate zero_term_shared)
    (numPayments zero_term_shared) - 1 = 0 /\
  m.(FinancialMetrics.monthlyMortgagePayment) = PosInf /\
  m.(FinancialMetrics.netMonthlyCashFlow) = NegInf /\
  m.(FinancialMetrics.cashOnCashReturn) = NegInf /\
  m.(FinancialMetrics.annualNetCashFlow) = NegInf /\
  m.(FinancialMetrics.adjustedCashOnCashReturn) = NegInf.
Proof. vm_compute. repeat split. Qed.

(** C6. The raw values cannot always be recovered from the record: the
    two cash purchases have the same returned record and different raw
    cap rates (120.00 and 119.88), so no function of the record gives
    the raw cap rate. *)
Lemma C6_raw_cap_rate_not_recoverable :
  ~ exists recover : FinancialMetrics.t -> number,
      forall property : Property.t,
        recover (calculateMetrics Math_pow_frac_NaN property) = round2 (capRate property).
Proof.
  intros [recover H].
  pose proof (H (cash_purchase 10000)) as HA.
  pose proof (H (cash_purchase 10010)) as HB.
  assert (E : calculateMetrics Math_pow_frac_NaN (cash_purchase 10000)
              = calculateMetrics Math_pow_frac_NaN (cash_purchase 10010))
    by (vm_compute; reflexivity).
  rewrite E, HB in HA. vm_compute in HA. discriminate HA.
Qed.

(** ** The engine on binary64 numbers *)

(** C7. On binary64 numbers a returned field can be the cent next to
    the nearest one.  For the cottage the PM fee is held as the binary64
    value just below 33.775, whose nearest cent is 33.77; its product
    with 100 rounds to 3377.5, [Math.round] gives 3378, and the returned
    totalMonthlyExpenses is 33.78. *)
Lemma C7_double_rounds_to_the_next_cent :
  exists held : Q,
    Double.to_number (Double.totalMonthlyExpenses tie_property) = Fin held /\
    cent_half_up held 33.77 /\
    (Double.calculateMetrics Double.Math_pow_frac_NaN tie_property)
      .(FinancialMetrics.totalMonthlyExpenses) = Double.nearest_to 33.78 /\
    Double.nearest_to 33.78 <> Double.nearest_to 33.77.
Proof.
  eexists. split; [vm_compute; reflexivity|].
  split; [|split; [vm_compute; reflexivity | vm_compute; discriminate]].
  split; [exists 3377%Z; reflexivity|].
  split; [unfold Qle | unfold Qlt]; vm_compute; [discriminate | reflexivity].
Qed.

(** C8. On binary64 numbers the two returned cash flows can differ by
    100.01: the cottage with its one year-1 expense of 1,200 returns a
    netMonthlyCashFlow of 1,217.22, and with the list emptied 1,317.23
    (the net income is held as 1317.225 and 1217.225 up to the last
    bit; the first goes up to the cent above, the second down). *)
Lemma C8_double_difference_of_100_01 :
  tie_with_year1.(manualExpenses) = Some hvac_expenses /\
  Forall (fun e => e.(ManualExpense.timing) = YEAR_1) hvac_expenses /\
  year1CapEx tie_with_year1 = 1200 /\
  let m := Double.calculateMetrics Double.Math_pow_frac_NaN tie_with_year1 in
  let m0 :=
    Double.calculateMetrics Double.Math_pow_frac_NaN
      (with_manualExpenses tie_with_year1 []) in
  m.(FinancialMetrics.netMonthlyCashFlow) = Double.nearest_to 1217.22 /\
  m0.(FinancialMetrics.netMonthlyCashFlow) = Double.nearest_to 1317.23 /\
  m.(FinancialMetrics.netMonthlyCashFlow)
    <> m0.(FinancialMetrics.netMonthlyCashFlow) - 100 /\
  Double.of_Q 1217.22 <> Double.sub (Double.of_Q 1317.23) (Double.of_Q 100).
Proof.
  split; [reflexivity|]. split; [repeat constructor|]. split; [reflexivity|].
  cbn zeta. split; [vm_compute; reflexivity|]. split; [vm_compute; reflexivity|].
  split; vm_compute; discriminate.
Qed.


(** C10. The default property without its LTR payload returns the
    record with every field 0, on exact numbers and on binary64
    numbers. *)
Lemma C10_degraded_record_all_zero :
  payload_missing default_without_payload /\
  calculateMetrics Math_pow_frac_NaN default_without_payload = zeroMetrics /\
  Double.calculateMetrics Double.Math_pow_frac_NaN default_without_payload
  = zeroMetrics.
Proof. split; [reflexivity|]. split; vm_compute; reflexivity. Qed.

(** *** The exact numbers against the binary64 numbers *)

(** The exact numbers and the binary64 numbers part in the last cent:
    the PM fee of the bungalow, 75.225, is returned as 75.23 by the first
    and as 75.22 by the second, where the value held lies just below
    75.225. *)
Example round2_exact_and_double :
  (calculateMetrics Math_pow_frac_NaN fee_property)
    .(FinancialMetrics.totalMonthlyExpenses) = Fin 75.23 /\
  (Double.calculateMetrics Double.Math_pow_frac_NaN fee_property)
    .(FinancialMetrics.totalMonthlyExpenses) = Double.nearest_to 75.22.
Proof. split; vm_compute; reflexivity. Qed.

(** The sum of the manual expenses is taken in the order of the list,
    and on binary64 numbers the order shows: the three small repairs
    give an immediateCapEx of 3.40 and, the last two swapped, of 3.39;
    on exact numbers both are 3.40. *)
Example capExOf_exact_and_double :
  Double.to_number (Double.round2 (Double.capExOf IMMEDIATE small_repairs))
  = Double.nearest_to 3.40 /\
  Double.to_number (Double.round2 (Double.capExOf IMMEDIATE small_repairs_swapped))
  = Double.nearest_to 3.39 /\
  round2 (capExOf IMMEDIATE small_repairs) = Fin (17 # 5) /\
  round2 (capExOf IMMEDIATE small_repairs_swapped) = Fin (17 # 5).
Proof. repeat split; vm_compute; reflexivity. Qed.

(** At a rate of 0.000000000000001% the loan of 12,000 over one year
    costs 1,000.00 a month on exact numbers, and Infinity on binary64
    numbers, where 1 + r is 1 and the divisor is 0. *)
Example payment_exact_and_double :
  (calculateMetrics Math_pow_frac_NaN
     (with_shared starter_property (with_interestRate starter_shared (Fin (1 # 10 ^ 15)))))
    .(FinancialMetrics.monthlyMortgagePayment) = 1000 /\
  (Double.calculateMetrics Double.Math_pow_frac_NaN
     (with_shared starter_property (with_interestRate starter_shared (Fin (1 # 10 ^ 15)))))
    .(FinancialMetrics.monthlyMortgagePayment) = PosInf.
Proof. split; vm_compute; reflexivity. Qed.

(** At 1200% over 86 years the power 2^1032 overflows to Infinity on
    binary64 numbers and the payment, Infinity / Infinity, is NaN; on
    exact numbers it is 12,000.00. *)
Example payment_overflow_exact_and_double :
  (calculateMetrics Math_pow_frac_NaN (with_shared starter_property long_loan_shared))
    .(FinancialMetrics.monthlyMortgagePayment) = 12000 /\
  (Double.calculateMetrics Double.Math_pow_frac_NaN
     (with_shared starter_property long_loan_shared))
    .(FinancialMetrics.monthlyMortgagePayment) = NaN.
Proof. split; vm_compute; reflexivity. Qed.

(** ** The theorems at concrete properties *)

(** Each theorem above that has premises, applied to one of the concrete
    properties, with its premises checked there. *)

Lemma C1_selection_rule_witness :
  ((totalManualCapEx starter_with_year1 >? 0) = true /\
   (calculateMetrics Math_pow_frac_NaN starter_with_year1).(FinancialMetrics.capRate)
   = round2 (adjustedCapRate starter_with_year1)) /\
  (num_eqb (totalManualCapEx starter_property) 0 = true /\
   (calculateMetrics Math_pow_frac_NaN starter_property).(FinancialMetrics.capRate)
   = round2 (capRate starter_property)).
Proof.
  pose proof (proj2 (C1_selection_rule Math_pow_frac_NaN starter_with_year1)) as H1.
  pose proof (proj2 (C1_selection_rule Math_pow_frac_NaN starter_property)) as H0.
  split; (split; [reflexivity|]).
  - exact (proj1 (proj2 (proj2 (proj2 (proj1 H1 eq_refl))))).
  - exact (proj1 (proj2 (proj2 (proj2 (proj2 H0 eq_refl))))).
Defined.

Lemma C2_mortgage_payment_witness :
  activeLoanBalance starter_shared = Fin 12000 /\ (0 <= 12000)%Q /\
  starter_shared.(interestRate) = Fin 12 /\ (0 <= 12)%Q /\
  (calculateMetrics Math_pow_frac_NaN starter_property)
    .(FinancialMetrics.monthlyMortgagePayment)
  = round2 (annuity_payment Math_pow_frac_NaN (activeLoanBalance starter_shared)
              (starter_shared.(interestRate) / 12 / 100)
              (starter_shared.(loanTermYears) * 12)).
Proof.
  assert (Hb : activeLoanBalance starter_shared = Fin 12000) by reflexivity.
  assert (Hr : starter_shared.(interestRate) = Fin 12) by reflexivity.
  assert (HP : (0 <= 12000)%Q) by (unfold Qle; simpl; lia).
  assert (HR : (0 <= 12)%Q) by (unfold Qle; simpl; lia).
  do 4 (split; [assumption|]).
  refine (proj2 (proj2 (proj2 (C2_mortgage_payment Math_pow_frac_NaN starter_property
                                 12000%Q 12%Q Hb HP Hr HR))) _ _).
  - intros E. unfold Qeq in E. simpl in E. lia.
  - reflexivity.
Defined.

Lemma C3_income_and_expenses_witness :
  example_property.(type) = LTR /\
  example_property.(ltr) = Some example_ltr /\
  activeLoanBalance example_property.(shared) = 200000 /\
  example_property.(shared).(interestRate) = 6 /\
  example_property.(shared).(loanTermYears) = 30 /\
  manualExpensesOf example_property = [] /\
  let m := calculateMetrics Math_pow_frac_NaN example_property in
  m.(FinancialMetrics.grossMonthlyIncome) = 3000 /\
  m.(FinancialMetrics.totalMonthlyExpenses) = 650 /\
  m.(FinancialMetrics.monthlyMortgagePayment) = Fin 1199.1 /\
  m.(FinancialMetrics.netMonthlyCashFlow) = Fin 1150.9.
Proof.
  do 6 (split; [reflexivity|]).
  exact (proj2 (proj2 (C3_income_and_expenses Math_pow_frac_NaN example_property))
           example_ltr eq_refl eq_refl eq_refl eq_refl eq_refl eq_refl eq_refl
           eq_refl eq_refl eq_refl eq_refl eq_refl).
Defined.

Lemma C4_portfolio_totals_witness :
  let portfolio :=
    [ PropertyAnalysis.mk starter_property
        (calculateMetrics Math_pow_frac_NaN starter_property);
      PropertyAnalysis.mk starter_with_year1
        (calculateMetrics Math_pow_frac_NaN starter_with_year1) ] in
  portfolio <> [] /\
  (totals portfolio 6).(Totals.avgCapRate) =
    sum_numbers
      (map (fun p => p.(PropertyAnalysis.metrics).(FinancialMetrics.capRate)) portfolio)
    / Fin (inject_Z (Z.of_nat (List.length portfolio))).
Proof.
  cbn zeta. split; [discriminate|].
  refine (proj1 (proj1 (proj2 (proj2 (proj2 (proj2 (proj2
            (C4_portfolio_totals _ 6)))))) _)).
  discriminate.
Defined.

Lemma C6_adjusted_always_raw_when_unselected_witness :
  ((totalManualCapEx starter_property >? 0) = false /\
   (calculateMetrics Math_pow_frac_NaN starter_property).(FinancialMetrics.capRate)
   = round2 (capRate starter_property)) /\
  ((totalManualCapEx (cash_purchase 10000) >? 0) = true /\
   (calculateMetrics Math_pow_frac_NaN (cash_purchase 10000)).(FinancialMetrics.capRate)
   = (calculateMetrics Math_pow_frac_NaN (cash_purchase 10000))
       .(FinancialMetrics.adjustedCapRate)).
Proof.
  pose proof (proj2 (C6_adjusted_always_raw_when_unselected
                       Math_pow_frac_NaN starter_property)) as H0.
  pose proof (proj2 (C6_adjusted_always_raw_when_unselected
                       Math_pow_frac_NaN (cash_purchase 10000))) as H1.
  split; (split; [reflexivity|]).
  - exact (proj1 (proj2 (proj2 (proj1 H0 eq_refl)))).
  - exact (proj1 (proj2 (proj2 (proj2 H1 eq_refl)))).
Defined.

Lemma C8_year1_capex_witness :
  starter_with_year1.(manualExpenses) = Some year1_expenses /\
  Forall (fun e => e.(ManualExpense.timing) = YEAR_1) year1_expenses /\
  year1CapEx starter_with_year1 = 1200 /\
  (calculateMetrics Math_pow_frac_NaN starter_with_year1)
    .(FinancialMetrics.netMonthlyCashFlow)
  = (calculateMetrics Math_pow_frac_NaN (with_manualExpenses starter_with_year1 []))
      .(FinancialMetrics.netMonthlyCashFlow) - 100.
Proof.
  assert (He : starter_with_year1.(manualExpenses) = Some year1_expenses)
    by reflexivity.
  assert (Ha : Forall (fun e => e.(ManualExpense.timing) = YEAR_1) year1_expenses)
    by (repeat constructor).
  assert (Hy : year1CapEx starter_with_year1 = 1200) by reflexivity.
  do 3 (split; [assumption|]).
  exact (proj1 (C8_year1_capex Math_pow_frac_NaN starter_with_year1
                  year1_expenses He Ha Hy)).
Defined.


Lemma C10_missing_payload_witness :
  payload_missing degraded_property /\
  let m := calculateMetrics Math_pow_frac_NaN degraded_property in
  m.(FinancialMetrics.grossMonthlyIncome) = 0 /\
  m.(FinancialMetrics.totalMonthlyExpenses) = 0 /\
  m.(FinancialMetrics.monthlyMortgagePayment) = Fin 1066.19 /\
  m.(FinancialMetrics.initialCashInvested) = 52500 /\
  m.(FinancialMetrics.totalManualCapEx) = 4200 /\
  m.(FinancialMetrics.immediateCapEx) = 3000 /\
  m.(FinancialMetrics.year1CapEx) = 1200 /\
  m.(FinancialMetrics.adjustedInitialCashInvested) = 52500 /\
  m.(FinancialMetrics.netMonthlyCashFlow) = Fin (-1166.19) /\
  m <> zeroMetrics.
Proof.
  assert (Hm : payload_missing degraded_property) by reflexivity.
  destruct (C10_missing_payload Math_pow_frac_NaN degraded_property Hm)
    as (H1 & H2 & H3 & H4 & H5 & H6 & H7 & H8 & H9 & _ & H11).
  split; [exact Hm|]. cbn zeta.
  split; [exact H1|]. split; [exact H2|].
  split; [etransitivity; [exact H3 | vm_compute; reflexivity]|].
  split; [etransitivity; [exact H4 | vm_compute; reflexivity]|].
  split; [etransitivity; [exact H5 | vm_compute; reflexivity]|].
  split; [etransitivity; [exact H6 | vm_compute; reflexivity]|].
  split; [etransitivity; [exact H7 | vm_compute; reflexivity]|].
  split; [etransitivity; [exact H8 | vm_compute; reflexivity]|].
  split; [etransitivity; [exact H9 | vm_compute; reflexivity]|].
  apply H11. left. rewrite H3. vm_compute. discriminate.
Defined.

(** ** The properties of the engine and the pages at concrete inputs *)

Lemma payment_amortizes_loan_witness :
  activeLoanBalance starter_shared = Fin 12000 /\
  starter_shared.(interestRate) = Fin 12 /\
  numPayments starter_shared = Fin (inject_Z (Z.of_nat 12)) /\
  exists m : Q,
    monthlyMortgagePayment Math_pow_frac_NaN starter_shared = Fin m /\
    (balance_after 12000 (12 / 100 / 12) m 12 == 0)%Q.
Proof.
  assert (HP : (0 < 12000)%Q) by reflexivity.
  assert (HR : (0 < 12)%Q) by reflexivity.
  assert (Hn : (0 < 12)%nat) by lia.
  do 3 (split; [reflexivity|]).
  exact (payment_amortizes_loan Math_pow_frac_NaN starter_shared 12000%Q 12%Q 12%nat
           eq_refl HP eq_refl HR eq_refl Hn).
Defined.

Lemma payments_exceed_principal_witness :
  activeLoanBalance starter_shared = Fin 12000 /\
  starter_shared.(interestRate) = Fin 12 /\
  numPayments starter_shared = Fin (inject_Z (Z.of_nat 12)) /\
  exists m : Q,
    monthlyMortgagePayment Math_pow_frac_NaN starter_shared = Fin m /\
    (0 < m)%Q /\ (12000 < inject_Z (Z.of_nat 12) * m)%Q.
Proof.
  assert (HP : (0 < 12000)%Q) by reflexivity.
  assert (HR : (0 < 12)%Q) by reflexivity.
  assert (Hn : (0 < 12)%nat) by lia.
  do 3 (split; [reflexivity|]).
  exact (payments_exceed_principal Math_pow_frac_NaN starter_shared 12000%Q 12%Q 12%nat
           eq_refl HP eq_refl HR eq_refl Hn).
Defined.

Lemma immediate_expenses_keep_cash_flows_witness :
  (cash_purchase 10000).(manualExpenses) = Some repair_expenses /\
  Forall (fun e => e.(ManualExpense.timing) = IMMEDIATE) repair_expenses /\
  (calculateMetrics Math_pow_frac_NaN (cash_purchase 10000))
    .(FinancialMetrics.netMonthlyCashFlow)
  = (calculateMetrics Math_pow_frac_NaN (with_manualExpenses (cash_purchase 10000) []))
      .(FinancialMetrics.netMonthlyCashFlow).
Proof.
  assert (Hall : Forall (fun e => e.(ManualExpense.timing) = IMMEDIATE) repair_expenses)
    by (repeat constructor).
  split; [reflexivity|]. split; [exact Hall|].
  exact (proj1 (immediate_expenses_keep_cash_flows Math_pow_frac_NaN
                  (cash_purchase 10000) repair_expenses eq_refl Hall)).
Defined.

Lemma capRate_at_valuation_witness :
  annualNOI (cash_purchase 200000) = Fin 12000 /\
  (cash_purchase 200000).(shared).(purchasePrice)
  = calculateValuation (Fin 12000) (Fin 6) /\
  capRate (cash_purchase 200000) = Fin (Qred 6).
Proof.
  assert (Hn : (0 < 12000)%Q) by reflexivity.
  assert (Hr : (0 < 6)%Q) by reflexivity.
  do 2 (split; [reflexivity|]).
  exact (capRate_at_valuation (cash_purchase 200000) 12000%Q 6%Q eq_refl Hn Hr eq_refl).
Defined.


Lemma report_agrees_with_dashboard_witness :
  isNaN 6 = false /\
  (reportMetrics (HomeState.properties (saved_home Math_pow_frac_NaN)) 6)
    .(ReportMetrics.estimatedValue)
  = (totals (HomeState.properties (saved_home Math_pow_frac_NaN)) 6)
      .(Totals.portfolioValuation).
Proof.
  split; [reflexivity|].
  exact (proj1 (proj2 (proj2 (proj2 (proj2 (proj2 (proj2 (proj2
           (report_agrees_with_dashboard
              (HomeState.properties (saved_home Math_pow_frac_NaN)) 6 eq_refl))))))))).
Defined.

Lemma home_invariant_kept_witness :
  home_invariant Math_pow_frac_NaN initial_home /\
  home_reachable Math_pow_frac_NaN initial_home (saved_home Math_pow_frac_NaN) /\
  home_invariant Math_pow_frac_NaN (saved_home Math_pow_frac_NaN).
Proof.
  assert (Hinit : home_invariant Math_pow_frac_NaN initial_home).
  { unfold home_invariant, analyses_consistent, MAX_SAVED_PORTFOLIOS.
    cbn [initial_home HomeState.properties HomeState.savedPortfolios List.length].
    split; [constructor|]. split; [constructor|lia]. }
  assert (Hreach : home_reachable Math_pow_frac_NaN initial_home
                     (saved_home Math_pow_frac_NaN)).
  { unfold saved_home. apply reach_save.
    apply (reach_edit Math_pow_frac_NaN initial_home
             (handleAddProperty Math_pow_frac_NaN initial_home starter_property));
      [|reflexivity..].
    apply reach_add, reach_init. }
  split; [exact Hinit|]. split; [exact Hreach|].
  exact (home_invariant_kept Math_pow_frac_NaN initial_home
           (saved_home Math_pow_frac_NaN) Hinit Hreach).
Defined.

Lemma savePortfolio_stale_update_witness :
  (deleted_home Math_pow_frac_NaN).(HomeState.currentLoadedPortfolioId)
  = Some "id-1"%string /\
  (deleted_home Math_pow_frac_NaN).(HomeState.savedPortfolios) = [] /\
  (let result :=
     savePortfolio (deleted_home Math_pow_frac_NaN) false "id-2"
       "2026-01-02T00:00:00.000Z" in
   (fst result).(HomeState.savedPortfolios)
   = (deleted_home Math_pow_frac_NaN).(HomeState.savedPortfolios) /\
   snd result = "Portfolio updated"%string).
Proof.
  assert (Hprops : (deleted_home Math_pow_frac_NaN).(HomeState.properties) <> [])
    by discriminate.
  assert (Hall : Forall (fun sp => sp.(SavedPortfolio.id) <> "id-1"%string)
                   (deleted_home Math_pow_frac_NaN).(HomeState.savedPortfolios))
    by constructor.
  do 2 (split; [reflexivity|]).
  exact (savePortfolio_stale_update (deleted_home Math_pow_frac_NaN) "id-1" "id-2"
           "2026-01-02T00:00:00.000Z" eq_refl Hprops eq_refl eq_refl Hall).
Defined.

Lemma entered_expenses_select_adjusted_witness :
  entered_expenses form_expenses /\
  hasManualCapEx (with_manualExpenses starter_property form_expenses) = true /\
  totalAll form_expenses
  = totalManualCapEx (with_manualExpenses starter_property form_expenses).
Proof.
  assert (He : entered_expenses form_expenses)
    by (unfold form_expenses; repeat apply entered_add; apply entered_none).
  assert (Hne : form_expenses <> []) by discriminate.
  pose proof (entered_expenses_select_adjusted
                (with_manualExpenses starter_property form_expenses) form_expenses
                He eq_refl) as H.
  split; [exact He|]. split.
  - exact (proj2 (proj1 (proj2 H)) Hne).
  - exact (proj2 (proj2 H)).
Defined.

Lemma autofill_consistent_witness :
  typed_price_property.(shared).(purchasePrice) = Fin 250000 /\
  (let s := (autofillFromPurchasePrice 250000 typed_price_property).(shared) in
   s.(downpayment) + s.(loanAmount) = Fin (Qred 250000) /\
   s.(downpayment) = 50000 /\ s.(loanAmount) = 200000).
Proof.
  assert (Hp : (0 < 250000)%Q) by reflexivity.
  split; [reflexivity|]. split; [|split; reflexivity].
  exact (proj1 (autofill_consistent typed_price_property 250000%Q eq_refl Hp)).
Defined.

Lemma sql_name_reads_back_witness :
  sqlQuoteName "O'Brien Duplex" = "O''Brien Duplex"%string /\
  sqlReadLiteral (sqlQuoteName "O'Brien Duplex" ++ String "'"%char ", 'LTR');")
  = Some ("O'Brien Duplex"%string, ", 'LTR');"%string).
Proof.
  split; [reflexivity|].
  exact (sql_name_reads_back "O'Brien Duplex" ", 'LTR');" eq_refl).
Defined.

Lemma chartName_bounded_witness :
  (12 < String.length "Maple Street Fourplex")%nat /\
  String.length (chartName "Maple Street Fourplex") = 15%nat /\
  chartName "Elm Duplex" = "Elm Duplex"%string.
Proof.
  assert (Hlong : (12 < String.length "Maple Street Fourplex")%nat)
    by (cbn [String.length]; lia).
  assert (Hshort : (String.length "Elm Duplex" <= 12)%nat)
    by (cbn [String.length]; lia).
  split; [exact Hlong|]. split.
  - exact (proj2 (proj2 (proj2 (chartName_bounded "Maple Street Fourplex"))) Hlong).
  - exact (proj1 (proj2 (proj2 (chartName_bounded "Elm Duplex"))) Hshort).
Defined.

Lemma cumulativeData_points_witness :
  HomeState.properties (saved_home Math_pow_frac_NaN) <> [] /\
  last (cumulativeData (HomeState.properties (saved_home Math_pow_frac_NaN))) 0
  = (reportMetrics (HomeState.properties (saved_home Math_pow_frac_NaN)) 6)
      .(ReportMetrics.netMonthlyCashFlow).
Proof.
  assert (Hne : HomeState.properties (saved_home Math_pow_frac_NaN) <> [])
    by discriminate.
  split; [exact Hne|].
  exact (proj2 (proj2 (cumulativeData_points
                         (HomeState.properties (saved_home Math_pow_frac_NaN)) 6)) Hne).
Defined.
